(** * The plasma object directory (ray/object_manager/plasma/object_directory.cc)

    A shallow embedding of [plasma::ObjectDirectory] and of the methods of
    [plasma::ObjectTableEntry] it is built on.

    - The object table is a finite map from object ids to entries; the
      deletion cache and every client's [object_ids] are finite sets.
    - The directory mutates the table, the allocator, the eviction policy, the
      external store and the borrowed [Client] records: every method is a
      computation in a state monad over [Directory].
    - A failed [RAY_CHECK] terminates the process: [CheckFailed].
    - [AllocateMemory] loops ([while (true)]) until the allocator or the
      eviction policy gives up; the loop takes fuel and answers [OutOfFuel]
      when it runs out.
    - The allocator, the eviction policy and the external store are the
      collaborators of the directory: interfaces (type classes) here.
    - The build modelled is the one without PLASMA_CUDA.
    - Sizes and offsets are [int64_t] ([ptrdiff_t]) in the source: they are
      integers here, and the two sums object_directory.cc takes of them (the
      total size of a new object, the offset of its metadata) wrap around on
      64 bits ([int64_wrap]). Reference counts and times are integers.
    - [notifications_callback_] is a function given to the constructor: what
      it is handed is recorded in [notified], and the table as it stands when
      it is called in [observed].
    - The bytes of the objects are not modelled (memcpy and the contents of
      buffers handed to the external store leave no trace here). *)

From stdpp Require Import gmap list strings pretty.
From Stdlib Require Import ZArith Lia.

Local Open Scope Z_scope.

(** ** Integers of 64 bits *)

(** The values of an [int64_t]. *)
Definition is_int64 (z : Z) : Prop := - 2 ^ 63 <= z < 2 ^ 63.

(** What an [int64_t] holds after an addition: the sum modulo [2 ^ 64], in
    two's complement. *)
Definition int64_wrap (z : Z) : Z := (z + 2 ^ 63) mod 2 ^ 64 - 2 ^ 63.

Arguments int64_wrap : simpl never.

(** ** Identifiers, statuses, entries *)

Abbreviation ObjectID := N.

(** A [Client*]: the record behind it lives in the [clients] store of the
    directory state. *)
Abbreviation ClientID := N.

(** The [ray::Status] codes this file produces or tests, without messages. *)
Inductive Status :=
  | StatusOK
  | StatusOutOfMemory
  | StatusObjectExists
  | StatusObjectStoreFull
  | StatusIOError.

Definition ok (s : Status) : bool :=
  match s with StatusOK => true | _ => false end.

Inductive PlasmaError :=
  | PlasmaError_OK
  | PlasmaError_ObjectExists
  | PlasmaError_ObjectNonexistent
  | PlasmaError_OutOfMemory
  | PlasmaError_ObjectNotSealed
  | PlasmaError_ObjectInUse.

Inductive ObjectStatus := OBJECT_NOT_FOUND | OBJECT_FOUND.

Inductive ObjectState := PLASMA_CREATED | PLASMA_SEALED | PLASMA_EVICTED.

Global Instance ObjectState_eq_dec : EqDecision ObjectState.
Proof. solve_decision. Defined.

(** [pointer = None] is the null pointer. *)
Record ObjectTableEntry := mkEntry {
  state : ObjectState;
  data_size : Z;
  metadata_size : Z;
  pointer : option Z;
  device_num : Z;
  fd : Z;
  map_size : Z;
  offset : Z;
  ref_count : Z;
  create_time : Z;
  construct_duration : Z
}.

Definition set_state (s : ObjectState) (e : ObjectTableEntry) : ObjectTableEntry :=
  mkEntry s (data_size e) (metadata_size e) (pointer e) (device_num e) (fd e)
          (map_size e) (offset e) (ref_count e) (create_time e) (construct_duration e).

Definition set_sizes (d m : Z) (e : ObjectTableEntry) : ObjectTableEntry :=
  mkEntry (state e) d m (pointer e) (device_num e) (fd e)
          (map_size e) (offset e) (ref_count e) (create_time e) (construct_duration e).

Definition set_mapping (p : option Z) (f ms off : Z) (e : ObjectTableEntry) : ObjectTableEntry :=
  mkEntry (state e) (data_size e) (metadata_size e) p (device_num e) f
          ms off (ref_count e) (create_time e) (construct_duration e).

Definition set_device_num (dv : Z) (e : ObjectTableEntry) : ObjectTableEntry :=
  mkEntry (state e) (data_size e) (metadata_size e) (pointer e) dv (fd e)
          (map_size e) (offset e) (ref_count e) (create_time e) (construct_duration e).

Definition set_ref_count (r : Z) (e : ObjectTableEntry) : ObjectTableEntry :=
  mkEntry (state e) (data_size e) (metadata_size e) (pointer e) (device_num e) (fd e)
          (map_size e) (offset e) r (create_time e) (construct_duration e).

Definition set_create_time (t : Z) (e : ObjectTableEntry) : ObjectTableEntry :=
  mkEntry (state e) (data_size e) (metadata_size e) (pointer e) (device_num e) (fd e)
          (map_size e) (offset e) (ref_count e) t (construct_duration e).

Definition set_construct_duration (t : Z) (e : ObjectTableEntry) : ObjectTableEntry :=
  mkEntry (state e) (data_size e) (metadata_size e) (pointer e) (device_num e) (fd e)
          (map_size e) (offset e) (ref_count e) (create_time e) t.

(** Modelled from the spec: [ObjectTableEntry::ObjectSize], declared in
    object_directory.h; "object_size() = data_size + metadata_size". *)
Definition ObjectSize (e : ObjectTableEntry) : Z := data_size e + metadata_size e.

(** Modelled from the spec: [ObjectTableEntry::Reset], declared in
    object_directory.h; it "reset[s] pointer/fd/map_size/offset" and touches
    nothing else. *)
Definition Reset (e : ObjectTableEntry) : ObjectTableEntry :=
  set_mapping None (-1) 0 0 e.

(** Modelled from the spec: the constructor of [ObjectTableEntry], declared in
    object_directory.h. The pointer is null and nobody references the entry;
    the state is the one the spec pairs with a null pointer. *)
Definition new_ObjectTableEntry : ObjectTableEntry :=
  mkEntry PLASMA_EVICTED 0 0 None 0 (-1) 0 0 0 0 (-1).

(** Modelled from the spec: [ObjectTableEntry::GetArrowBuffer], declared in
    object_directory.h: the block of the object, as its start and length. *)
Definition GetArrowBuffer (e : ObjectTableEntry) : option Z * Z :=
  (pointer e, ObjectSize e).

(** The descriptor handed to clients. *)
Record PlasmaObject := mkPlasmaObject {
  store_fd : Z;
  data_offset : Z;
  metadata_offset : Z;
  po_data_size : Z;
  po_metadata_size : Z;
  po_device_num : Z;
  po_map_size : Z;
  initialized : bool
}.

Definition PlasmaObject_init (entry : ObjectTableEntry) : PlasmaObject :=
  {| store_fd := fd entry;
     data_offset := offset entry;
     metadata_offset := int64_wrap (offset entry + data_size entry);
     po_data_size := data_size entry;
     po_metadata_size := metadata_size entry;
     po_device_num := device_num entry;
     po_map_size := map_size entry;
     initialized := true |}.

(** Modelled from the spec: the notification record [ObjectInfoT]
    "{object_id, data_size, metadata_size, is_deletion}"; a fresh record has
    zero sizes and [is_deletion = false]. *)
Record ObjectInfoT := mkInfo {
  info_object_id : ObjectID;
  info_data_size : Z;
  info_metadata_size : Z;
  is_deletion : bool
}.

Definition new_ObjectInfoT : ObjectInfoT := mkInfo 0%N 0 0 false.

Definition deletion_info (object_id : ObjectID) : ObjectInfoT :=
  mkInfo object_id (info_data_size new_ObjectInfoT)
         (info_metadata_size new_ObjectInfoT) true.

Definition sealed_info (object_id : ObjectID) (e : ObjectTableEntry) : ObjectInfoT :=
  mkInfo object_id (data_size e) (metadata_size e) (is_deletion new_ObjectInfoT).

(** ** The collaborators *)

(** [PlasmaAllocator]: [Memalign] answers the address or null. *)
Class PlasmaAllocator (A : Type) := {
  Memalign : Z -> Z -> A -> option Z * A;
  Free : option Z -> Z -> A -> A;
  (** [GetMallocMapinfo]: fd, map_size and offset of the mapping of an address *)
  GetMallocMapinfo : option Z -> A -> Z * Z * Z
}.

(** [EvictionPolicy]: it keeps object ids only and decides from its own
    state; the lists are the [objects_to_evict] out-parameters. *)
Class EvictionPolicy (P : Type) := {
  ObjectCreated : ObjectID -> Z -> ClientID -> bool -> P -> P;
  BeginObjectAccess : ObjectID -> Z -> P -> P;
  EndObjectAccess : ObjectID -> Z -> P -> P;
  RequireSpace : Z -> P -> bool * list ObjectID * P;
  EnforcePerClientQuota : ClientID -> Z -> bool -> P -> bool * list ObjectID * P;
  ChooseObjectsToEvict : Z -> P -> Z * list ObjectID * P;
  RemoveObject : ObjectID -> P -> P;
  ClientDisconnected : ClientID -> P -> P
}.

(** [ExternalStore]: the buffers are the blocks of the objects. *)
Class ExternalStore (X : Type) := {
  Put : list ObjectID -> list (option Z * Z) -> X -> Status * X;
  Get : list ObjectID -> list (option Z * Z) -> X -> Status * X
}.

(** ** The directory state and its monad *)

Inductive Res (S T : Type) :=
  | Done (a : T) (s : S)
  | CheckFailed
  | OutOfFuel.
Arguments Done {S T} a s.
Arguments CheckFailed {S T}.
Arguments OutOfFuel {S T}.

Definition ret {S T} (a : T) : S -> Res S T := fun d => Done a d.

Definition bind {S T U} (c : S -> Res S T) (k : T -> S -> Res S U) : S -> Res S U :=
  fun d => match c d with
           | Done a d' => k a d'
           | CheckFailed => CheckFailed
           | OutOfFuel => OutOfFuel
           end.

Notation "'let*' x := c 'in' k" := (bind c (fun x => k))
  (at level 10, x name, c at level 100, k at level 200, only parsing).
Notation "'let*' ' pat := c 'in' k" := (bind c (fun x => match x with pat => k end))
  (at level 10, pat pattern, c at level 100, k at level 200, only parsing).
Notation "c ;;; k" := (bind c (fun _ => k))
  (at level 100, k at level 200, only parsing, right associativity).

(** A failed check stops the process, whatever the state. *)
Definition RAY_CHECK {S} (b : bool) : S -> Res S unit :=
  fun d => if b then Done tt d else CheckFailed.

Fixpoint for_each {S T} (l : list T) (f : T -> S -> Res S unit) : S -> Res S unit :=
  match l with
  | [] => ret tt
  | x :: l' => f x ;;; for_each l' f
  end.

Section Directory.

Context {A P X : Type} `{PlasmaAllocator A} `{EvictionPolicy P} `{ExternalStore X}.

(** [kBlockSize], a constant of the allocator's header. *)
Variable kBlockSize : Z.

(** What the [n]-th call of [std::time(nullptr)] answers. *)
Variable wall_clock : nat -> Z.

(** The members of [ObjectDirectory], and what they reach: the allocator
    (static in the source), the notifications handed to
    [notifications_callback_] (one list per call, oldest call first), the
    [object_ids] of every [Client], how many times the clock was read, and
    the object table as it stood at each call of [notifications_callback_]
    (oldest call first). *)
Record Directory := mkDirectory {
  object_table_ : gmap ObjectID ObjectTableEntry;
  deletion_cache_ : gset ObjectID;
  eviction_policy_ : P;
  external_store_ : option X;
  allocator : A;
  notified : list (list ObjectInfoT);
  clients : gmap ClientID (gset ObjectID);
  clock : nat;
  observed : list (gmap ObjectID ObjectTableEntry)
}.

Definition M (T : Type) : Type := Directory -> Res Directory T.

Definition get_dir : M Directory := fun d => Done d d.

Definition modify (f : Directory -> Directory) : M unit := fun d => Done tt (f d).

Definition upd_object_table
    (f : gmap ObjectID ObjectTableEntry -> gmap ObjectID ObjectTableEntry)
    (d : Directory) : Directory :=
  mkDirectory (f (object_table_ d)) (deletion_cache_ d) (eviction_policy_ d)
              (external_store_ d) (allocator d) (notified d) (clients d) (clock d)
              (observed d).

Definition upd_deletion_cache (f : gset ObjectID -> gset ObjectID) (d : Directory)
  : Directory :=
  mkDirectory (object_table_ d) (f (deletion_cache_ d)) (eviction_policy_ d)
              (external_store_ d) (allocator d) (notified d) (clients d) (clock d)
              (observed d).

Definition upd_eviction_policy (f : P -> P) (d : Directory) : Directory :=
  mkDirectory (object_table_ d) (deletion_cache_ d) (f (eviction_policy_ d))
              (external_store_ d) (allocator d) (notified d) (clients d) (clock d)
              (observed d).

Definition upd_external_store (x : option X) (d : Directory) : Directory :=
  mkDirectory (object_table_ d) (deletion_cache_ d) (eviction_policy_ d)
              x (allocator d) (notified d) (clients d) (clock d)
              (observed d).

Definition upd_allocator (f : A -> A) (d : Directory) : Directory :=
  mkDirectory (object_table_ d) (deletion_cache_ d) (eviction_policy_ d)
              (external_store_ d) (f (allocator d)) (notified d) (clients d) (clock d)
              (observed d).

Definition upd_notified (f : list (list ObjectInfoT) -> list (list ObjectInfoT))
    (d : Directory) : Directory :=
  mkDirectory (object_table_ d) (deletion_cache_ d) (eviction_policy_ d)
              (external_store_ d) (allocator d) (f (notified d)) (clients d) (clock d)
              (observed d).

Definition upd_clients (f : gmap ClientID (gset ObjectID) -> gmap ClientID (gset ObjectID))
    (d : Directory) : Directory :=
  mkDirectory (object_table_ d) (deletion_cache_ d) (eviction_policy_ d)
              (external_store_ d) (allocator d) (notified d) (f (clients d)) (clock d)
              (observed d).

Definition upd_observed
    (f : list (gmap ObjectID ObjectTableEntry) -> list (gmap ObjectID ObjectTableEntry))
    (d : Directory) : Directory :=
  mkDirectory (object_table_ d) (deletion_cache_ d) (eviction_policy_ d)
              (external_store_ d) (allocator d) (notified d) (clients d) (clock d)
              (f (observed d)).

Definition tick (d : Directory) : Directory :=
  mkDirectory (object_table_ d) (deletion_cache_ d) (eviction_policy_ d)
              (external_store_ d) (allocator d) (notified d) (clients d) (S (clock d))
              (observed d).

Definition with_object_table
    (f : gmap ObjectID ObjectTableEntry -> gmap ObjectID ObjectTableEntry) : M unit :=
  modify (upd_object_table f).

Definition with_deletion_cache (f : gset ObjectID -> gset ObjectID) : M unit :=
  modify (upd_deletion_cache f).

Definition with_eviction_policy (f : P -> P) : M unit :=
  modify (upd_eviction_policy f).

Definition set_external_store (x : option X) : M unit :=
  modify (upd_external_store x).

Definition with_allocator (f : A -> A) : M unit :=
  modify (upd_allocator f).

(** A call of [notifications_callback_]: the list is appended to the record
    of what was notified, and the table the callback finds to the record of
    what it could observe. *)
Definition notifications_callback_ (infos : list ObjectInfoT) : M unit :=
  modify (fun d => upd_observed (fun o => o ++ [object_table_ d])
                     (upd_notified (fun l => l ++ [infos]) d)).

(** [std::time(nullptr)]. *)
Definition std_time : M Z :=
  fun d => Done (wall_clock (clock d)) (tick d).

(** [client->object_ids]; a client the directory has not met holds nothing. *)
Definition object_ids (client : ClientID) (d : Directory) : gset ObjectID :=
  default ∅ (clients d !! client).

Definition with_object_ids (client : ClientID) (f : gset ObjectID -> gset ObjectID)
  : M unit :=
  fun d => Done tt (upd_clients (<[client := f (object_ids client d)]>) d).

(** ** Pointers to entries

    An [ObjectTableEntry*] points either to the entry the table owns for an
    id, or to an entry not yet in the table (the [unique_ptr] of
    [CreateObjectInternal]). No method of this file erases a table entry
    while it holds a pointer to it, so [deref] finds the entry. *)
Inductive EntryPtr :=
  | InTable (object_id : ObjectID)
  | Detached (e : ObjectTableEntry).

Definition deref (p : EntryPtr) : M ObjectTableEntry :=
  fun d => match p with
           | InTable object_id =>
               match object_table_ d !! object_id with
               | Some e => Done e d
               | None => CheckFailed
               end
           | Detached e => Done e d
           end.

(** Writing through the pointer; the answer is the pointer to the entry as
    written. *)
Definition assign (p : EntryPtr) (e : ObjectTableEntry) : M EntryPtr :=
  match p with
  | InTable object_id => with_object_table (<[object_id := e]>) ;;; ret (InTable object_id)
  | Detached _ => ret (Detached e)
  end.

(** ** ObjectTableEntry *)

Definition FreeObject (this : EntryPtr) : M EntryPtr :=
  let* e := deref this in
  let buff_size := ObjectSize e in
  (if device_num e =? 0
   then with_allocator (Free (pointer e) buff_size)
   else ret tt) ;;;
  assign this (set_state PLASMA_EVICTED (Reset e)).

Definition call_Memalign (alignment size : Z) : M (option Z) :=
  fun d => let '(address, a) := Memalign alignment size (allocator d) in
           Done address (upd_allocator (fun _ => a) d).

(** [ObjectTableEntry::AllocateMemory(device_id, size)]. *)
Definition ObjectTableEntry_AllocateMemory (this : EntryPtr) (device_id size : Z)
  : M (Status * EntryPtr) :=
  let* e := deref this in
  if device_id =? 0 then
    let* address := call_Memalign kBlockSize size in
    match address with
    | None =>
        let* this' := assign this (Reset e) in
        ret (StatusObjectStoreFull, this')
    | Some _ =>
        let* d := get_dir in
        let '(f, ms, off) := GetMallocMapinfo address (allocator d) in
        RAY_CHECK (negb (f =? -1)) ;;;
        let* t := std_time in
        let* this' := assign this
                   (set_construct_duration (-1)
                      (set_create_time t
                         (set_device_num device_id
                            (set_state PLASMA_CREATED
                               (set_mapping address f ms off e))))) in
        ret (StatusOK, this')
    end
  else
    ret (StatusOutOfMemory, this).

(** ** ObjectDirectory: helpers declared in the header *)

(** [GetObjectTableEntry], declared in object_directory.h: the entry of the
    id, or null. *)
Definition GetObjectTableEntry (object_id : ObjectID) (d : Directory)
  : option ObjectTableEntry :=
  object_table_ d !! object_id.

(** Modelled from the spec: [ObjectDirectory::EraseObject], declared in
    object_directory.h. The operations that call it "erase the entry";
    "removal destroys the entry", and erasing an entry "frees its memory". *)
Definition EraseObject (object_id : ObjectID) : M unit :=
  let* d := get_dir in
  match object_table_ d !! object_id with
  | None => ret tt
  | Some _ =>
      FreeObject (InTable object_id) ;;;
      with_object_table (delete object_id)
  end.

(** ** ObjectDirectory: the methods of object_directory.cc *)

Definition ContainsObject (object_id : ObjectID) : M ObjectStatus :=
  let* d := get_dir in
  match GetObjectTableEntry object_id d with
  | Some entry =>
      if bool_decide (state entry = PLASMA_SEALED) || bool_decide (state entry = PLASMA_EVICTED)
      then ret OBJECT_FOUND else ret OBJECT_NOT_FOUND
  | None => ret OBJECT_NOT_FOUND
  end.

(** The loop of [EvictObjectsInternal]; [acc] holds
    [evicted_objects_entries], [evicted_object_data] and [infos]. *)
Fixpoint evict_each (object_ids : list ObjectID)
    (acc : list EntryPtr * list (option Z * Z) * list ObjectInfoT)
  : M (list EntryPtr * list (option Z * Z) * list ObjectInfoT) :=
  match object_ids with
  | [] => ret acc
  | object_id :: rest =>
      let '(evicted_objects_entries, evicted_object_data, infos) := acc in
      let* d := get_dir in
      match object_table_ d !! object_id with
      | None => fun _ => CheckFailed
      | Some entry =>
          RAY_CHECK (bool_decide (state entry = PLASMA_SEALED)) ;;;
          RAY_CHECK (ref_count entry =? 0) ;;;
          match external_store_ d with
          | Some _ =>
              evict_each rest (evicted_objects_entries ++ [InTable object_id],
                               evicted_object_data ++ [GetArrowBuffer entry],
                               infos)
          | None =>
              FreeObject (InTable object_id) ;;;
              evict_each rest (evicted_objects_entries, evicted_object_data,
                               infos ++ [deletion_info object_id])
          end
      end
  end.

Definition EvictObjectsInternal (object_ids : list ObjectID) : M unit :=
  match object_ids with
  | [] => ret tt
  | _ =>
      let* '(evicted_objects_entries, evicted_object_data, infos) :=
         evict_each object_ids ([], [], []) in
      let* d := get_dir in
      match external_store_ d with
      | Some x =>
          let '(s, x') := Put object_ids evicted_object_data x in
          set_external_store (Some x') ;;;
          RAY_CHECK (ok s) ;;;
          for_each evicted_objects_entries (fun entry => FreeObject entry ;;; ret tt)
      | None => notifications_callback_ infos
      end
  end.

Definition AddToClientObjectIds (object_id : ObjectID) (entry : EntryPtr)
    (client : ClientID) : M EntryPtr :=
  let* d := get_dir in
  if decide (object_id ∈ object_ids client d) then ret entry
  else
    let* e := deref entry in
    (if ref_count e =? 0
     then with_eviction_policy (BeginObjectAccess object_id (ObjectSize e))
     else ret tt) ;;;
    let* entry' := assign entry (set_ref_count (ref_count e + 1) e) in
    with_object_ids client (fun s => s ∪ {[object_id]}) ;;;
    ret entry'.

Definition RemoveFromClientObjectIds (object_id : ObjectID) (entry : EntryPtr)
    (client : ClientID) : M (Z * EntryPtr) :=
  let* d := get_dir in
  if decide (object_id ∈ object_ids client d) then
    with_object_ids client (fun s => s ∖ {[object_id]}) ;;;
    let* e := deref entry in
    let* entry' := assign entry (set_ref_count (ref_count e - 1) e) in
    let* e' := deref entry' in
    (if ref_count e' =? 0 then
       let* d' := get_dir in
       if decide (object_id ∈ deletion_cache_ d') then
         with_deletion_cache (fun s => s ∖ {[object_id]}) ;;;
         EvictObjectsInternal [object_id]
       else
         with_eviction_policy (EndObjectAccess object_id (ObjectSize e'))
     else ret tt) ;;;
    ret (1, entry')
  else
    ret (0, entry).

Definition call_EnforcePerClientQuota (client : ClientID) (size : Z) (is_create : bool)
  : M (bool * list ObjectID) :=
  fun d => let '(quota_ok, l, p) := EnforcePerClientQuota client size is_create (eviction_policy_ d) in
           Done (quota_ok, l) (upd_eviction_policy (fun _ => p) d).

Definition call_RequireSpace (size : Z) : M (bool * list ObjectID) :=
  fun d => let '(success, l, p) := RequireSpace size (eviction_policy_ d) in
           Done (success, l) (upd_eviction_policy (fun _ => p) d).

Definition call_ChooseObjectsToEvict (num_bytes : Z) : M (Z * list ObjectID) :=
  fun d => let '(n, l, p) := ChooseObjectsToEvict num_bytes (eviction_policy_ d) in
           Done (n, l) (upd_eviction_policy (fun _ => p) d).

(** The [while (true)] of [AllocateMemory], one turn per unit of fuel. *)
Fixpoint allocate_loop (fuel : nat) (object_id : ObjectID) (entry : EntryPtr) (size : Z)
    (evict_if_full : bool) (client : ClientID) (is_create : bool) (device_num : Z)
  : M (Status * EntryPtr) :=
  match fuel with
  | O => fun _ => OutOfFuel
  | S fuel' =>
      let* '(s, entry1) := ObjectTableEntry_AllocateMemory entry device_num size in
      if ok s then
        with_eviction_policy (ObjectCreated object_id size client is_create) ;;;
        let* entry2 := AddToClientObjectIds object_id entry1 client in
        ret (s, entry2)
      else if negb evict_if_full then
        ret (s, entry1)
      else
        let* '(success, objects_to_evict) := call_RequireSpace size in
        EvictObjectsInternal objects_to_evict ;;;
        if negb success then ret (StatusOutOfMemory, entry1)
        else allocate_loop fuel' object_id entry1 size evict_if_full client is_create device_num
  end.

Definition AllocateMemory (fuel : nat) (object_id : ObjectID) (entry : EntryPtr) (size : Z)
    (evict_if_full : bool) (client : ClientID) (is_create : bool) (device_num : Z)
  : M (Status * EntryPtr) :=
  let* e := deref entry in
  RAY_CHECK (bool_decide (pointer e = None)) ;;;
  if negb (device_num =? 0) then
    ObjectTableEntry_AllocateMemory entry device_num size
  else
    let* quota := (if evict_if_full then
                let* '(quota_ok, client_objects_to_evict) :=
                   call_EnforcePerClientQuota client size is_create in
                if negb quota_ok then ret false
                else EvictObjectsInternal client_objects_to_evict ;;; ret true
              else ret true) in
    if negb quota then ret (StatusOutOfMemory, entry)
    else allocate_loop fuel object_id entry size evict_if_full client is_create device_num.

Definition set_entry_state (s : ObjectState) (entry : EntryPtr) : M unit :=
  let* e := deref entry in
  assign entry (set_state s e) ;;; ret tt.

(** What the reconstruction of [GetObjects] does to an entry it marks as
    sealed again. *)
Definition mark_reconstructed (entry : EntryPtr) : M unit :=
  let* e := deref entry in
  let* entry' := assign entry (set_state PLASMA_SEALED e) in
  let* t := std_time in
  let* e' := deref entry' in
  assign entry' (set_construct_duration (t - create_time e') e') ;;; ret tt.

Fixpoint collect_buffers (entries : list EntryPtr) : M (list (option Z * Z)) :=
  match entries with
  | [] => ret []
  | entry :: rest =>
      let* e := deref entry in
      let* buffers := collect_buffers rest in
      ret (GetArrowBuffer e :: buffers)
  end.

(** The first loop of [GetObjects]; [acc] holds [sealed_objects],
    [evicted_ids] and [nonexistent_objects]. Nothing is pushed to the local
    vector [entries] of the source. *)
Fixpoint get_each (fuel : nat) (client : ClientID) (object_ids : list ObjectID)
    (acc : list ObjectID * list ObjectID * list ObjectID)
  : M (list ObjectID * list ObjectID * list ObjectID) :=
  match object_ids with
  | [] => ret acc
  | object_id :: rest =>
      let '(sealed_objects, evicted_ids, nonexistent_objects) := acc in
      let* d := get_dir in
      match object_table_ d !! object_id with
      | None => get_each fuel client rest
                  (sealed_objects, evicted_ids, nonexistent_objects ++ [object_id])
      | Some entry =>
          match state entry with
          | PLASMA_SEALED =>
              get_each fuel client rest
                (sealed_objects ++ [object_id], evicted_ids, nonexistent_objects)
          | PLASMA_EVICTED =>
              let* '(status, _) :=
                 AllocateMemory fuel object_id (InTable object_id) (ObjectSize entry)
                                true client false (device_num entry) in
              if ok status then
                get_each fuel client rest
                  (sealed_objects, evicted_ids ++ [object_id], nonexistent_objects)
              else
                set_entry_state PLASMA_EVICTED (InTable object_id) ;;;
                get_each fuel client rest (sealed_objects, evicted_ids, nonexistent_objects)
          | PLASMA_CREATED =>
              get_each fuel client rest
                (sealed_objects, evicted_ids, nonexistent_objects ++ [object_id])
          end
      end
  end.

(** [GetObjects]; the three output vectors come in as the caller left them
    and go out as the method leaves them. [fuel] bounds each run of the
    allocation loop. *)
Definition GetObjects (fuel : nat) (object_ids : list ObjectID) (client : ClientID)
    (sealed_objects reconstructed_objects nonexistent_objects : list ObjectID)
  : M (list ObjectID * list ObjectID * list ObjectID) :=
  let entries : list EntryPtr := [] in
  let* '(sealed_objects', evicted_ids, nonexistent_objects') :=
     get_each fuel client object_ids (sealed_objects, [], nonexistent_objects) in
  let roll_back :=
    for_each entries (set_entry_state PLASMA_EVICTED) ;;;
    ret (sealed_objects', reconstructed_objects, nonexistent_objects') in
  match evicted_ids with
  | [] => ret (sealed_objects', reconstructed_objects, nonexistent_objects')
  | _ =>
      let* d := get_dir in
      match external_store_ d with
      | Some x =>
          let* buffers := collect_buffers entries in
          let '(status, x') := Get object_ids buffers x in
          set_external_store (Some x') ;;;
          if ok status then
            for_each entries mark_reconstructed ;;;
            RAY_CHECK (bool_decide (reconstructed_objects = [])) ;;;
            ret (sealed_objects', evicted_ids, nonexistent_objects')
          else roll_back
      | None => roll_back
      end
  end.

(** [CreateObjectInternal]; the pointer answered is [*new_entry]. *)
Definition CreateObjectInternal (fuel : nat) (object_id : ObjectID) (evict_if_full : bool)
    (data_size metadata_size device_num : Z) (client : ClientID)
  : M (Status * option EntryPtr) :=
  let* d := get_dir in
  if decide (is_Some (object_table_ d !! object_id)) then ret (StatusObjectExists, None)
  else
    let total_size := int64_wrap (data_size + metadata_size) in
    RAY_CHECK (0 <? total_size) ;;;
    let* '(s, entry) :=
       AllocateMemory fuel object_id (Detached new_ObjectTableEntry) total_size
                      evict_if_full client true device_num in
    if negb (ok s) then ret (StatusOutOfMemory, None)
    else
      let* e := deref entry in
      let e' := set_sizes data_size metadata_size e in
      with_object_table (fun t => match t !! object_id with
                                  | Some _ => t
                                  | None => <[object_id := e']> t
                                  end) ;;;
      ret (StatusOK, Some (InTable object_id)).

Definition CreateObject (fuel : nat) (object_id : ObjectID) (evict_if_full : bool)
    (data_size metadata_size device_num : Z) (client : ClientID)
  : M (Status * option PlasmaObject) :=
  let* '(s, entry) :=
     CreateObjectInternal fuel object_id evict_if_full data_size metadata_size
                          device_num client in
  match entry with
  | Some entry =>
      let* e := deref entry in
      ret (StatusOK, Some (PlasmaObject_init e))
  | None => ret (s, None)
  end.

Fixpoint seal_each (object_ids : list ObjectID) (infos : list ObjectInfoT)
  : M (list ObjectInfoT) :=
  match object_ids with
  | [] => ret infos
  | object_id :: rest =>
      let* d := get_dir in
      match GetObjectTableEntry object_id d with
      | None => fun _ => CheckFailed
      | Some entry =>
          RAY_CHECK (bool_decide (state entry = PLASMA_CREATED)) ;;;
          let* t := std_time in
          let entry' :=
            set_construct_duration (t - create_time entry) (set_state PLASMA_SEALED entry) in
          with_object_table (<[object_id := entry']>) ;;;
          seal_each rest (infos ++ [sealed_info object_id entry'])
      end
  end.

Definition SealObjectsInternal (object_ids : list ObjectID) : M unit :=
  let* infos := seal_each object_ids [] in
  notifications_callback_ infos.

(** [CreateAndSealObject]; of [data] and [metadata] only the sizes matter
    here. *)
Definition CreateAndSealObject (fuel : nat) (object_id : ObjectID) (evict_if_full : bool)
    (data metadata : list Byte.byte) (device_num : Z) (client : ClientID)
  : M (Status * option PlasmaObject) :=
  RAY_CHECK (device_num =? 0) ;;;
  let* '(s, entry) :=
     CreateObjectInternal fuel object_id evict_if_full
                          (Z.of_nat (length data)) (Z.of_nat (length metadata))
                          device_num client in
  match entry with
  | Some entry =>
      let* e := deref entry in
      let result := PlasmaObject_init e in
      SealObjectsInternal [object_id] ;;;
      let* '(removed, _) := RemoveFromClientObjectIds object_id entry client in
      RAY_CHECK (removed =? 1) ;;;
      ret (StatusOK, Some result)
  | None => ret (s, None)
  end.

Definition EvictObjects (num_bytes : Z) : M Z :=
  let* '(num_bytes_evicted, objects_to_evict) := call_ChooseObjectsToEvict num_bytes in
  EvictObjectsInternal objects_to_evict ;;;
  ret num_bytes_evicted.

Definition DeleteObject (object_id : ObjectID) : M PlasmaError :=
  let* d := get_dir in
  match object_table_ d !! object_id with
  | None => ret PlasmaError_ObjectNonexistent
  | Some entry =>
      if negb (bool_decide (state entry = PLASMA_SEALED)) then
        with_deletion_cache (fun s => s ∪ {[object_id]}) ;;;
        ret PlasmaError_ObjectNotSealed
      else if negb (ref_count entry =? 0) then
        with_deletion_cache (fun s => s ∪ {[object_id]}) ;;;
        ret PlasmaError_ObjectInUse
      else
        with_eviction_policy (RemoveObject object_id) ;;;
        EraseObject object_id ;;;
        notifications_callback_ [deletion_info object_id] ;;;
        ret PlasmaError_OK
  end.

Definition AbortObject (object_id : ObjectID) (client : ClientID) : M Z :=
  let* d := get_dir in
  match object_table_ d !! object_id with
  | None => fun _ => CheckFailed
  | Some entry =>
      RAY_CHECK (bool_decide (state entry = PLASMA_SEALED)) ;;;
      if decide (object_id ∈ object_ids client d) then
        EraseObject object_id ;;;
        with_object_ids client (fun s => s ∖ {[object_id]}) ;;;
        ret 1
      else ret 0
  end.

(** The first loop of [DisconnectClient]; [sealed_objects] collects the
    sealed ids with the pointers to their entries. *)
Fixpoint disconnect_each (object_ids : list ObjectID) (sealed_objects : list (ObjectID * EntryPtr))
  : M (list (ObjectID * EntryPtr)) :=
  match object_ids with
  | [] => ret sealed_objects
  | object_id :: rest =>
      let* d := get_dir in
      match object_table_ d !! object_id with
      | None => disconnect_each rest sealed_objects
      | Some entry =>
          if bool_decide (state entry = PLASMA_SEALED) then
            disconnect_each rest (sealed_objects ++ [(object_id, InTable object_id)])
          else
            EraseObject object_id ;;;
            disconnect_each rest sealed_objects
      end
  end.

(** [DisconnectClient]. The source walks two hash containers, in an order
    the language does not fix; here both walks follow [elements]. *)
Definition DisconnectClient (client : ClientID) : M unit :=
  with_eviction_policy (ClientDisconnected client) ;;;
  let* d := get_dir in
  let* sealed_objects := disconnect_each (elements (object_ids client d)) [] in
  for_each sealed_objects
    (fun entry => RemoveFromClientObjectIds (fst entry) (snd entry) client ;;; ret tt).

Definition MarkObjectAsReconstructed (object_id : ObjectID) : M PlasmaObject :=
  let* d := get_dir in
  match object_table_ d !! object_id with
  | None => fun _ => CheckFailed
  | Some entry => ret (PlasmaObject_init entry)
  end.

Definition RegisterSealedObjectToClient (object_id : ObjectID) (client : ClientID)
  : M PlasmaObject :=
  let* d := get_dir in
  match object_table_ d !! object_id with
  | None => fun _ => CheckFailed
  | Some entry =>
      let object := PlasmaObject_init entry in
      AddToClientObjectIds object_id (InTable object_id) client ;;;
      ret object
  end.

End Directory.

Arguments Directory : clear implicits.
Arguments M : clear implicits.

(** ** Simple collaborators, to run the directory on examples *)

(** Modelled from the spec: an allocator over a fixed footprint. [Memalign]
    answers null once the footprint would be exceeded; addresses are handed
    out in increasing order; every block lies in one mapping, with fd 3. *)
Record FootprintAllocator := mkAllocator {
  footprint_limit : Z;
  allocated : Z;
  next_address : Z
}.

Global Instance FootprintAllocator_ops : PlasmaAllocator FootprintAllocator := {
  Memalign alignment size a :=
    if allocated a + size <=? footprint_limit a
    then (Some (next_address a),
          mkAllocator (footprint_limit a) (allocated a + size) (next_address a + size))
    else (None, a);
  Free p size a :=
    match p with
    | Some _ => mkAllocator (footprint_limit a) (allocated a - size) (next_address a)
    | None => a
    end;
  GetMallocMapinfo p a := (3, footprint_limit a, default 0 p)
}.

(** Walks the idle objects, least recently used first, until [needed] bytes
    are chosen: the bytes chosen, the ids chosen, the objects left. *)
Fixpoint choose_lru (needed : Z) (idle : list (ObjectID * Z)) (bytes : Z)
    (chosen : list ObjectID) : Z * list ObjectID * list (ObjectID * Z) :=
  match idle with
  | [] => (bytes, chosen, [])
  | (object_id, size) :: idle' =>
      if needed <=? bytes then (bytes, chosen, idle)
      else choose_lru needed idle' (bytes + size) (chosen ++ [object_id])
  end.

Definition drop_idle (object_id : ObjectID) (idle : list (ObjectID * Z))
  : list (ObjectID * Z) :=
  filter (fun o => o.1 ≠ object_id) idle.

(** Modelled from the spec: an eviction policy without quotas. It keeps the
    idle objects in LRU order; [RequireSpace] chooses idle objects "in LRU
    order" and answers false "only if even evicting all idle objects is
    insufficient". *)
Record LRUPolicy := mkPolicy {
  lru_idle : list (ObjectID * Z)
}.

Global Instance LRUPolicy_ops : EvictionPolicy LRUPolicy := {
  ObjectCreated _ _ _ _ p := p;
  BeginObjectAccess object_id _ p := mkPolicy (drop_idle object_id (lru_idle p));
  EndObjectAccess object_id size p := mkPolicy (lru_idle p ++ [(object_id, size)]);
  RequireSpace size p :=
    let '(bytes, chosen, idle) := choose_lru size (lru_idle p) 0 [] in
    (size <=? bytes, chosen, mkPolicy idle);
  EnforcePerClientQuota _ _ _ p := (true, [], p);
  ChooseObjectsToEvict num_bytes p :=
    let '(bytes, chosen, idle) := choose_lru num_bytes (lru_idle p) 0 [] in
    (bytes, chosen, mkPolicy idle);
  RemoveObject object_id p := mkPolicy (drop_idle object_id (lru_idle p));
  ClientDisconnected _ p := p
}.

(** Modelled from the spec: an external store that remembers which ids were
    put, and that can be out of reach. [Get] fails unless the store is in
    reach and every id asked for was put. *)
Record IdStore := mkStore {
  stored : gset ObjectID;
  online : bool
}.

Global Instance IdStore_ops : ExternalStore IdStore := {
  Put ids _ x :=
    if online x then (StatusOK, mkStore (stored x ∪ list_to_set ids) true)
    else (StatusIOError, x);
  Get ids _ x :=
    if online x && forallb (fun object_id => bool_decide (object_id ∈ stored x)) ids
    then (StatusOK, x) else (StatusIOError, x)
}.

Abbreviation Dir := (Directory FootprintAllocator LRUPolicy IdStore).

(** The directory as constructed, over a footprint of [limit] bytes. *)
Definition new_directory (limit : Z) (store : option IdStore) : Dir :=
  mkDirectory ∅ ∅ (mkPolicy []) store (mkAllocator limit 0 0) [] ∅ 0%nat [].

(** Block size 64; the clock starts at 1000 and advances by one second at
    every reading. *)
Definition example_clock (n : nat) : Z := 1000 + Z.of_nat n.

Definition bytes (n : nat) : list Byte.byte := repeat Byte.x00 n.

(** What a computation answers, if it ends. *)
Definition answer {S T} (r : Res S T) : option T :=
  match r with Done a _ => Some a | _ => None end.

(** ** Predicates of the statements *)

(** What an eviction of the ids of [l] may change between [d] and [d']: the
    entries of those ids, the allocator, the external store, the
    notifications and what the callback observed. The other entries stay, no
    id joins the table, and the deletion cache, the eviction policy, the
    clients and the clock stay. *)
Definition only_evicts {A P X} (l : list ObjectID) (d d' : Directory A P X) : Prop :=
  (forall object_id, object_id ∉ l ->
     object_table_ d' !! object_id = object_table_ d !! object_id)
  /\ (forall object_id, object_table_ d !! object_id = None ->
        object_table_ d' !! object_id = None)
  /\ deletion_cache_ d' = deletion_cache_ d
  /\ eviction_policy_ d' = eviction_policy_ d
  /\ clients d' = clients d
  /\ clock d' = clock d
  /\ (external_store_ d' = None <-> external_store_ d = None).


(** ** The directory states of the examples *)

(** The state a computation leaves, when it ends. *)
Definition exec {S T} (c : S -> Res S T) (s : S) : S :=
  match c s with Done _ s' => s' | _ => s end.

Definition client_A : ClientID := 1%N.
Definition client_B : ClientID := 2%N.
Definition client_C : ClientID := 3%N.

Definition create_and_seal (object_id : ObjectID) (data_size metadata_size : nat)
    (client : ClientID) : M FootprintAllocator LRUPolicy IdStore (Status * option PlasmaObject) :=
  CreateAndSealObject 64 example_clock 8 object_id true
                      (bytes data_size) (bytes metadata_size) 0 client.

Definition create (object_id : ObjectID) (data_size metadata_size : Z)
    (client : ClientID) : M FootprintAllocator LRUPolicy IdStore (Status * option PlasmaObject) :=
  CreateObject 64 example_clock 8 object_id true data_size metadata_size 0 client.

(** An operation of a history, its answer dropped. *)
Definition op {T} (c : Dir -> Res Dir T) : Dir -> Res Dir unit := c ;;; ret tt.

(** Plays the operations of a history, in order. *)
Definition play (history : list (Dir -> Res Dir unit)) : Dir -> Res Dir unit :=
  for_each history (fun c => c).

(** A footprint of 256 bytes, no external store; A created and sealed object
    3 of 128 bytes, which nobody references. *)
Definition one_idle_object_history : list (Dir -> Res Dir unit) :=
  [op (create_and_seal 3 128 0 client_A)].

Definition one_idle_object : Dir :=
  exec (play one_idle_object_history) (new_directory 256 None).

(** The same with an external store, for object 4, which was then evicted:
    the store holds it and the entry is in state Evicted. *)
Definition spilled_object_history : list (Dir -> Res Dir unit) :=
  [op (create_and_seal 4 128 0 client_A); op (EvictObjects 128)].

Definition spilled_object : Dir :=
  exec (play spilled_object_history) (new_directory 256 (Some (mkStore ∅ true))).

(** The same, once the external store is out of reach. *)
Definition spilled_object_offline : Dir :=
  upd_external_store (Some (mkStore {[4%N]} false)) spilled_object.

(** [spilled_object] once A is writing object 7 of 200 bytes: no room is
    left for object 4, and no object is idle. *)
Definition spilled_object_no_room : Dir :=
  exec (create 7 200 0 client_A) spilled_object.

(** A created and sealed object 8 and released it; B references it. *)
Definition referenced_by_B_history : list (Dir -> Res Dir unit) :=
  [op (create_and_seal 8 100 20 client_A);
   op (RegisterSealedObjectToClient 8 client_B)].

Definition referenced_by_B : Dir :=
  exec (play referenced_by_B_history) (new_directory 1024 None).



(** A footprint of 256 bytes: the idle sealed objects 3 and 4 of 100 bytes
    each, and object 6 of 50 bytes, which B is still writing. *)
Definition nearly_full_history : list (Dir -> Res Dir unit) :=
  [op (create_and_seal 3 100 0 client_A);
   op (create_and_seal 4 100 0 client_A);
   op (create 6 50 0 client_B)].

Definition nearly_full : Dir :=
  exec (play nearly_full_history) (new_directory 256 None).


(** A created objects 1 and 2 and sealed neither. *)
Definition two_created_history : list (Dir -> Res Dir unit) :=
  [op (create 1 100 20 client_A); op (create 2 30 0 client_A)].

Definition two_created : Dir :=
  exec (play two_created_history) (new_directory 1024 None).

(** Object 1 is being written by A; object 2 is sealed and referenced by B;
    object 3 is sealed and idle; there is no object 9. *)
Definition four_cases_history : list (Dir -> Res Dir unit) :=
  [op (create 1 100 20 client_A);
   op (create_and_seal 2 30 0 client_A);
   op (create_and_seal 3 40 0 client_A);
   op (RegisterSealedObjectToClient 2 client_B)].

Definition four_cases : Dir :=
  exec (play four_cases_history) (new_directory 1024 None).

(** A created and sealed object 1; B and C referenced it; B aborted it; A
    created and sealed an object 1 again. *)
Definition recreated_object_history : list (Dir -> Res Dir unit) :=
  [op (create_and_seal 1 100 20 client_A);
   op (RegisterSealedObjectToClient 1 client_B);
   op (RegisterSealedObjectToClient 1 client_C);
   op (AbortObject 1 client_B);
   op (create_and_seal 1 100 20 client_A)].

Definition recreated_object : Dir :=
  exec (play recreated_object_history) (new_directory 1024 None).

(** The same, once C disconnected: the entry of object 1 is sealed, with
    a reference count of -1. *)
Definition negative_count_history : list (Dir -> Res Dir unit) :=
  recreated_object_history ++ [op (DisconnectClient client_C)].

Definition negative_count : Dir :=
  exec (play negative_count_history) (new_directory 1024 None).

(** A footprint of 256 bytes and an external store in reach: A created and
    sealed object 4 of 128 bytes, which nobody references and which is still
    in memory. *)
Definition idle_with_store_history : list (Dir -> Res Dir unit) :=
  [op (create_and_seal 4 128 0 client_A)].

Definition idle_with_store : Dir :=
  exec (play idle_with_store_history) (new_directory 256 (Some (mkStore ∅ true))).

(** The same, once the external store is out of reach. *)
Definition idle_with_store_offline : Dir :=
  upd_external_store (Some (mkStore ∅ false)) idle_with_store.

(** A footprint of 256 bytes: the idle sealed objects 3 and 4 of 100 bytes
    each. *)
Definition two_idle_objects_history : list (Dir -> Res Dir unit) :=
  [op (create_and_seal 3 100 0 client_A);
   op (create_and_seal 4 100 0 client_A)].

Definition two_idle_objects : Dir :=
  exec (play two_idle_objects_history) (new_directory 256 None).

(** [two_idle_objects] once the eviction policy was asked for 150 bytes and
    the objects it chose were evicted. *)
Definition two_idle_objects_evicted : Dir :=
  exec (EvictObjectsInternal [3%N; 4%N])
       (upd_eviction_policy (fun _ => mkPolicy []) two_idle_objects).

(** An allocator of fixed slots, each given as its address, its capacity
    and whether it is in use: [Memalign] answers the first free slot that is
    large enough, [Free] gives the slot of the address back. Every slot lies
    in one mapping, with fd 3. *)
Record SlotAllocator := mkSlots {
  slots : list (Z * Z * bool)
}.

Fixpoint take_slot (size : Z) (l : list (Z * Z * bool))
  : option Z * list (Z * Z * bool) :=
  match l with
  | [] => (None, [])
  | (address, capacity, used) :: l' =>
      if negb used && (size <=? capacity)
      then (Some address, (address, capacity, true) :: l')
      else let '(r, l'') := take_slot size l' in (r, (address, capacity, used) :: l'')
  end.

Definition give_slot (address : Z) (l : list (Z * Z * bool)) : list (Z * Z * bool) :=
  (fun s : Z * Z * bool =>
     if s.1.1 =? address then (s.1.1, s.1.2, false) else s) <$> l.

Global Instance SlotAllocator_ops : PlasmaAllocator SlotAllocator := {
  Memalign _ size a := let '(r, l) := take_slot size (slots a) in (r, mkSlots l);
  Free p _ a :=
    match p with
    | Some address => mkSlots (give_slot address (slots a))
    | None => a
    end;
  GetMallocMapinfo p a := (3, foldr (fun s n => s.1.2 + n) 0 (slots a), default 0 p)
}.

Abbreviation SlotDir := (Directory SlotAllocator LRUPolicy IdStore).




(** ** The sealed objects of the table *)

Section Queries.

Context {A P X : Type}.

(** The notification [GetSealedObjectsInfo] pushes for an entry of the
    table, if any. *)
Definition sealed_object_info (entry : ObjectID * ObjectTableEntry) : option ObjectInfoT :=
  if bool_decide (state entry.2 = PLASMA_SEALED)
  then Some (sealed_info entry.1 entry.2)
  else None.

(** [GetSealedObjectsInfo]; [infos] is the vector as the caller left it. The
    source walks the hash table, in an order the language does not fix; here
    the walk follows [map_to_list]. *)
Definition GetSealedObjectsInfo (infos : list ObjectInfoT)
  : M A P X (list ObjectInfoT) :=
  let* d := get_dir in
  ret (infos ++ omap sealed_object_info (map_to_list (object_table_ d))).

End Queries.

(** * The store calls of the raylet (direct_store_call/store_call_ipc.cc)

    [ObjectStoreCallIPC] talks to the store through a [plasma::PlasmaClient]
    and keeps the objects it pinned. The client is a collaborator: an
    interface here. A buffer is a [shared_ptr]: [None] is null. *)

Record ObjectBuffer := mkObjectBuffer {
  ob_data : option string;
  ob_metadata : option string
}.

(** A [RayObject] built from the data and the metadata of a plasma result. *)
Record RayObject := mkRayObject {
  ro_data : option string;
  ro_metadata : option string
}.

Class PlasmaClient (C : Type) := {
  PlasmaClient_Connect : string -> C -> Status * C;
  PlasmaClient_CreateAndSeal : ObjectID -> string -> string -> C -> Status * C;
  (** [Get(object_ids, timeout_ms, &results)] *)
  PlasmaClient_Get : list ObjectID -> Z -> C -> Status * list ObjectBuffer * C
}.

Definition IsObjectExists (s : Status) : bool :=
  match s with StatusObjectExists => true | _ => false end.

(** How a store call ends: it returns, a [RAY_CHECK] stops the process, or a
    vector is read past its end. *)
Inductive CallRes (S T : Type) :=
  | Returned (a : T) (s : S)
  | Stopped
  | OutOfBounds.
Arguments Returned {S T} a s.
Arguments Stopped {S T}.
Arguments OutOfBounds {S T}.

Section StoreCall.

Context {C : Type} `{PlasmaClient C}.

Record ObjectStoreCallIPC := mkObjectStoreCallIPC {
  store_client_ : C;
  pinned_objects_ : gmap ObjectID RayObject
}.

(** The constructor, on a client that is not connected yet. *)
Definition new_ObjectStoreCallIPC (store_socket_name : string) (client : C)
  : CallRes ObjectStoreCallIPC unit :=
  let '(status, client') := PlasmaClient_Connect store_socket_name client in
  if ok status then Returned tt (mkObjectStoreCallIPC client' ∅) else Stopped.

(** [std::to_string(error_type)] is the decimal writing of the number. *)
Definition MarkObjectAsFailed (object_id : ObjectID) (error_type : Z)
    (this : ObjectStoreCallIPC) : Status * ObjectStoreCallIPC :=
  let meta := pretty error_type in
  let '(status, client') :=
    PlasmaClient_CreateAndSeal object_id EmptyString meta (store_client_ this) in
  let this' := mkObjectStoreCallIPC client' (pinned_objects_ this) in
  if IsObjectExists status then (StatusOK, this') else (status, this').

(** The loop of [PinObjects], from index [i] on: [object_ids] and
    [plasma_results] are what is left of the two vectors from there. *)
Fixpoint pin_each (object_ids : list ObjectID) (plasma_results : list ObjectBuffer)
    (pinned : gmap ObjectID RayObject) : CallRes (gmap ObjectID RayObject) unit :=
  match object_ids with
  | [] => Returned tt pinned
  | object_id :: object_ids' =>
      match plasma_results with
      | [] => OutOfBounds
      | result :: plasma_results' =>
          match ob_data result with
          | None => pin_each object_ids' plasma_results' pinned
          | Some _ =>
              match pinned !! object_id with
              | Some _ => Stopped
              | None =>
                  pin_each object_ids' plasma_results'
                           (<[object_id := mkRayObject (ob_data result) (ob_metadata result)]>
                              pinned)
              end
          end
      end
  end.

Definition PinObjects (object_ids : list ObjectID) (this : ObjectStoreCallIPC)
  : CallRes ObjectStoreCallIPC Status :=
  let '(status, plasma_results, client') :=
    PlasmaClient_Get object_ids 0 (store_client_ this) in
  if negb (ok status)
  then Returned status (mkObjectStoreCallIPC client' (pinned_objects_ this))
  else
    match pin_each object_ids plasma_results (pinned_objects_ this) with
    | Returned _ pinned => Returned StatusOK (mkObjectStoreCallIPC client' pinned)
    | Stopped => Stopped
    | OutOfBounds => OutOfBounds
    end.

Definition UnPinObject (object_id : ObjectID) (this : ObjectStoreCallIPC)
  : Status * ObjectStoreCallIPC :=
  (StatusOK,
   mkObjectStoreCallIPC (store_client_ this) (delete object_id (pinned_objects_ this))).

End StoreCall.

Arguments ObjectStoreCallIPC : clear implicits.

(** What [PinObjects] is to pin: the ids whose result carries data, each
    with the object built from its result. *)
Definition objects_to_pin (object_ids : list ObjectID) (plasma_results : list ObjectBuffer)
  : list (ObjectID * RayObject) :=
  omap (fun p : ObjectID * ObjectBuffer =>
          match ob_data p.2 with
          | Some _ => Some (p.1, mkRayObject (ob_data p.2) (ob_metadata p.2))
          | None => None
          end)
       (zip object_ids plasma_results).

(** A simple client, to run the store calls on examples: the store keeps
    sealed objects for good. [CreateAndSeal] refuses an id the store has;
    [Get] answers one buffer per id, with null data and metadata for an
    object the store does not have. *)
Record MapClient := mkMapClient {
  client_objects : gmap ObjectID (string * string)
}.

Global Instance MapClient_ops : PlasmaClient MapClient := {
  PlasmaClient_Connect _ c := (StatusOK, c);
  PlasmaClient_CreateAndSeal object_id data metadata c :=
    match client_objects c !! object_id with
    | Some _ => (StatusObjectExists, c)
    | None => (StatusOK, mkMapClient (<[object_id := (data, metadata)]> (client_objects c)))
    end;
  PlasmaClient_Get object_ids _ c :=
    (StatusOK,
     (fun object_id =>
        match client_objects c !! object_id with
        | Some (data, metadata) => mkObjectBuffer (Some data) (Some metadata)
        | None => mkObjectBuffer None None
        end) <$> object_ids,
     c)
}.

(** A raylet connected to a store that holds objects 1 and 2, with nothing
    pinned. *)
Definition raylet_example : ObjectStoreCallIPC MapClient :=
  mkObjectStoreCallIPC
    (mkMapClient {[1%N := ("a", "m"); 2%N := ("bb", EmptyString)]}) ∅.


(** The same raylet, once it pinned object 1. *)
Definition raylet_pinned : ObjectStoreCallIPC MapClient :=
  mkObjectStoreCallIPC (store_client_ raylet_example)
                       {[1%N := mkRayObject (Some "a") (Some "m")]}.
(** * Properties *)

Section Properties.

Context {A P X : Type} `{!PlasmaAllocator A} `{!EvictionPolicy P} `{!ExternalStore X}.
Variable kBlockSize : Z.
Variable wall_clock : nat -> Z.

Implicit Types d : Directory A P X.
Implicit Types object_id : ObjectID.
Implicit Types client : ClientID.
Implicit Types e : ObjectTableEntry.

#[local] Set Warnings "-clear-no-such-hyp".

(** Unfolds the monad and the accessors of the state. *)
Ltac step :=
  unfold bind, ret, get_dir, RAY_CHECK, modify, with_object_table, with_deletion_cache,
    with_eviction_policy, with_allocator, with_object_ids, set_external_store,
    notifications_callback_, std_time, deref, assign; simpl.


Lemma bind_Done {S T U} (c : S -> Res S T) (k : T -> S -> Res S U) s a s' :
  c s = Done a s' -> bind c k s = k a s'.
Proof. unfold bind. by intros ->. Qed.

Lemma bind_CheckFailed {S T U} (c : S -> Res S T) (k : T -> S -> Res S U) s :
  c s = CheckFailed -> bind c k s = CheckFailed.
Proof. unfold bind. by intros ->. Qed.

Lemma bind_inv {S T U} (c : S -> Res S T) (k : T -> S -> Res S U) s b s2 :
  bind c k s = Done b s2 -> exists a s1, c s = Done a s1 /\ k a s1 = Done b s2.
Proof. unfold bind. destruct (c s); [eauto|done|done]. Qed.

Lemma bind_get_dir {T} (k : Directory A P X -> M A P X T) d :
  bind get_dir k d = k d d.
Proof. reflexivity. Qed.

Lemma bind_ret {S T U} (a : T) (k : T -> S -> Res S U) s :
  bind (ret a) k s = k a s.
Proof. reflexivity. Qed.

Lemma bind_modify {T} (f : Directory A P X -> Directory A P X) (k : unit -> M A P X T) d :
  bind (modify f) k d = k tt (f d).
Proof. reflexivity. Qed.

(** ** Freeing and erasing an entry *)

(** What [FreeObject] leaves of the directory: the block is handed back when
    the object is on the host, and the entry is reset and evicted. *)
Lemma FreeObject_InTable d object_id e :
  object_table_ d !! object_id = Some e ->
  FreeObject (InTable object_id) d =
    Done (InTable object_id)
         (upd_object_table (<[object_id := set_state PLASMA_EVICTED (Reset e)]>)
            (if device_num e =? 0
             then upd_allocator (Free (pointer e) (ObjectSize e)) d else d)).
Proof.
  intros Ht. unfold FreeObject. step. rewrite Ht.
  by destruct (device_num e =? 0).
Qed.

Lemma EraseObject_present d object_id e :
  object_table_ d !! object_id = Some e ->
  EraseObject object_id d =
    Done tt (upd_object_table (delete object_id)
               (if device_num e =? 0
                then upd_allocator (Free (pointer e) (ObjectSize e)) d else d)).
Proof.
  intros Ht. unfold EraseObject. rewrite bind_get_dir, Ht.
  rewrite (bind_Done _ _ _ _ _ (FreeObject_InTable d object_id e Ht)).
  unfold with_object_table, modify, upd_object_table. simpl.
  f_equal. f_equal. apply delete_insert_eq.
Qed.

(** ** C10 *)

(** C10: registering a sealed object to a client whose [object_ids] already
    hold the id answers the descriptor of the entry and changes nothing: the
    reference count of the entry, the set of the client and the state of the
    eviction policy are as before. *)
Theorem RegisterSealedObjectToClient_idempotent d object_id client e :
  object_table_ d !! object_id = Some e ->
  object_id ∈ object_ids client d ->
  RegisterSealedObjectToClient object_id client d = Done (PlasmaObject_init e) d.
Proof.
  intros Ht Hin. unfold RegisterSealedObjectToClient, AddToClientObjectIds. step.
  rewrite Ht. simpl. destruct (decide (object_id ∈ object_ids client d)); [done|contradiction].
Qed.

(** ** AbortObject *)

(** On a sealed entry, the client's [object_ids] alone decide what
    [AbortObject] does: when the id is not among them the answer is 0 and
    nothing changes; when it is, the entry is erased from the table, the id
    leaves the client's set, the sets of the other clients stay, and the
    answer is 1. Who created the object plays no part: the directory keeps
    no record of it. *)
Lemma AbortObject_sealed d object_id client e :
  object_table_ d !! object_id = Some e ->
  state e = PLASMA_SEALED ->
  (object_id ∉ object_ids client d -> AbortObject object_id client d = Done 0 d)
  /\ (object_id ∈ object_ids client d ->
      exists d', AbortObject object_id client d = Done 1 d'
        /\ object_table_ d' = delete object_id (object_table_ d)
        /\ object_ids client d' = object_ids client d ∖ {[object_id]}
        /\ forall other, other <> client -> object_ids other d' = object_ids other d).
Proof.
  intros Ht Hs. split; intros Hin.
  - unfold AbortObject. step. rewrite Ht, Hs. simpl.
    destruct (decide (object_id ∈ object_ids client d)); [contradiction|done].
  - unfold AbortObject. rewrite bind_get_dir, Ht, Hs. step.
    destruct (decide (object_id ∈ object_ids client d)); [|contradiction].
    rewrite (EraseObject_present d object_id e Ht). step.
    eexists; split; [reflexivity|]. simpl.
    split; [by destruct (device_num e =? 0)|].
    unfold object_ids; simpl.
    assert (Hcl : clients (if device_num e =? 0
                  then upd_allocator (Free (pointer e) (ObjectSize e)) d else d) = clients d)
      by (by destruct (device_num e =? 0)).
    rewrite Hcl. split.
    + by rewrite lookup_insert_eq.
    + intros other Hne. by rewrite lookup_insert_ne.
Qed.


(** ** C4 *)

(** C4, as amended: [DeleteObject] answers one of four codes. An id absent
    from the table: ObjectNonexistent, and nothing changes, so asking again
    answers the same. An entry that is not sealed: the id joins the deletion
    cache, nothing else changes, ObjectNotSealed. A sealed entry whose
    [ref_count] is not 0 (the test of the code is [ref_count != 0]): the id
    joins the deletion cache, nothing else changes, ObjectInUse. Otherwise,
    a sealed entry with [ref_count = 0]: the object leaves the eviction
    policy, the entry is erased and its block freed, and then one
    notification is emitted, with the id, [is_deletion = true] and no sizes;
    the answer is OK. *)
Theorem DeleteObject_outcomes d object_id :
  (object_table_ d !! object_id = None ->
     DeleteObject object_id d = Done PlasmaError_ObjectNonexistent d
     /\ (DeleteObject object_id ;;; DeleteObject object_id) d
        = Done PlasmaError_ObjectNonexistent d)
  /\ (forall e, object_table_ d !! object_id = Some e ->
        state e <> PLASMA_SEALED ->
        DeleteObject object_id d =
          Done PlasmaError_ObjectNotSealed
               (mkDirectory (object_table_ d) (deletion_cache_ d ∪ {[object_id]})
                            (eviction_policy_ d) (external_store_ d) (allocator d)
                            (notified d) (clients d) (clock d) (observed d)))
  /\ (forall e, object_table_ d !! object_id = Some e ->
        state e = PLASMA_SEALED -> ref_count e <> 0 ->
        DeleteObject object_id d =
          Done PlasmaError_ObjectInUse
               (mkDirectory (object_table_ d) (deletion_cache_ d ∪ {[object_id]})
                            (eviction_policy_ d) (external_store_ d) (allocator d)
                            (notified d) (clients d) (clock d) (observed d)))
  /\ (forall e, object_table_ d !! object_id = Some e ->
        state e = PLASMA_SEALED -> ref_count e = 0 ->
        DeleteObject object_id d =
          Done PlasmaError_OK
               (mkDirectory (delete object_id (object_table_ d)) (deletion_cache_ d)
                            (RemoveObject object_id (eviction_policy_ d))
                            (external_store_ d)
                            (if device_num e =? 0
                             then Free (pointer e) (ObjectSize e) (allocator d)
                             else allocator d)
                            (notified d ++ [[mkInfo object_id 0 0 true]])
                            (clients d) (clock d)
                            (observed d ++ [delete object_id (object_table_ d)])))
  /\ (exists r d', DeleteObject object_id d = Done r d'
        /\ (r = PlasmaError_OK \/ r = PlasmaError_ObjectNonexistent
            \/ r = PlasmaError_ObjectNotSealed \/ r = PlasmaError_ObjectInUse)).
Proof.
  assert (Hnone : object_table_ d !! object_id = None ->
                  DeleteObject object_id d = Done PlasmaError_ObjectNonexistent d).
  { intros Hn. unfold DeleteObject. by rewrite bind_get_dir, Hn. }
  assert (Hns : forall e, object_table_ d !! object_id = Some e ->
        state e <> PLASMA_SEALED ->
        DeleteObject object_id d =
          Done PlasmaError_ObjectNotSealed
               (mkDirectory (object_table_ d) (deletion_cache_ d ∪ {[object_id]})
                            (eviction_policy_ d) (external_store_ d) (allocator d)
                            (notified d) (clients d) (clock d) (observed d))).
  { intros e Ht Hs. unfold DeleteObject. rewrite bind_get_dir, Ht.
    by rewrite bool_decide_eq_false_2. }
  assert (Hnz : forall e, object_table_ d !! object_id = Some e ->
        state e = PLASMA_SEALED -> ref_count e <> 0 ->
        DeleteObject object_id d =
          Done PlasmaError_ObjectInUse
               (mkDirectory (object_table_ d) (deletion_cache_ d ∪ {[object_id]})
                            (eviction_policy_ d) (external_store_ d) (allocator d)
                            (notified d) (clients d) (clock d) (observed d))).
  { intros e Ht Hs Hr. unfold DeleteObject. rewrite bind_get_dir, Ht.
    rewrite bool_decide_eq_true_2 by done. simpl.
    destruct (Z.eqb_spec (ref_count e) 0); [contradiction|done]. }
  assert (Hz : forall e, object_table_ d !! object_id = Some e ->
        state e = PLASMA_SEALED -> ref_count e = 0 ->
        DeleteObject object_id d =
          Done PlasmaError_OK
               (mkDirectory (delete object_id (object_table_ d)) (deletion_cache_ d)
                            (RemoveObject object_id (eviction_policy_ d))
                            (external_store_ d)
                            (if device_num e =? 0
                             then Free (pointer e) (ObjectSize e) (allocator d)
                             else allocator d)
                            (notified d ++ [[mkInfo object_id 0 0 true]])
                            (clients d) (clock d)
                            (observed d ++ [delete object_id (object_table_ d)]))).
  { intros e Ht Hs Hr. unfold DeleteObject. rewrite bind_get_dir, Ht.
    rewrite bool_decide_eq_true_2 by done. rewrite Hr. simpl.
    unfold with_eviction_policy. rewrite bind_modify.
    rewrite (bind_Done _ _ _ _ _
               (EraseObject_present (upd_eviction_policy (RemoveObject object_id) d)
                                    object_id e Ht)).
    unfold notifications_callback_. rewrite bind_modify.
    by destruct (device_num e =? 0). }
  split; [|split; [|split; [|split]]]; try done.
  - intros Hn. split; [by apply Hnone|].
    rewrite (bind_Done _ _ _ _ _ (Hnone Hn)). by apply Hnone.
  - destruct (object_table_ d !! object_id) as [e|] eqn:Ht.
    + destruct (decide (state e = PLASMA_SEALED)) as [Hs|Hs].
      * destruct (decide (ref_count e = 0)) as [Hr|Hr].
        -- rewrite (Hz e eq_refl Hs Hr). eauto 10.
        -- rewrite (Hnz e eq_refl Hs Hr). eauto 10.
      * rewrite (Hns e eq_refl Hs). eauto 10.
    + rewrite (Hnone eq_refl). eauto 10.
Qed.

(** ** C8 *)

(** What the loop of [SealObjectsInternal] does on distinct ids: nothing but
    the table and the clock changes, and the callback is not called. *)
Lemma seal_each_sealed (object_ids : list ObjectID) : forall d infos,
  NoDup object_ids ->
  (forall object_id, object_id ∈ object_ids ->
     exists e, object_table_ d !! object_id = Some e /\ state e = PLASMA_CREATED) ->
  exists t infos1,
    seal_each wall_clock object_ids infos d
      = Done (infos ++ infos1)
             (mkDirectory t (deletion_cache_ d) (eviction_policy_ d) (external_store_ d)
                          (allocator d) (notified d) (clients d)
                          (clock d + length object_ids)%nat (observed d))
    /\ length infos1 = length object_ids
    /\ (forall i object_id, object_ids !! i = Some object_id ->
          exists e, object_table_ d !! object_id = Some e
            /\ t !! object_id =
                 Some (set_construct_duration
                         (wall_clock (clock d + i)%nat - create_time e)
                         (set_state PLASMA_SEALED e))
            /\ infos1 !! i =
                 Some (mkInfo object_id (data_size e) (metadata_size e) false))
    /\ (forall object_id, object_id ∉ object_ids ->
          t !! object_id = object_table_ d !! object_id).
Proof.
  induction object_ids as [|id0 rest IH]; intros d infos Hnd Hpre.
  - exists (object_table_ d), []. simpl. rewrite app_nil_r, Nat.add_0_r.
    destruct d. repeat split; try done.
  - apply NoDup_cons in Hnd as [Hnotin Hnd].
    destruct (Hpre id0) as (e0 & Ht0 & Hs0); [by left|].
    simpl. rewrite bind_get_dir. unfold GetObjectTableEntry. rewrite Ht0, Hs0.
    step.
    set (e0' := set_construct_duration _ _).
    set (d1 := upd_object_table _ _).
    destruct (IH d1 (infos ++ [sealed_info id0 e0']) Hnd)
      as (t & infos2 & Hrun & Hlen & Hin & Hout).
    { intros object_id Hmem. destruct (Hpre object_id) as (e & Ht & Hs); [by right|].
      exists e. split; [|done]. subst d1. simpl.
      rewrite lookup_insert_ne; [done|]. intros ->. contradiction. }
    exists t, (sealed_info id0 e0' :: infos2).
    split.
    { rewrite Hrun. subst d1. simpl. rewrite <- app_assoc. simpl.
      by rewrite Nat.add_succ_r. }
    split; [simpl; by rewrite Hlen|]. split.
    + intros [|i] object_id Hi; simpl in Hi.
      * injection Hi as <-. exists e0. split; [done|]. split; [|done].
        rewrite Hout by done. subst d1. simpl. rewrite lookup_insert_eq.
        by rewrite Nat.add_0_r.
      * destruct (Hin i object_id Hi) as (e & Ht & Ht2 & Hinfo).
        assert (object_id <> id0).
        { intros ->. apply Hnotin. by eapply list_elem_of_lookup_2. }
        subst d1. simpl in Ht, Ht2. rewrite lookup_insert_ne in Ht by done.
        exists e. split; [done|]. split; [|done].
        rewrite Ht2. by rewrite Nat.add_succ_r.
    + intros object_id Hmem. apply not_elem_of_cons in Hmem as [Hne Hmem].
      rewrite (Hout object_id Hmem). subst d1. simpl. by rewrite lookup_insert_ne.
Qed.

(** An id whose entry is missing or not in state Created stops the batch. *)
Lemma seal_each_check (object_ids : list ObjectID) : forall d infos bad,
  bad ∈ object_ids ->
  (forall e, object_table_ d !! bad = Some e -> state e <> PLASMA_CREATED) ->
  seal_each wall_clock object_ids infos d = CheckFailed.
Proof.
  induction object_ids as [|id0 rest IH]; intros d infos bad Hmem Hbad.
  - by apply elem_of_nil in Hmem.
  - simpl. rewrite bind_get_dir. unfold GetObjectTableEntry.
    destruct (object_table_ d !! id0) as [e0|] eqn:Ht0; [|done].
    destruct (decide (state e0 = PLASMA_CREATED)) as [Hs|Hs].
    + rewrite bool_decide_eq_true_2 by done. step.
      apply elem_of_cons in Hmem as [->|Hmem].
      * exfalso. by apply (Hbad e0).
      * apply (IH _ _ bad Hmem). simpl. intros e.
        destruct (decide (id0 = bad)) as [->|Hne].
        -- rewrite lookup_insert_eq. intros [= <-]. done.
        -- rewrite lookup_insert_ne by done. apply Hbad.
    + by rewrite bool_decide_eq_false_2.
Qed.

(** An id that comes twice stops the batch: at its second turn the entry is
    no longer in state Created. *)
Lemma seal_each_repeated (object_ids : list ObjectID) : forall d infos,
  ~ NoDup object_ids ->
  seal_each wall_clock object_ids infos d = CheckFailed.
Proof.
  induction object_ids as [|id0 rest IH]; intros d infos Hdup.
  - exfalso. apply Hdup. constructor.
  - simpl. rewrite bind_get_dir. unfold GetObjectTableEntry.
    destruct (object_table_ d !! id0) as [e0|] eqn:Ht0; [|done].
    destruct (decide (state e0 = PLASMA_CREATED)) as [Hs|Hs];
      [|by rewrite bool_decide_eq_false_2].
    rewrite bool_decide_eq_true_2 by done. step.
    destruct (decide (id0 ∈ rest)) as [Hin|Hout].
    + apply (seal_each_check rest _ _ id0 Hin). simpl.
      rewrite lookup_insert_eq. by intros e [= <-].
    + apply IH. intros Hnd. apply Hdup. by constructor.
Qed.

(** C8, as amended: [SealObjectsInternal] on distinct ids whose entries exist
    in state Created returns; every entry of the batch is then Sealed, with
    [construct_duration] the time read for that entry minus its
    [create_time]; the other entries and the rest of the directory are as
    before, but for the clock, read once per id. The callback is called
    once, with one notification per id, in order, carrying the sizes of the
    object and [is_deletion = false]; the table it finds is the table at the
    end, where the whole batch is sealed. The states are checked: an id
    whose entry is missing or not Created stops the process, and so does an
    id given twice, whatever the entries. *)
Theorem SealObjectsInternal_seals d (object_ids : list ObjectID) :
  (NoDup object_ids ->
   (forall object_id, object_id ∈ object_ids ->
      exists e, object_table_ d !! object_id = Some e /\ state e = PLASMA_CREATED) ->
   exists t infos,
     SealObjectsInternal wall_clock object_ids d
       = Done tt (mkDirectory t (deletion_cache_ d) (eviction_policy_ d)
                              (external_store_ d) (allocator d)
                              (notified d ++ [infos]) (clients d)
                              (clock d + length object_ids)%nat
                              (observed d ++ [t]))
     /\ length infos = length object_ids
     /\ (forall i object_id, object_ids !! i = Some object_id ->
           exists e, object_table_ d !! object_id = Some e
             /\ t !! object_id =
                  Some (set_construct_duration
                          (wall_clock (clock d + i)%nat - create_time e)
                          (set_state PLASMA_SEALED e))
             /\ infos !! i =
                  Some (mkInfo object_id (data_size e) (metadata_size e) false))
     /\ (forall object_id, object_id ∉ object_ids ->
           t !! object_id = object_table_ d !! object_id))
  /\ (forall bad, bad ∈ object_ids ->
        (forall e, object_table_ d !! bad = Some e -> state e <> PLASMA_CREATED) ->
        SealObjectsInternal wall_clock object_ids d = CheckFailed)
  /\ (~ NoDup object_ids -> SealObjectsInternal wall_clock object_ids d = CheckFailed).
Proof.
  split; [|split].
  - intros Hnd Hpre.
    destruct (seal_each_sealed object_ids d [] Hnd Hpre)
      as (t & infos & Hrun & Hlen & Hin & Hout).
    simpl in Hrun. exists t, infos. split; [|done].
    unfold SealObjectsInternal. by rewrite (bind_Done _ _ _ _ _ Hrun).
  - intros bad Hmem Hbad. unfold SealObjectsInternal.
    apply bind_CheckFailed. by eapply seal_each_check.
  - intros Hdup. unfold SealObjectsInternal.
    apply bind_CheckFailed. by apply seal_each_repeated.
Qed.

(** ** Evictions *)

Lemma only_evicts_refl l d : only_evicts l d d.
Proof. by repeat split. Qed.

Lemma only_evicts_trans l1 l2 l d1 d2 d3 :
  l1 ⊆ l -> l2 ⊆ l ->
  only_evicts l1 d1 d2 -> only_evicts l2 d2 d3 -> only_evicts l d1 d3.
Proof.
  intros H1 H2 (Ha & Hb & Hc & Hd & He & Hf & Hg) (Ha' & Hb' & Hc' & Hd' & He' & Hf' & Hg').
  repeat split; try congruence.
  - intros object_id Hn. rewrite Ha', Ha; [done| |]; intros Hm; apply Hn; auto.
  - auto.
  - intros Hx. by apply Hg, Hg'.
  - intros Hx. by apply Hg', Hg.
Qed.

Lemma FreeObject_only_evicts d object_id p d' :
  FreeObject (InTable object_id) d = Done p d' ->
  p = InTable object_id /\ only_evicts [object_id] d d'.
Proof.
  destruct (object_table_ d !! object_id) as [e|] eqn:Ht.
  - rewrite (FreeObject_InTable d object_id e Ht). intros [= <- <-].
    split; [done|].
    assert (Hsame : forall T (f : Directory A P X -> T),
              (forall g d0, f (upd_allocator g d0) = f d0) ->
              f (if device_num e =? 0
                 then upd_allocator (Free (pointer e) (ObjectSize e)) d else d) = f d).
    { intros T f Hf. destruct (device_num e =? 0); [apply Hf|done]. }
    repeat split; simpl.
    + intros id Hn. rewrite lookup_insert_ne by set_solver.
      by rewrite (Hsame _ (fun d0 => object_table_ d0 !! id)).
    + intros id Hn. rewrite lookup_insert_ne by congruence.
      by rewrite (Hsame _ (fun d0 => object_table_ d0 !! id)).
    + by rewrite (Hsame _ deletion_cache_).
    + by rewrite (Hsame _ eviction_policy_).
    + by rewrite (Hsame _ clients).
    + by rewrite (Hsame _ clock).
    + by rewrite (Hsame _ external_store_).
    + by rewrite (Hsame _ external_store_).
  - unfold FreeObject. step. by rewrite Ht.
Qed.

Lemma evict_each_only_evicts (l : list ObjectID) : forall d acc acc' d',
  evict_each l acc d = Done acc' d' ->
  only_evicts l d d'
  /\ exists ids, acc'.1.1 = acc.1.1 ++ (InTable <$> ids) /\ ids ⊆ l.
Proof.
  induction l as [|id0 rest IH]; intros d [[en da] inf] acc' d' Hrun.
  - simpl in Hrun. injection Hrun as <- <-. split; [apply only_evicts_refl|].
    exists []. simpl. by rewrite app_nil_r.
  - simpl in Hrun. rewrite bind_get_dir in Hrun.
    destruct (object_table_ d !! id0) as [e0|] eqn:Ht0; [|done].
    apply bind_inv in Hrun as ([] & d1 & Hc1 & Hrun).
    unfold RAY_CHECK in Hc1. destruct (bool_decide _); [|done]. injection Hc1 as <-.
    apply bind_inv in Hrun as ([] & d1 & Hc1 & Hrun).
    unfold RAY_CHECK in Hc1. destruct (ref_count e0 =? 0); [|done]. injection Hc1 as <-.
    destruct (external_store_ d) as [x|] eqn:Hx.
    + apply IH in Hrun as (Hfr & ids & Hacc & Hsub). split.
      * eapply (only_evicts_trans [] rest); [set_solver|set_solver|apply only_evicts_refl|done].
      * exists (id0 :: ids). simpl in *. rewrite Hacc, <- app_assoc. split; [done|set_solver].
    + apply bind_inv in Hrun as (p & d1 & Hfree & Hrun).
      apply FreeObject_only_evicts in Hfree as [_ Hfr1].
      apply IH in Hrun as (Hfr & ids & Hacc & Hsub). split.
      * eapply (only_evicts_trans [id0] rest); [set_solver|set_solver|done|done].
      * exists ids. simpl in *. split; [done|set_solver].
Qed.

Lemma for_each_FreeObject_only_evicts (ids : list ObjectID) : forall d d',
  for_each (InTable <$> ids) (fun entry => FreeObject entry ;;; ret tt) d = Done tt d' ->
  only_evicts ids d d'.
Proof.
  induction ids as [|id0 rest IH]; intros d d' Hrun.
  - simpl in Hrun. injection Hrun as <-. apply only_evicts_refl.
  - simpl in Hrun. apply bind_inv in Hrun as ([] & d1 & Hfree & Hrun).
    apply bind_inv in Hfree as (p & d2 & Hfree & Hret). injection Hret as <-.
    apply FreeObject_only_evicts in Hfree as [_ Hfr1]. apply IH in Hrun.
    eapply (only_evicts_trans [id0] rest); [set_solver|set_solver|done|done].
Qed.

(** [EvictObjectsInternal] touches the entries of the ids it is given, and
    no other. *)
Lemma EvictObjectsInternal_only_evicts (l : list ObjectID) d d' :
  EvictObjectsInternal l d = Done tt d' -> only_evicts l d d'.
Proof.
  destruct l as [|id0 rest].
  { simpl. intros [= <-]. apply only_evicts_refl. }
  set (l := id0 :: rest). unfold EvictObjectsInternal. fold l. intros Hrun.
  apply bind_inv in Hrun as ([[en da] inf] & d1 & Heach & Hrun).
  apply evict_each_only_evicts in Heach as (Hfr1 & ids & Hacc & Hsub).
  simpl in Hacc. subst en. rewrite bind_get_dir in Hrun.
  destruct (external_store_ d1) as [x|] eqn:Hx.
  - destruct (Put l da x) as [s x'] eqn:HPut.
    unfold set_external_store in Hrun. rewrite bind_modify in Hrun.
    apply bind_inv in Hrun as ([] & d2 & Hc & Hrun).
    unfold RAY_CHECK in Hc. destruct (ok s); [|done]. injection Hc as <-.
    apply for_each_FreeObject_only_evicts in Hrun.
    eapply (only_evicts_trans l ids); [done|done| |done].
    eapply (only_evicts_trans l []); [done|set_solver|done|].
    repeat split; simpl; try done. by rewrite Hx.
  - unfold notifications_callback_, modify in Hrun. injection Hrun as <-.
    eapply (only_evicts_trans l []); [done|set_solver|done|].
    by repeat split.
Qed.

(** ** C5 *)


(** ** C7 *)



(** Every id [EvictObjectsInternal] goes through is checked: its entry is
    sealed and nobody references it. *)
Lemma evict_each_checked (l : list ObjectID) : forall d acc acc' d',
  evict_each l acc d = Done acc' d' ->
  forall object_id, object_id ∈ l ->
    exists e, object_table_ d !! object_id = Some e
      /\ state e = PLASMA_SEALED /\ ref_count e = 0.
Proof.
  induction l as [|id0 rest IH]; intros d [[en da] inf] acc' d' Hrun object_id Hin.
  - by apply elem_of_nil in Hin.
  - simpl in Hrun. rewrite bind_get_dir in Hrun.
    destruct (object_table_ d !! id0) as [e0|] eqn:Ht0; [|done].
    apply bind_inv in Hrun as ([] & d1 & Hc1 & Hrun).
    unfold RAY_CHECK in Hc1.
    destruct (bool_decide_reflect (state e0 = PLASMA_SEALED)) as [Hs0|]; [|done].
    injection Hc1 as <-.
    apply bind_inv in Hrun as ([] & d1 & Hc1 & Hrun).
    unfold RAY_CHECK in Hc1. destruct (Z.eqb_spec (ref_count e0) 0) as [Hr0|]; [|done].
    injection Hc1 as <-.
    destruct (decide (object_id = id0)) as [->|Hne]; [eauto|].
    apply elem_of_cons in Hin as [?|Hin]; [done|].
    destruct (external_store_ d) as [x|] eqn:Hx.
    + by eapply IH.
    + apply bind_inv in Hrun as (p & d1 & Hfree & Hrun).
      destruct (IH _ _ _ _ Hrun object_id Hin) as (e & Ht & Hs & Hr).
      apply FreeObject_only_evicts in Hfree as [_ (Hsame & _)].
      rewrite Hsame in Ht by set_solver. eauto.
Qed.

(** An eviction leaves alone every entry that is not sealed or that somebody
    references, and adds no id to the table. *)
Lemma EvictObjectsInternal_keeps_busy (l : list ObjectID) d d' :
  EvictObjectsInternal l d = Done tt d' ->
  (forall other, object_table_ d !! other = None -> object_table_ d' !! other = None)
  /\ (forall other e, object_table_ d !! other = Some e ->
        ~ (state e = PLASMA_SEALED /\ ref_count e = 0) ->
        object_table_ d' !! other = Some e).
Proof.
  intros Hrun.
  pose proof (EvictObjectsInternal_only_evicts _ _ _ Hrun) as (Hsame & Hnone & _).
  split; [done|]. intros other e Ht Hbusy.
  destruct (decide (other ∈ l)) as [Hin|Hout]; [|by rewrite Hsame].
  exfalso. apply Hbusy.
  destruct l as [|id0 rest]; [by apply elem_of_nil in Hin|].
  set (l := id0 :: rest) in *. unfold EvictObjectsInternal in Hrun. fold l in Hrun.
  apply bind_inv in Hrun as (acc & d1 & Heach & _).
  destruct (evict_each_checked _ _ _ _ _ Heach other Hin) as (e1 & Ht1 & Hs & Hr).
  rewrite Ht in Ht1. by injection Ht1 as ->.
Qed.

(** The allocation loop on an entry that is not in the table yet. *)
Lemma allocate_loop_keeps_busy fuel : forall object_id e0 size evict_if_full client is_create
    d s p d',
  allocate_loop kBlockSize wall_clock fuel object_id (Detached e0) size evict_if_full
                client is_create 0 d = Done (s, p) d' ->
  (forall other, object_table_ d !! other = None -> object_table_ d' !! other = None)
  /\ (forall other e, object_table_ d !! other = Some e ->
        ~ (state e = PLASMA_SEALED /\ ref_count e = 0) ->
        object_table_ d' !! other = Some e).
Proof.
  induction fuel as [|fuel IH]; intros object_id e0 size evict_if_full client is_create
    d s p d' Hrun; [done|].
  simpl in Hrun. unfold ObjectTableEntry_AllocateMemory, call_Memalign in Hrun.
  revert Hrun. step.
  destruct (Memalign kBlockSize size (allocator d)) as [[address|] a] eqn:Hmem; simpl.
  - destruct (GetMallocMapinfo (Some address) a) as [[f ms] off]. simpl.
    destruct (negb (f =? -1)); [|done]. simpl.
    unfold AddToClientObjectIds. step.
    match goal with
    | |- context [decide (?x ∈ ?s)] => destruct (decide (x ∈ s))
    end.
    + intros [= <- <- <-]. simpl. split; [done|auto].
    + simpl. destruct (_ =? 0); simpl; intros [= <- <- <-]; simpl; (split; [done|auto]).
  - destruct evict_if_full; simpl; [|intros [= <- <- <-]; simpl; split; [done|auto]].
    unfold call_RequireSpace. simpl.
    destruct (RequireSpace size (eviction_policy_ d)) as [[success l] p2]. simpl.
    match goal with
    | |- context [EvictObjectsInternal l ?d0] =>
        destruct (EvictObjectsInternal l d0) as [[] d2| |] eqn:Hev; [|done|done]
    end.
    apply EvictObjectsInternal_keeps_busy in Hev as [Hnone Hbusy]. simpl in Hnone, Hbusy.
    destruct success; simpl.
    + intros Hrun. apply IH in Hrun as [Hnone' Hbusy']. split; [auto|].
      intros other e Ht Hb. apply Hbusy'; [|done]. by apply Hbusy.
    + intros [= <- <- <-]. split; [auto|]. done.
Qed.

Lemma AllocateMemory_keeps_busy fuel object_id e0 size evict_if_full client is_create
    d s p d' :
  AllocateMemory kBlockSize wall_clock fuel object_id (Detached e0) size evict_if_full
                 client is_create 0 d = Done (s, p) d' ->
  (forall other, object_table_ d !! other = None -> object_table_ d' !! other = None)
  /\ (forall other e, object_table_ d !! other = Some e ->
        ~ (state e = PLASMA_SEALED /\ ref_count e = 0) ->
        object_table_ d' !! other = Some e).
Proof.
  unfold AllocateMemory. intros Hrun.
  apply bind_inv in Hrun as (e1 & d0 & Hder & Hrun). injection Hder as <- <-.
  apply bind_inv in Hrun as ([] & d1 & Hc & Hrun).
  unfold RAY_CHECK in Hc. destruct (bool_decide _); [|done]. injection Hc as <-.
  simpl in Hrun. apply bind_inv in Hrun as (quota & d1 & Hq & Hrun).
  assert (Hd1 : (forall other, object_table_ d !! other = None ->
                               object_table_ d1 !! other = None)
                /\ (forall other e, object_table_ d !! other = Some e ->
                      ~ (state e = PLASMA_SEALED /\ ref_count e = 0) ->
                      object_table_ d1 !! other = Some e)).
  { destruct evict_if_full; [|injection Hq as <- <-; auto].
    apply bind_inv in Hq as ([quota_ok0 l0] & d2 & Hcall & Hq).
    unfold call_EnforcePerClientQuota in Hcall.
    destruct (EnforcePerClientQuota _ _ _ _) as [[quota_ok l] p1].
    injection Hcall as <- <- <-.
    destruct quota_ok; simpl in Hq; [|injection Hq as <- <-; auto].
    apply bind_inv in Hq as ([] & d3 & Hev & Hq). injection Hq as <- <-.
    by apply EvictObjectsInternal_keeps_busy in Hev. }
  destruct Hd1 as [Hnone1 Hbusy1].
  destruct quota; simpl in Hrun.
  - apply allocate_loop_keeps_busy in Hrun as [Hnone Hbusy]. split; [auto|].
    intros other e Ht Hb. apply Hbusy; [|done]. by apply Hbusy1.
  - injection Hrun as <- <- <-. auto.
Qed.

(** Whatever the turn of the loop at which the eviction policy gives up:
    when [CreateObject] on the host answers anything but OK, no entry was
    inserted, no id joined the table, and every entry that is not sealed or
    that somebody references is as before. *)
Lemma CreateObject_not_OK_keeps_busy fuel d object_id evict_if_full data_size metadata_size
    client s r d' :
  CreateObject kBlockSize wall_clock fuel object_id evict_if_full data_size metadata_size
               0 client d = Done (s, r) d' ->
  s <> StatusOK ->
  r = None
  /\ (forall other, object_table_ d !! other = None -> object_table_ d' !! other = None)
  /\ (forall other e, object_table_ d !! other = Some e ->
        ~ (state e = PLASMA_SEALED /\ ref_count e = 0) ->
        object_table_ d' !! other = Some e).
Proof.
  unfold CreateObject. intros Hrun Hs.
  apply bind_inv in Hrun as ([s0 entry] & d1 & Hint & Hrun).
  destruct entry as [entry|].
  { apply bind_inv in Hrun as (e & d2 & _ & Hret). by injection Hret as <- <- <-. }
  injection Hrun as <- <- <-. split; [done|].
  unfold CreateObjectInternal in Hint. rewrite bind_get_dir in Hint.
  destruct (decide _) as [|Hnew]; [injection Hint as <- <-; auto|].
  apply bind_inv in Hint as ([] & d2 & Hc & Hint).
  unfold RAY_CHECK in Hc. destruct (_ <? _); [|done]. injection Hc as <-.
  apply bind_inv in Hint as ([s1 p] & d2 & Hal & Hint).
  destruct (ok s1); simpl in Hint.
  - apply bind_inv in Hint as (e & d3 & _ & Hint).
    apply bind_inv in Hint as ([] & d4 & _ & Hint). done.
  - injection Hint as <- <-. by apply AllocateMemory_keeps_busy in Hal.
Qed.

(** ** Evictions without an external store (C1) *)

Lemma evict_each_no_store (l : list ObjectID) : forall d acc acc' d',
  external_store_ d = None ->
  evict_each l acc d = Done acc' d' ->
  acc'.2 = acc.2 ++ (deletion_info <$> l)
  /\ notified d' = notified d
  /\ (forall object_id e,
        object_table_ d !! object_id = Some e -> state e = PLASMA_EVICTED ->
        exists e', object_table_ d' !! object_id = Some e' /\ state e' = PLASMA_EVICTED)
  /\ (forall object_id, object_id ∈ l ->
        exists e', object_table_ d' !! object_id = Some e' /\ state e' = PLASMA_EVICTED).
Proof.
  induction l as [|id0 rest IH]; intros d [[en da] inf] acc' d' Hx Hrun.
  - simpl in Hrun. injection Hrun as <- <-. simpl. rewrite app_nil_r.
    split; [done|]. split; [done|]. split; [eauto|].
    intros object_id Hin. by apply elem_of_nil in Hin.
  - simpl in Hrun. rewrite bind_get_dir in Hrun.
    destruct (object_table_ d !! id0) as [e0|] eqn:Ht0; [|done].
    apply bind_inv in Hrun as ([] & d1 & Hc1 & Hrun).
    unfold RAY_CHECK in Hc1. destruct (bool_decide _); [|done]. injection Hc1 as <-.
    apply bind_inv in Hrun as ([] & d1 & Hc1 & Hrun).
    unfold RAY_CHECK in Hc1. destruct (ref_count e0 =? 0); [|done]. injection Hc1 as <-.
    rewrite Hx in Hrun.
    rewrite (bind_Done _ _ _ _ _ (FreeObject_InTable d id0 e0 Ht0)) in Hrun.
    set (d1 := upd_object_table _ _) in Hrun.
    assert (Hx1 : external_store_ d1 = None).
    { subst d1. simpl. by destruct (device_num e0 =? 0). }
    assert (Ht1 : forall object_id,
              object_table_ d1 !! object_id =
              if decide (id0 = object_id) then Some (set_state PLASMA_EVICTED (Reset e0))
              else object_table_ d !! object_id).
    { intros object_id. subst d1. simpl. rewrite lookup_insert.
      destruct (decide (id0 = object_id)); [done|]. by destruct (device_num e0 =? 0). }
    assert (Hn1 : notified d1 = notified d).
    { subst d1. simpl. by destruct (device_num e0 =? 0). }
    destruct (IH _ _ _ _ Hx1 Hrun) as (Hinf & Hnot & Hkeep & Hnew). simpl in Hinf.
    split; [simpl; by rewrite Hinf, <- app_assoc|]. split; [congruence|]. split.
    + intros object_id e Ht Hs. specialize (Ht1 object_id).
      destruct (decide (id0 = object_id)); [eapply Hkeep; [done|done]|].
      eapply Hkeep; [by rewrite Ht1|done].
    + intros object_id Hin. apply elem_of_cons in Hin as [->|Hin]; [|by apply Hnew].
      specialize (Ht1 id0). rewrite decide_True in Ht1 by done.
      eapply Hkeep; [done|done].
Qed.

(** Without an external store, [EvictObjectsInternal] emits the deletion
    notifications of the ids in one call, and every entry it evicted is
    still in the table afterwards, in state Evicted. *)
Lemma EvictObjectsInternal_no_store (l : list ObjectID) d d' :
  external_store_ d = None ->
  l <> [] ->
  EvictObjectsInternal l d = Done tt d' ->
  notified d' = notified d ++ [deletion_info <$> l]
  /\ (forall object_id, object_id ∈ l ->
        exists e', object_table_ d' !! object_id = Some e' /\ state e' = PLASMA_EVICTED).
Proof.
  intros Hx Hne Hrun. destruct l as [|id0 rest]; [done|].
  set (l := id0 :: rest) in *. unfold EvictObjectsInternal in Hrun. fold l in Hrun.
  apply bind_inv in Hrun as ([[en da] inf] & d1 & Heach & Hrun).
  pose proof (evict_each_only_evicts _ _ _ _ _ Heach) as [(_ & _ & _ & _ & _ & _ & Hst) _].
  apply evict_each_no_store in Heach as (Hinf & Hnot & _ & Hnew); [|done].
  rewrite bind_get_dir in Hrun. rewrite (proj2 Hst Hx) in Hrun.
  unfold notifications_callback_, modify in Hrun. injection Hrun as <-.
  simpl in *. subst inf. by rewrite Hnot.
Qed.

(** ** The reconstruction of [GetObjects] (C2, C6) *)

(** After its first loop, [GetObjects] changes no entry: the vector of the
    entries to seal, or to roll back, is empty. *)
Lemma GetObjects_after_first_loop fuel (l : list ObjectID) client s r n d acc d1 res d' :
  get_each kBlockSize wall_clock fuel client l (s, [], n) d = Done acc d1 ->
  GetObjects kBlockSize wall_clock fuel l client s r n d = Done res d' ->
  object_table_ d' = object_table_ d1
  /\ res.1.1 = acc.1.1 /\ res.2 = acc.2
  /\ (res.1.2 = r \/ res.1.2 = acc.1.2).
Proof.
  intros Hloop Hrun. unfold GetObjects in Hrun.
  rewrite (bind_Done _ _ _ _ _ Hloop) in Hrun.
  destruct acc as [[s' ev] n']. simpl.
  destruct ev as [|id0 ev].
  - injection Hrun as <- <-. auto.
  - rewrite bind_get_dir in Hrun. destruct (external_store_ d1) as [x|].
    + simpl in Hrun. rewrite bind_ret in Hrun.
      destruct (Get l [] x) as [st x']. unfold set_external_store in Hrun.
      rewrite bind_modify in Hrun. destruct (ok st).
      * rewrite bind_ret in Hrun.
        apply bind_inv in Hrun as ([] & d2 & Hc & Hrun).
        unfold RAY_CHECK in Hc. destruct (bool_decide _); [|done].
        injection Hc as <-. injection Hrun as <- <-. auto.
      * rewrite bind_ret in Hrun. injection Hrun as <- <-. auto.
    + simpl in Hrun. rewrite bind_ret in Hrun. injection Hrun as <- <-. auto.
Qed.

End Properties.

(** * The directory on examples *)

(** Decides a closed statement by evaluation. *)
Ltac evaluate := apply (bool_decide_unpack _); vm_compute; exact I.

(** ** C1 *)

(** C1, on the code: without an external store, evicting the sealed,
    unreferenced object 3 frees its block and emits one deletion notification,
    but the entry is not removed: id 3 is still in the table, in state
    Evicted, and [ContainsObject] still finds it. *)
Theorem EvictObjectsInternal_without_store_keeps_entry :
  play one_idle_object_history (new_directory 256 None) = Done tt one_idle_object
  /\ external_store_ one_idle_object = None
  /\ (exists e, object_table_ one_idle_object !! 3%N = Some e
        /\ state e = PLASMA_SEALED /\ ref_count e = 0)
  /\ exists d' e',
       EvictObjectsInternal [3%N] one_idle_object = Done tt d'
       /\ notified d' = notified one_idle_object ++ [[deletion_info 3%N]]
       /\ allocated (allocator d') = 0
       /\ object_table_ d' !! 3%N = Some e'
       /\ state e' = PLASMA_EVICTED
       /\ ContainsObject 3%N d' = Done OBJECT_FOUND d'.
Proof.
  split; [vm_compute; reflexivity|]. split; [vm_compute; reflexivity|].
  split.
  - eexists. split; [vm_compute; reflexivity|]. split; reflexivity.
  - eexists. eexists. split; [vm_compute; reflexivity|].
    split; [vm_compute; reflexivity|]. split; [vm_compute; reflexivity|].
    split; [vm_compute; reflexivity|]. split; [reflexivity|].
    vm_compute; reflexivity.
Qed.

(** ** C2 *)

(** C2, on the code: object 4 is in state Evicted and the external store
    holds it. [GetObjects] allocates memory for it, the fetch succeeds, and
    the id is answered as reconstructed; but the entry is left in state
    Created, with [construct_duration = -1]: it is neither sealed nor
    stamped. *)
Theorem GetObjects_reconstructed_not_sealed :
  play spilled_object_history (new_directory 256 (Some (mkStore ∅ true)))
    = Done tt spilled_object
  /\ (exists e, object_table_ spilled_object !! 4%N = Some e /\ state e = PLASMA_EVICTED)
  /\ external_store_ spilled_object = Some (mkStore {[4%N]} true)
  /\ exists d' e',
       GetObjects 64 example_clock 8 [4%N] client_B [] [] [] spilled_object
         = Done ([], [4%N], []) d'
       /\ object_table_ d' !! 4%N = Some e'
       /\ state e' = PLASMA_CREATED
       /\ construct_duration e' = -1.
Proof.
  split; [vm_compute; reflexivity|]. split.
  - eexists. split; [vm_compute; reflexivity|reflexivity].
  - split; [vm_compute; reflexivity|].
    eexists. eexists. split; [vm_compute; reflexivity|].
    split; [vm_compute; reflexivity|]. split; reflexivity.
Qed.

(** ** C6 *)

(** C6, on the code: object 4 is in state Evicted and the external store is
    out of reach. [GetObjects] allocates memory for it, the fetch fails, and
    the id is left out of the reconstructed ids; but the entry is not rolled
    back to Evicted: it stays in state Created, referenced by the client,
    and the next [GetObjects] answers the id as nonexistent instead of
    trying again. *)
Theorem GetObjects_fetch_failure_not_rolled_back :
  (exists e, object_table_ spilled_object_offline !! 4%N = Some e
     /\ state e = PLASMA_EVICTED)
  /\ Get [4%N] [] (mkStore {[4%N]} false) = (StatusIOError, mkStore {[4%N]} false)
  /\ exists d' e',
       GetObjects 64 example_clock 8 [4%N] client_B [] [] [] spilled_object_offline
         = Done ([], [], []) d'
       /\ object_table_ d' !! 4%N = Some e'
       /\ state e' = PLASMA_CREATED
       /\ ref_count e' = 1
       /\ GetObjects 64 example_clock 8 [4%N] client_B [] [] [] d'
          = Done ([], [], [4%N]) d'.
Proof.
  split.
  - eexists. split; [vm_compute; reflexivity|reflexivity].
  - split; [vm_compute; reflexivity|].
    eexists. eexists. split; [vm_compute; reflexivity|].
    split; [vm_compute; reflexivity|]. split; [reflexivity|]. split; [reflexivity|].
    vm_compute; reflexivity.
Qed.

(** The other half of C6 holds on the code: when the allocation fails, the
    entry stays in state Evicted and the id is left out of the reconstructed
    ids. *)
Example GetObjects_allocation_failure_stays_evicted :
  exists d' e',
    GetObjects 64 example_clock 8 [4%N] client_B [] [] [] spilled_object_no_room
      = Done ([], [], []) d'
    /\ object_table_ d' !! 4%N = Some e'
    /\ state e' = PLASMA_EVICTED
    /\ pointer e' = None.
Proof.
  eexists. eexists. split; [vm_compute; reflexivity|].
  split; [vm_compute; reflexivity|]. split; reflexivity.
Qed.

(** ** C9 *)

(** C9, on the code: A creates and seals object 1, B and C reference it, B
    aborts it, and A creates and seals an object 1 again. C still holds the
    id; when C disconnects, the reference count of the new entry goes from 0
    to -1. *)
Theorem DisconnectClient_negative_ref_count :
  play recreated_object_history (new_directory 1024 None) = Done tt recreated_object
  /\ (exists e, object_table_ recreated_object !! 1%N = Some e /\ ref_count e = 0)
  /\ exists d' e',
       DisconnectClient client_C recreated_object = Done tt d'
       /\ object_table_ d' !! 1%N = Some e'
       /\ ref_count e' = -1.
Proof.
  split; [vm_compute; reflexivity|]. split.
  - eexists. split; [vm_compute; reflexivity|reflexivity].
  - eexists. eexists. split; [vm_compute; reflexivity|].
    split; [vm_compute; reflexivity|reflexivity].
Qed.

(** ** C3 *)

(** C3, on the code: A created and sealed object 8 and released it; B, which
    did not create it, references it. [AbortObject] by B does not answer 0
    with the entry untouched: it answers 1 and the entry is erased from the
    table. [AbortObject] by A, which created the object and holds no
    reference any more, answers 0 and changes nothing. *)
Theorem AbortObject_by_referencing_client :
  play referenced_by_B_history (new_directory 1024 None) = Done tt referenced_by_B
  /\ 8%N ∈ object_ids client_B referenced_by_B
  /\ (8%N ∉ object_ids client_A referenced_by_B)
  /\ (exists e, object_table_ referenced_by_B !! 8%N = Some e /\ state e = PLASMA_SEALED)
  /\ AbortObject 8 client_B referenced_by_B <> Done 0 referenced_by_B
  /\ (exists d', AbortObject 8 client_B referenced_by_B = Done 1 d'
        /\ object_table_ d' !! 8%N = None)
  /\ AbortObject 8 client_A referenced_by_B = Done 0 referenced_by_B.
Proof.
  split; [vm_compute; reflexivity|]. split; [evaluate|]. split; [evaluate|]. split.
  - eexists. split; [vm_compute; reflexivity|reflexivity].
  - split; [|split].
    + intros Heq. apply (f_equal answer) in Heq. vm_compute in Heq. discriminate.
    + eexists. split; vm_compute; reflexivity.
    + vm_compute; reflexivity.
Qed.

(** ** C4 *)

(** C4 as stated fails on an entry whose reference count is negative: after
    the history of [negative_count] the entry of object 1 is sealed with
    [ref_count = -1], which is not [> 0]; yet [DeleteObject] does not erase
    it: it answers ObjectInUse, the id joins the deletion cache, the table is
    as before and nothing is notified. *)
Lemma DeleteObject_negative_ref_count :
  play negative_count_history (new_directory 1024 None) = Done tt negative_count
  /\ (exists e, object_table_ negative_count !! 1%N = Some e
        /\ state e = PLASMA_SEALED /\ ref_count e = -1 /\ ~ 0 < ref_count e)
  /\ exists d',
       DeleteObject 1 negative_count = Done PlasmaError_ObjectInUse d'
       /\ object_table_ d' = object_table_ negative_count
       /\ 1%N ∈ deletion_cache_ d'
       /\ notified d' = notified negative_count.
Proof.
  split; [vm_compute; reflexivity|]. split.
  - eexists. split; [vm_compute; reflexivity|]. split; [reflexivity|].
    split; [reflexivity|]. simpl. lia.
  - eexists. split; [vm_compute; reflexivity|]. split; [vm_compute; reflexivity|].
    split; [evaluate|vm_compute; reflexivity].
Qed.

Lemma DeleteObject_outcomes_witness :
  DeleteObject 9 four_cases = Done PlasmaError_ObjectNonexistent four_cases
  /\ (exists d', DeleteObject 1 four_cases = Done PlasmaError_ObjectNotSealed d'
        /\ deletion_cache_ d' = {[1%N]}
        /\ object_table_ d' = object_table_ four_cases
        /\ notified d' = notified four_cases)
  /\ (exists d', DeleteObject 2 four_cases = Done PlasmaError_ObjectInUse d'
        /\ deletion_cache_ d' = {[2%N]}
        /\ object_table_ d' = object_table_ four_cases
        /\ notified d' = notified four_cases)
  /\ (exists d', DeleteObject 3 four_cases = Done PlasmaError_OK d'
        /\ object_table_ d' !! 3%N = None
        /\ allocated (allocator d') = 150
        /\ notified d' = notified four_cases ++ [[mkInfo 3 0 0 true]]
        /\ deletion_cache_ d' = ∅).
Proof.
  assert (H9 : object_table_ four_cases !! 9%N = None) by (vm_compute; reflexivity).
  assert (H1 : object_table_ four_cases !! 1%N
               = Some (mkEntry PLASMA_CREATED 100 20 (Some 0) 0 3 1024 0 1 1000 (-1)))
    by (vm_compute; reflexivity).
  assert (H2 : object_table_ four_cases !! 2%N
               = Some (mkEntry PLASMA_SEALED 30 0 (Some 120) 0 3 1024 120 1 1001 1))
    by (vm_compute; reflexivity).
  assert (H3 : object_table_ four_cases !! 3%N
               = Some (mkEntry PLASMA_SEALED 40 0 (Some 150) 0 3 1024 150 0 1003 1))
    by (vm_compute; reflexivity).
  split; [exact (proj1 (proj1 (DeleteObject_outcomes four_cases 9%N) H9))|].
  split.
  { eexists. split.
    - apply (proj1 (proj2 (DeleteObject_outcomes four_cases 1%N)) _ H1). simpl. discriminate.
    - split; [vm_compute; reflexivity|]. split; vm_compute; reflexivity. }
  split.
  { eexists. split.
    - apply (proj1 (proj2 (proj2 (DeleteObject_outcomes four_cases 2%N))) _ H2);
        [reflexivity|simpl; lia].
    - split; [vm_compute; reflexivity|]. split; vm_compute; reflexivity. }
  eexists. split.
  - exact (proj1 (proj2 (proj2 (proj2 (DeleteObject_outcomes four_cases 3%N)))) _ H3
             eq_refl eq_refl).
  - split; [vm_compute; reflexivity|]. split; [vm_compute; reflexivity|].
    split; vm_compute; reflexivity.
Defined.

(** ** C5 *)



(** ** C7 *)



(** ** C8 *)

(** C8 as stated fails on a list that names an id twice: the entry of
    object 1 exists in state Created, so the precondition holds for every id
    of [1; 1]; the first turn seals the entry, and the check of the second
    turn stops the process. *)
Lemma SealObjectsInternal_repeated_id :
  (forall object_id, object_id ∈ [1%N; 1%N] ->
     exists e, object_table_ two_created !! object_id = Some e
       /\ state e = PLASMA_CREATED)
  /\ SealObjectsInternal example_clock [1%N; 1%N] two_created = CheckFailed.
Proof.
  split; [|vm_compute; reflexivity].
  intros object_id Hin.
  assert (object_id = 1%N) as ->.
  { apply elem_of_cons in Hin as [->|Hin]; [done|].
    apply elem_of_cons in Hin as [->|Hin]; [done|]. by apply elem_of_nil in Hin. }
  eexists. split; [vm_compute; reflexivity|reflexivity].
Qed.

Lemma SealObjectsInternal_seals_witness :
  (exists t,
     SealObjectsInternal example_clock [1%N; 2%N] two_created
       = Done tt (mkDirectory t (deletion_cache_ two_created)
                              (eviction_policy_ two_created)
                              (external_store_ two_created) (allocator two_created)
                              (notified two_created
                                 ++ [[mkInfo 1 100 20 false; mkInfo 2 30 0 false]])
                              (clients two_created) (clock two_created + 2)%nat
                              (observed two_created ++ [t]))
     /\ t !! 1%N = Some (mkEntry PLASMA_SEALED 100 20 (Some 0) 0 3 1024 0 1 1000 2)
     /\ t !! 2%N = Some (mkEntry PLASMA_SEALED 30 0 (Some 120) 0 3 1024 120 1 1001 2))
  /\ SealObjectsInternal example_clock [1%N; 7%N] two_created = CheckFailed
  /\ SealObjectsInternal example_clock [2%N; 1%N; 2%N] two_created = CheckFailed.
Proof.
  assert (H1 : object_table_ two_created !! 1%N
               = Some (mkEntry PLASMA_CREATED 100 20 (Some 0) 0 3 1024 0 1 1000 (-1)))
    by (vm_compute; reflexivity).
  assert (H2 : object_table_ two_created !! 2%N
               = Some (mkEntry PLASMA_CREATED 30 0 (Some 120) 0 3 1024 120 1 1001 (-1)))
    by (vm_compute; reflexivity).
  split; [|split].
  - destruct (proj1 (SealObjectsInternal_seals example_clock two_created [1%N; 2%N]))
      as (t & infos & Hrun & Hlen & Hin & _).
    { evaluate. }
    { intros object_id Hin.
      apply elem_of_cons in Hin as [->|Hin];
        [|apply elem_of_cons in Hin as [->|Hin]; [|by apply elem_of_nil in Hin]];
        eexists; (split; [eassumption|reflexivity]). }
    destruct (Hin 0%nat 1%N eq_refl) as (e1 & He1 & Ht1 & Hi1).
    destruct (Hin 1%nat 2%N eq_refl) as (e2 & He2 & Ht2 & Hi2).
    rewrite H1 in He1. injection He1 as <-.
    rewrite H2 in He2. injection He2 as <-.
    assert (infos = [mkInfo 1 100 20 false; mkInfo 2 30 0 false]) as ->.
    { destruct infos as [|i1 [|i2 [|i3 infos]]]; try discriminate Hlen.
      simpl in Hi1, Hi2. by injection Hi1 as ->; injection Hi2 as ->. }
    exists t. split; [exact Hrun|]. split.
    + rewrite Ht1. vm_compute; reflexivity.
    + rewrite Ht2. vm_compute; reflexivity.
  - apply (proj1 (proj2 (SealObjectsInternal_seals example_clock two_created [1%N; 7%N]))
                 7%N).
    + evaluate.
    + intros e He. vm_compute in He. discriminate.
  - apply (proj2 (proj2 (SealObjectsInternal_seals example_clock two_created
                           [2%N; 1%N; 2%N]))).
    evaluate.
Defined.

(** ** C10 *)

Lemma RegisterSealedObjectToClient_idempotent_witness :
  8%N ∈ object_ids client_B referenced_by_B
  /\ RegisterSealedObjectToClient 8 client_B referenced_by_B
     = Done (mkPlasmaObject 3 0 100 100 20 0 1024 true) referenced_by_B.
Proof.
  assert (HB : 8%N ∈ object_ids client_B referenced_by_B) by evaluate.
  split; [exact HB|].
  apply (RegisterSealedObjectToClient_idempotent referenced_by_B 8%N client_B
           (mkEntry PLASMA_SEALED 100 20 (Some 0) 0 3 1024 0 1 1000 1)).
  - vm_compute; reflexivity.
  - exact HB.
Defined.

(** * Further properties of the directory *)

Section MoreProperties.

Context {A P X : Type} `{!PlasmaAllocator A} `{!EvictionPolicy P} `{!ExternalStore X}.
Variable kBlockSize : Z.
Variable wall_clock : nat -> Z.

Implicit Types d : Directory A P X.
Implicit Types object_id : ObjectID.
Implicit Types client : ClientID.
Implicit Types e : ObjectTableEntry.

#[local] Set Warnings "-clear-no-such-hyp".

(** Unfolds the monad, the accessors and the updates of the state. *)
Ltac unfold_all :=
  unfold bind, ret, get_dir, RAY_CHECK, with_object_table, with_deletion_cache,
    with_eviction_policy, with_allocator, with_object_ids, set_external_store,
    notifications_callback_, std_time, deref, assign;
  unfold modify, upd_object_table, upd_deletion_cache, upd_eviction_policy,
    upd_external_store, upd_allocator, upd_notified, upd_observed, upd_clients, tick;
  simpl;
  cbn beta iota delta [object_table_ deletion_cache_ eviction_policy_ external_store_
                       allocator notified clients clock observed].

(** ** GetObjects, when nothing is to reconstruct *)

Lemma get_each_without_evicted fuel client (l : list ObjectID) :
  forall d sealed evicted nonexistent,
  (forall object_id e, object_id ∈ l ->
     object_table_ d !! object_id = Some e -> state e <> PLASMA_EVICTED) ->
  get_each kBlockSize wall_clock fuel client l (sealed, evicted, nonexistent) d
  = Done (sealed ++ filter (fun object_id =>
                              state <$> (object_table_ d !! object_id) = Some PLASMA_SEALED) l,
          evicted,
          nonexistent ++ filter (fun object_id =>
                              state <$> (object_table_ d !! object_id) <> Some PLASMA_SEALED) l)
         d.
Proof.
  induction l as [|id0 rest IH]; intros d sealed evicted nonexistent Hpre.
  - simpl. by rewrite !app_nil_r.
  - simpl. rewrite bind_get_dir.
    assert (Hrest : forall object_id e, object_id ∈ rest ->
              object_table_ d !! object_id = Some e -> state e <> PLASMA_EVICTED).
    { intros object_id e Hin. apply Hpre. by right. }
    destruct (object_table_ d !! id0) as [e0|] eqn:Ht0.
    + pose proof (Hpre id0 e0 (list_elem_of_here _ _) Ht0) as Hne.
      destruct (state e0) eqn:Hs0; [| |done].
      * rewrite IH by done. rewrite filter_cons_False, filter_cons_True.
        -- by rewrite <- app_assoc.
        -- rewrite Ht0. simpl. rewrite Hs0. discriminate.
        -- rewrite Ht0. simpl. rewrite Hs0. discriminate.
      * rewrite IH by done. rewrite filter_cons_True, filter_cons_False.
        -- by rewrite <- app_assoc.
        -- rewrite Ht0. simpl. rewrite Hs0. intros Hn. by apply Hn.
        -- rewrite Ht0. simpl. by rewrite Hs0.
    + rewrite IH by done. rewrite filter_cons_False, filter_cons_True.
      -- by rewrite <- app_assoc.
      -- rewrite Ht0. discriminate.
      -- rewrite Ht0. discriminate.
Qed.

(** When no id asked for has an entry in state Evicted, [GetObjects] changes
    nothing in the directory, neither reference counts nor the client: it
    appends to [sealed_objects] the ids whose entry is sealed and to
    [nonexistent_objects] the others (absent, or still being written), in the
    order asked, and leaves [reconstructed_objects] alone. *)
Theorem GetObjects_without_evicted fuel (l : list ObjectID) client
    sealed_objects reconstructed_objects nonexistent_objects d :
  (forall object_id e, object_id ∈ l ->
     object_table_ d !! object_id = Some e -> state e <> PLASMA_EVICTED) ->
  GetObjects kBlockSize wall_clock fuel l client
             sealed_objects reconstructed_objects nonexistent_objects d
  = Done (sealed_objects ++
            filter (fun object_id =>
                      state <$> (object_table_ d !! object_id) = Some PLASMA_SEALED) l,
          reconstructed_objects,
          nonexistent_objects ++
            filter (fun object_id =>
                      state <$> (object_table_ d !! object_id) <> Some PLASMA_SEALED) l)
         d.
Proof.
  intros Hpre. unfold GetObjects.
  rewrite (bind_Done _ _ _ _ _
             (get_each_without_evicted fuel client l d sealed_objects [] nonexistent_objects Hpre)).
  reflexivity.
Qed.


(** ** References: what adding and removing one does *)

Lemma AddToClientObjectIds_new d object_id client e :
  object_table_ d !! object_id = Some e ->
  object_id ∉ object_ids client d ->
  AddToClientObjectIds object_id (InTable object_id) client d
  = Done (InTable object_id)
         (upd_clients (<[client := object_ids client d ∪ {[object_id]}]>)
            (upd_object_table (<[object_id := set_ref_count (ref_count e + 1) e]>)
               (if ref_count e =? 0
                then upd_eviction_policy (BeginObjectAccess object_id (ObjectSize e)) d
                else d))).
Proof.
  intros Ht Hnin. unfold AddToClientObjectIds. rewrite bind_get_dir.
  destruct (decide (object_id ∈ object_ids client d)) as [|_]; [contradiction|].
  unfold object_ids in *. unfold_all. rewrite Ht.
  by destruct (ref_count e =? 0).
Qed.

Lemma RemoveFromClientObjectIds_not_held d object_id entry client :
  object_id ∉ object_ids client d ->
  RemoveFromClientObjectIds object_id entry client d = Done (0, entry) d.
Proof.
  intros Hnin. unfold RemoveFromClientObjectIds. rewrite bind_get_dir.
  by destruct (decide (object_id ∈ object_ids client d)).
Qed.

(** Removing a reference that does not trigger a pending deletion. *)
Lemma RemoveFromClientObjectIds_held d object_id client e :
  object_table_ d !! object_id = Some e ->
  object_id ∈ object_ids client d ->
  (ref_count e - 1 = 0 -> object_id ∉ deletion_cache_ d) ->
  RemoveFromClientObjectIds object_id (InTable object_id) client d
  = Done (1, InTable object_id)
         ((if ref_count e - 1 =? 0
           then upd_eviction_policy (EndObjectAccess object_id (ObjectSize e))
           else fun d0 => d0)
            (upd_object_table (<[object_id := set_ref_count (ref_count e - 1) e]>)
               (upd_clients (<[client := object_ids client d ∖ {[object_id]}]>) d))).
Proof.
  intros Ht Hin Hcache. unfold RemoveFromClientObjectIds. rewrite bind_get_dir.
  destruct (decide (object_id ∈ object_ids client d)) as [_|]; [|contradiction].
  unfold object_ids in *. unfold_all. rewrite Ht. unfold_all. rewrite lookup_insert_eq. unfold_all.
  destruct (Z.eqb_spec (ref_count e - 1) 0) as [Hz|Hnz]; [|done]. unfold_all.
  destruct (decide (object_id ∈ deletion_cache_ d)) as [Hc|_]; [by apply Hcache in Hc|].
  done.
Qed.

(** Registering an object to a client that does not hold it and then
    removing the reference again gives back the table and the sets of all
    clients; the answer of the removal is 1. The eviction policy hears of
    the access, begun and ended, only when nobody referenced the object
    before. (When nobody did, the id must not wait in the deletion cache: the
    release would evict the object.) Neither call looks at the state of the
    entry. *)
Theorem Register_then_Remove d object_id client e :
  object_table_ d !! object_id = Some e ->
  object_id ∉ object_ids client d ->
  (ref_count e = 0 -> object_id ∉ deletion_cache_ d) ->
  exists d',
    (RegisterSealedObjectToClient object_id client ;;;
     RemoveFromClientObjectIds object_id (InTable object_id) client) d
      = Done (1, InTable object_id) d'
    /\ object_table_ d' = object_table_ d
    /\ (forall c, object_ids c d' = object_ids c d)
    /\ eviction_policy_ d' =
         (if ref_count e =? 0
          then EndObjectAccess object_id (ObjectSize e)
                 (BeginObjectAccess object_id (ObjectSize e) (eviction_policy_ d))
          else eviction_policy_ d)
    /\ deletion_cache_ d' = deletion_cache_ d
    /\ notified d' = notified d
    /\ allocator d' = allocator d
    /\ external_store_ d' = external_store_ d.
Proof.
  intros Ht Hnin Hcache.
  assert (Hentry : set_ref_count (ref_count e + 1 - 1) (set_ref_count (ref_count e + 1) e) = e).
  { destruct e. unfold set_ref_count. simpl. f_equal. lia. }
  unfold RegisterSealedObjectToClient. unfold bind at 1. rewrite bind_get_dir, Ht.
  unfold bind at 1. rewrite (AddToClientObjectIds_new d object_id client e Ht Hnin).
  simpl.
  set (d1 := upd_clients _ _).
  assert (Ht1 : object_table_ d1 !! object_id = Some (set_ref_count (ref_count e + 1) e)).
  { subst d1. simpl. by rewrite lookup_insert_eq. }
  assert (Hin1 : object_id ∈ object_ids client d1).
  { subst d1. unfold object_ids. simpl. rewrite lookup_insert_eq. simpl. set_solver. }
  assert (Hc1 : ref_count (set_ref_count (ref_count e + 1) e) - 1 = 0 ->
                object_id ∉ deletion_cache_ d1).
  { simpl. intros Hz. subst d1. simpl.
    replace (deletion_cache_ (if ref_count e =? 0
               then upd_eviction_policy (BeginObjectAccess object_id (ObjectSize e)) d
               else d)) with (deletion_cache_ d) by (by destruct (ref_count e =? 0)).
    apply Hcache. lia. }
  rewrite (RemoveFromClientObjectIds_held d1 object_id client _ Ht1 Hin1 Hc1).
  eexists. split; [reflexivity|].
  change (ref_count (set_ref_count (ref_count e + 1) e)) with (ref_count e + 1).
  replace (ref_count e + 1 - 1 =? 0) with (ref_count e =? 0)
    by (destruct (Z.eqb_spec (ref_count e) 0), (Z.eqb_spec (ref_count e + 1 - 1) 0); lia).
  subst d1.
  destruct (ref_count e =? 0); simpl;
    (split; [rewrite insert_insert_eq, Hentry; by apply insert_id|]);
    (split; [|repeat split; try done; by destruct e]);
    intros c; unfold object_ids; simpl;
    (destruct (decide (client = c)) as [->|Hne];
      [rewrite !lookup_insert_eq; simpl; unfold object_ids in Hnin; set_solver
      |by rewrite !lookup_insert_ne]).
Qed.

(** ** Creating an object *)

(** An [int64_t] sum that does not overflow is the sum. *)
Lemma int64_wrap_small z : is_int64 z -> int64_wrap z = z.
Proof.
  unfold is_int64, int64_wrap. intros Hz.
  rewrite Z.mod_small; lia.
Qed.

(** [CreateObject] without eviction, for sizes that are [int64_t] and whose
    sum on 64 bits is positive, on a new id that the client does not hold,
    when the allocator has a block of that sum: the entry is inserted in
    state Created with the sizes asked for, the block and its mapping, one
    reference (the creator's) and the creation time read from the clock; the
    id joins the creator's set; nothing is notified. The descriptor carries
    the mapping and the sizes, with the metadata right after the data (an
    addition on 64 bits). The eviction policy is told of the creation and of
    the access, and is not asked to evict anything. *)
Theorem CreateObject_new fuel d object_id data_size metadata_size client
    address a' f ms off :
  object_table_ d !! object_id = None ->
  is_int64 data_size ->
  is_int64 metadata_size ->
  0 < int64_wrap (data_size + metadata_size) ->
  object_id ∉ object_ids client d ->
  Memalign kBlockSize (int64_wrap (data_size + metadata_size)) (allocator d)
    = (Some address, a') ->
  GetMallocMapinfo (Some address) a' = (f, ms, off) ->
  f <> -1 ->
  exists d',
    CreateObject kBlockSize wall_clock (S fuel) object_id false data_size metadata_size
                 0 client d
    = Done (StatusOK,
            Some (mkPlasmaObject f off (int64_wrap (off + data_size)) data_size
                                 metadata_size 0 ms true))
           d'
    /\ object_table_ d' =
         <[object_id := mkEntry PLASMA_CREATED data_size metadata_size (Some address) 0
                                f ms off 1 (wall_clock (clock d)) (-1)]> (object_table_ d)
    /\ object_ids client d' = object_ids client d ∪ {[object_id]}
    /\ (forall c, c <> client -> object_ids c d' = object_ids c d)
    /\ eviction_policy_ d' =
         BeginObjectAccess object_id (ObjectSize new_ObjectTableEntry)
           (ObjectCreated object_id (int64_wrap (data_size + metadata_size)) client true
              (eviction_policy_ d))
    /\ allocator d' = a'
    /\ notified d' = notified d
    /\ deletion_cache_ d' = deletion_cache_ d
    /\ clock d' = S (clock d).
Proof.
  intros Hnew _ _ Hsize Hnin Hmem Hmap Hfd.
  unfold CreateObject, CreateObjectInternal. unfold bind at 1. rewrite bind_get_dir.
  destruct (decide (is_Some (object_table_ d !! object_id))) as [Hsome|_].
  { rewrite Hnew in Hsome. by destruct Hsome. }
  unfold AllocateMemory, allocate_loop, ObjectTableEntry_AllocateMemory, call_Memalign,
    AddToClientObjectIds.
  unfold_all. destruct (Z.ltb_spec 0 (int64_wrap (data_size + metadata_size))); [|lia].
  unfold_all. rewrite Hmem. unfold_all. rewrite Hmap. unfold_all.
  destruct (Z.eqb_spec f (-1)); [contradiction|]. unfold_all.
  destruct (decide (object_id ∈ object_ids client _)) as [Hin|_].
  { exfalso. apply Hnin. exact Hin. }
  unfold_all. rewrite Hnew. unfold_all. rewrite lookup_insert_eq.
  eexists. split; [reflexivity|]. simpl.
  split; [done|]. unfold object_ids. simpl.
  split; [by rewrite lookup_insert_eq|].
  split; [intros c Hne; by rewrite lookup_insert_ne|].
  repeat split; done.
Qed.

(** [CreateObject], for sizes that are [int64_t], does not try to allocate
    in three cases. An id already in the table: ObjectExists, whatever the
    sizes, and nothing changes. A new id with a total size that, added on 64
    bits, is not positive: the process stops. A new id on a device other
    than the host (in a build without CUDA), the total being positive:
    OutOfMemory, and nothing changes. *)
Theorem CreateObject_refused fuel d object_id evict_if_full data_size metadata_size
    device_num client :
  is_int64 data_size ->
  is_int64 metadata_size ->
  (is_Some (object_table_ d !! object_id) ->
     CreateObject kBlockSize wall_clock fuel object_id evict_if_full data_size metadata_size
                  device_num client d
     = Done (StatusObjectExists, None) d)
  /\ (object_table_ d !! object_id = None ->
      int64_wrap (data_size + metadata_size) <= 0 ->
        CreateObject kBlockSize wall_clock fuel object_id evict_if_full data_size
                     metadata_size device_num client d
        = CheckFailed)
  /\ (object_table_ d !! object_id = None ->
      0 < int64_wrap (data_size + metadata_size) ->
        device_num <> 0 ->
        CreateObject kBlockSize wall_clock fuel object_id evict_if_full data_size
                     metadata_size device_num client d
        = Done (StatusOutOfMemory, None) d).
Proof.
  intros _ _. split; [|split].
  - intros Hsome. unfold CreateObject, CreateObjectInternal. unfold bind at 1.
    rewrite bind_get_dir. by destruct (decide _).
  - intros Hnew Hsize. unfold CreateObject, CreateObjectInternal. unfold bind at 1.
    rewrite bind_get_dir.
    destruct (decide _) as [Hsome|_]; [rewrite Hnew in Hsome; by destruct Hsome|].
    unfold_all.
    by destruct (Z.ltb_spec 0 (int64_wrap (data_size + metadata_size))); [lia|].
  - intros Hnew Hsize Hdev. unfold CreateObject, CreateObjectInternal. unfold bind at 1.
    rewrite bind_get_dir.
    destruct (decide _) as [Hsome|_]; [rewrite Hnew in Hsome; by destruct Hsome|].
    unfold AllocateMemory, ObjectTableEntry_AllocateMemory.
    unfold_all. destruct (Z.ltb_spec 0 (int64_wrap (data_size + metadata_size))); [|lia].
    unfold_all. destruct (Z.eqb_spec device_num 0); [contradiction|]. done.
Qed.

(** [CreateObject] with [evict_if_full] off, for sizes that are [int64_t]
    and whose sum on 64 bits is positive, when the allocator has no block of
    that sum: the answer is OutOfMemory (the allocator's ObjectStoreFull is
    not passed on); nothing is evicted and the eviction policy is not
    consulted: but for the allocator, as [Memalign] left it, the directory is
    as before. *)
Theorem CreateObject_full_without_eviction fuel d object_id data_size metadata_size
    client a' :
  object_table_ d !! object_id = None ->
  is_int64 data_size ->
  is_int64 metadata_size ->
  0 < int64_wrap (data_size + metadata_size) ->
  Memalign kBlockSize (int64_wrap (data_size + metadata_size)) (allocator d) = (None, a') ->
  CreateObject kBlockSize wall_clock (S fuel) object_id false data_size metadata_size
               0 client d
  = Done (StatusOutOfMemory, None)
         (mkDirectory (object_table_ d) (deletion_cache_ d) (eviction_policy_ d)
                      (external_store_ d) a' (notified d) (clients d) (clock d)
                      (observed d)).
Proof.
  intros Hnew _ _ Hsize Hmem.
  unfold CreateObject, CreateObjectInternal. unfold bind at 1. rewrite bind_get_dir.
  destruct (decide (is_Some (object_table_ d !! object_id))) as [Hsome|_].
  { rewrite Hnew in Hsome. by destruct Hsome. }
  unfold AllocateMemory, allocate_loop, ObjectTableEntry_AllocateMemory, call_Memalign.
  unfold_all. destruct (Z.ltb_spec 0 (int64_wrap (data_size + metadata_size))); [|lia].
  unfold_all. rewrite Hmem. done.
Qed.

Lemma CreateObjectInternal_new fuel d object_id data_size metadata_size client
    address a' f ms off :
  object_table_ d !! object_id = None ->
  0 < int64_wrap (data_size + metadata_size) ->
  object_id ∉ object_ids client d ->
  Memalign kBlockSize (int64_wrap (data_size + metadata_size)) (allocator d)
    = (Some address, a') ->
  GetMallocMapinfo (Some address) a' = (f, ms, off) ->
  f <> -1 ->
  CreateObjectInternal kBlockSize wall_clock (S fuel) object_id false data_size
                       metadata_size 0 client d
  = Done (StatusOK, Some (InTable object_id))
         (mkDirectory
            (<[object_id := mkEntry PLASMA_CREATED data_size metadata_size (Some address) 0
                                    f ms off 1 (wall_clock (clock d)) (-1)]> (object_table_ d))
            (deletion_cache_ d)
            (BeginObjectAccess object_id (ObjectSize new_ObjectTableEntry)
               (ObjectCreated object_id (int64_wrap (data_size + metadata_size)) client true
                  (eviction_policy_ d)))
            (external_store_ d) a' (notified d)
            (<[client := object_ids client d ∪ {[object_id]}]> (clients d))
            (S (clock d)) (observed d)).
Proof.
  intros Hnew Hsize Hnin Hmem Hmap Hfd.
  unfold CreateObjectInternal. rewrite bind_get_dir.
  destruct (decide (is_Some (object_table_ d !! object_id))) as [Hsome|_].
  { rewrite Hnew in Hsome. by destruct Hsome. }
  unfold AllocateMemory, allocate_loop, ObjectTableEntry_AllocateMemory, call_Memalign,
    AddToClientObjectIds.
  unfold_all. destruct (Z.ltb_spec 0 (int64_wrap (data_size + metadata_size))); [|lia].
  unfold_all. rewrite Hmem. unfold_all. rewrite Hmap. unfold_all.
  destruct (Z.eqb_spec f (-1)); [contradiction|]. unfold_all.
  destruct (decide (object_id ∈ object_ids client _)) as [Hin|_].
  { exfalso. apply Hnin. exact Hin. }
  unfold_all. by rewrite Hnew.
Qed.

(** [CreateAndSealObject] without eviction, for data and metadata whose
    total size is positive and below [2 ^ 63], on a new id that the client
    does not hold and that is not waiting in the deletion cache, when the
    allocator has a block: the object is created, sealed and released at
    once. The entry is in state Sealed with no reference,
    [construct_duration] is the time between the two clock readings, the
    sets of all clients are as before, one notification with the sizes is
    emitted, once the entry is sealed, and the eviction policy is told that
    the object is idle. *)
Theorem CreateAndSealObject_new fuel d object_id (data metadata : list Byte.byte) client
    address a' f ms off :
  object_table_ d !! object_id = None ->
  0 < Z.of_nat (length data) + Z.of_nat (length metadata) < 2 ^ 63 ->
  object_id ∉ object_ids client d ->
  object_id ∉ deletion_cache_ d ->
  Memalign kBlockSize (Z.of_nat (length data) + Z.of_nat (length metadata)) (allocator d)
    = (Some address, a') ->
  GetMallocMapinfo (Some address) a' = (f, ms, off) ->
  f <> -1 ->
  exists d',
    CreateAndSealObject kBlockSize wall_clock (S fuel) object_id false data metadata
                        0 client d
    = Done (StatusOK,
            Some (mkPlasmaObject f off (int64_wrap (off + Z.of_nat (length data)))
                    (Z.of_nat (length data)) (Z.of_nat (length metadata)) 0 ms true))
           d'
    /\ object_table_ d' =
         <[object_id := mkEntry PLASMA_SEALED (Z.of_nat (length data))
                                (Z.of_nat (length metadata)) (Some address) 0 f ms off 0
                                (wall_clock (clock d))
                                (wall_clock (S (clock d)) - wall_clock (clock d))]>
           (object_table_ d)
    /\ (forall c, object_ids c d' = object_ids c d)
    /\ notified d' =
         notified d ++ [[mkInfo object_id (Z.of_nat (length data))
                                (Z.of_nat (length metadata)) false]]
    /\ (exists e, last (observed d') = Some (<[object_id := e]> (object_table_ d))
          /\ state e = PLASMA_SEALED)
    /\ eviction_policy_ d' =
         EndObjectAccess object_id (Z.of_nat (length data) + Z.of_nat (length metadata))
           (BeginObjectAccess object_id (ObjectSize new_ObjectTableEntry)
              (ObjectCreated object_id
                 (Z.of_nat (length data) + Z.of_nat (length metadata)) client true
                 (eviction_policy_ d)))
    /\ allocator d' = a'
    /\ deletion_cache_ d' = deletion_cache_ d.
Proof.
  intros Hnew Hsize Hnin Hcache Hmem Hmap Hfd.
  assert (Hwrap : int64_wrap (Z.of_nat (length data) + Z.of_nat (length metadata))
                  = Z.of_nat (length data) + Z.of_nat (length metadata)).
  { apply int64_wrap_small. unfold is_int64. lia. }
  unfold CreateAndSealObject. unfold bind at 1. simpl. unfold bind at 1.
  rewrite (CreateObjectInternal_new fuel d object_id _ _ client address a' f ms off
             Hnew ltac:(rewrite Hwrap; lia) Hnin ltac:(by rewrite Hwrap) Hmap Hfd).
  rewrite Hwrap.
  unfold SealObjectsInternal, seal_each, GetObjectTableEntry.
  unfold_all. repeat (rewrite lookup_insert_eq; unfold_all).
  match goal with
  | |- context [RemoveFromClientObjectIds object_id (InTable object_id) client ?d0] =>
      set (d2 := d0)
  end.
  set (e2 := mkEntry PLASMA_SEALED (Z.of_nat (length data)) (Z.of_nat (length metadata))
                     (Some address) 0 f ms off 1 (wall_clock (clock d))
                     (wall_clock (S (clock d)) - wall_clock (clock d))).
  assert (Ht2 : object_table_ d2 !! object_id = Some e2).
  { subst d2. simpl. by rewrite lookup_insert_eq. }
  assert (Hin2 : object_id ∈ object_ids client d2).
  { subst d2. unfold object_ids. simpl. rewrite lookup_insert_eq. simpl. set_solver. }
  assert (Hc2 : ref_count e2 - 1 = 0 -> object_id ∉ deletion_cache_ d2) by done.
  rewrite (RemoveFromClientObjectIds_held d2 object_id client e2 Ht2 Hin2 Hc2).
  simpl. eexists. split; [reflexivity|]. simpl.
  split; [by rewrite !insert_insert_eq|].
  split.
  { intros c. unfold object_ids. simpl. destruct (decide (client = c)) as [->|Hne].
    - rewrite !lookup_insert_eq. simpl. unfold object_ids in Hnin. set_solver.
    - by rewrite !lookup_insert_ne. }
  split; [done|]. split; [|done].
  exists e2. rewrite last_snoc. by rewrite insert_insert_eq.
Qed.

(** [CreateAndSealObject] refuses before anything is allocated: a device
    other than the host stops the process, even for an id that exists; on
    the host, an id already in the table gets ObjectExists and nothing
    changes; a new object with neither data nor metadata stops the
    process. *)
Theorem CreateAndSealObject_refused fuel d object_id evict_if_full
    (data metadata : list Byte.byte) device_num client :
  (device_num <> 0 ->
     CreateAndSealObject kBlockSize wall_clock fuel object_id evict_if_full data metadata
                         device_num client d = CheckFailed)
  /\ (is_Some (object_table_ d !! object_id) ->
        CreateAndSealObject kBlockSize wall_clock fuel object_id evict_if_full data metadata
                            0 client d = Done (StatusObjectExists, None) d)
  /\ (object_table_ d !! object_id = None ->
        CreateAndSealObject kBlockSize wall_clock fuel object_id evict_if_full [] []
                            0 client d = CheckFailed).
Proof.
  split; [|split].
  - intros Hdev. unfold CreateAndSealObject. unfold_all.
    by destruct (Z.eqb_spec device_num 0).
  - intros Hsome. unfold CreateAndSealObject, CreateObjectInternal. unfold_all.
    by destruct (decide _).
  - intros Hnew. unfold CreateAndSealObject, CreateObjectInternal. unfold_all.
    destruct (decide _) as [Hsome|_]; [rewrite Hnew in Hsome; by destruct Hsome|]. done.
Qed.

(** ** Evictions: the checks, and the spill to the external store *)

Lemma evict_each_unfit (l : list ObjectID) : forall d acc bad,
  bad ∈ l ->
  (forall e, object_table_ d !! bad = Some e ->
     state e <> PLASMA_SEALED \/ ref_count e <> 0) ->
  evict_each l acc d = CheckFailed.
Proof.
  induction l as [|id0 rest IH]; intros d [[en da] inf] bad Hin Hbad.
  - by apply elem_of_nil in Hin.
  - simpl. rewrite bind_get_dir.
    destruct (object_table_ d !! id0) as [e0|] eqn:Ht0; [|done].
    unfold RAY_CHECK, bind.
    destruct (bool_decide_reflect (state e0 = PLASMA_SEALED)) as [Hs0|]; [|done].
    destruct (Z.eqb_spec (ref_count e0) 0) as [Hr0|]; [|done].
    assert (Hne : bad <> id0).
    { intros ->. destruct (Hbad e0 Ht0); contradiction. }
    apply elem_of_cons in Hin as [?|Hin]; [done|].
    destruct (external_store_ d) as [x|] eqn:Hx.
    + by apply (IH d _ bad).
    + rewrite (FreeObject_InTable d id0 e0 Ht0).
      apply (IH _ _ bad Hin). simpl. rewrite lookup_insert_ne by done.
      by destruct (device_num e0 =? 0).
Qed.

Lemma evict_each_repeated (l : list ObjectID) : forall d acc,
  external_store_ d = None ->
  ~ NoDup l ->
  evict_each l acc d = CheckFailed.
Proof.
  induction l as [|id0 rest IH]; intros d [[en da] inf] Hx Hdup.
  - destruct Hdup. constructor.
  - simpl. rewrite bind_get_dir.
    destruct (object_table_ d !! id0) as [e0|] eqn:Ht0; [|done].
    unfold RAY_CHECK, bind.
    destruct (bool_decide_reflect (state e0 = PLASMA_SEALED)) as [Hs0|]; [|done].
    destruct (Z.eqb_spec (ref_count e0) 0) as [Hr0|]; [|done].
    rewrite Hx. rewrite (FreeObject_InTable d id0 e0 Ht0).
    set (d1 := upd_object_table _ _).
    destruct (decide (id0 ∈ rest)) as [Hin|Hnin].
    + apply (evict_each_unfit rest d1 _ id0 Hin). subst d1. simpl.
      rewrite lookup_insert_eq. intros e [= <-]. left. discriminate.
    + apply IH.
      * subst d1. simpl. by destruct (device_num e0 =? 0).
      * intros Hnd. apply Hdup. by constructor.
Qed.

(** [EvictObjectsInternal] checks what it is given: one id that is absent
    from the table, whose entry is not sealed, or that somebody references,
    stops the process; and so does, without an external store, an id given
    twice. *)
Theorem EvictObjectsInternal_unfit (l : list ObjectID) d :
  (forall bad, bad ∈ l ->
     (forall e, object_table_ d !! bad = Some e ->
        state e <> PLASMA_SEALED \/ ref_count e <> 0) ->
     EvictObjectsInternal l d = CheckFailed)
  /\ (external_store_ d = None -> ~ NoDup l -> EvictObjectsInternal l d = CheckFailed).
Proof.
  split.
  - intros bad Hin Hbad. destruct l as [|id0 rest]; [by apply elem_of_nil in Hin|].
    unfold EvictObjectsInternal. apply bind_CheckFailed. by apply (evict_each_unfit _ _ _ bad).
  - intros Hx Hdup. destruct l as [|id0 rest]; [destruct Hdup; constructor|].
    unfold EvictObjectsInternal. apply bind_CheckFailed. by apply evict_each_repeated.
Qed.

Lemma evict_each_with_store (l : list ObjectID) : forall (es : list ObjectTableEntry) d x acc,
  external_store_ d = Some x ->
  Forall2 (fun object_id e =>
             object_table_ d !! object_id = Some e
             /\ state e = PLASMA_SEALED /\ ref_count e = 0) l es ->
  evict_each l acc d
  = Done (acc.1.1 ++ (InTable <$> l), acc.1.2 ++ (GetArrowBuffer <$> es), acc.2) d.
Proof.
  induction l as [|id0 rest IH]; intros es d x [[en da] inf] Hx Hall.
  - apply Forall2_nil_inv_l in Hall as ->. simpl. by rewrite !app_nil_r.
  - apply Forall2_cons_inv_l in Hall as (e0 & es' & (Ht0 & Hs0 & Hr0) & Hall & ->).
    simpl. rewrite bind_get_dir, Ht0. unfold RAY_CHECK, bind at 1 2.
    rewrite bool_decide_eq_true_2 by done. rewrite Hr0. simpl. rewrite Hx.
    rewrite (IH es' d x _ Hx Hall). simpl. by rewrite <- !app_assoc.
Qed.

Lemma freed_twice e :
  set_state PLASMA_EVICTED (Reset (set_state PLASMA_EVICTED (Reset e)))
  = set_state PLASMA_EVICTED (Reset e).
Proof. reflexivity. Qed.

Lemma for_each_FreeObject_InTable (l : list ObjectID) : forall d,
  (forall object_id, object_id ∈ l -> is_Some (object_table_ d !! object_id)) ->
  exists d',
    for_each (InTable <$> l) (fun entry => FreeObject entry ;;; ret tt) d = Done tt d'
    /\ (forall object_id e, object_id ∈ l -> object_table_ d !! object_id = Some e ->
          object_table_ d' !! object_id = Some (set_state PLASMA_EVICTED (Reset e)))
    /\ (forall object_id, object_id ∉ l ->
          object_table_ d' !! object_id = object_table_ d !! object_id)
    /\ deletion_cache_ d' = deletion_cache_ d
    /\ eviction_policy_ d' = eviction_policy_ d
    /\ external_store_ d' = external_store_ d
    /\ notified d' = notified d
    /\ clients d' = clients d
    /\ clock d' = clock d.
Proof.
  induction l as [|id0 rest IH]; intros d Hall.
  - exists d. simpl. split; [done|]. split; [|done].
    intros object_id e Hin. by apply elem_of_nil in Hin.
  - destruct (Hall id0) as [e0 Ht0]; [by left|].
    simpl. unfold bind at 1 2. rewrite (FreeObject_InTable d id0 e0 Ht0). simpl.
    set (d1 := upd_object_table _ _).
    assert (Ht1 : forall object_id,
              object_table_ d1 !! object_id =
              if decide (id0 = object_id) then Some (set_state PLASMA_EVICTED (Reset e0))
              else object_table_ d !! object_id).
    { intros object_id. subst d1. simpl. rewrite lookup_insert.
      destruct (decide (id0 = object_id)); [done|]. by destruct (device_num e0 =? 0). }
    destruct (IH d1) as (d' & Hrun & Hin' & Hout' & Hc & Hp & Hx & Hn & Hcl & Hck).
    { intros object_id Hin. rewrite Ht1. destruct (decide (id0 = object_id)); [done|].
      apply Hall. by right. }
    exists d'. split; [done|].
    assert (Hd1 : deletion_cache_ d1 = deletion_cache_ d
                  /\ eviction_policy_ d1 = eviction_policy_ d
                  /\ external_store_ d1 = external_store_ d
                  /\ notified d1 = notified d /\ clients d1 = clients d
                  /\ clock d1 = clock d).
    { subst d1. simpl. by destruct (device_num e0 =? 0). }
    destruct Hd1 as (? & ? & ? & ? & ? & ?).
    split; [|split; [|repeat split; congruence]].
    + intros object_id e Hin Ht.
      destruct (decide (object_id ∈ rest)) as [Hr|Hr].
      * specialize (Ht1 object_id). destruct (decide (id0 = object_id)) as [->|Hne].
        -- rewrite Ht0 in Ht. injection Ht as <-.
           rewrite (Hin' object_id _ Hr Ht1). by rewrite freed_twice.
        -- apply Hin'; [done|]. by rewrite Ht1.
      * apply elem_of_cons in Hin as [->|?]; [|done].
        rewrite Hout' by done. rewrite Ht1, decide_True by done.
        rewrite Ht0 in Ht. by injection Ht as <-.
    + intros object_id Hnin. apply not_elem_of_cons in Hnin as [Hne Hnin].
      rewrite Hout' by done. rewrite Ht1. by rewrite decide_False.
Qed.

(** With an external store, [EvictObjectsInternal] on sealed, unreferenced
    objects hands the store the ids and the blocks, in order. If the store
    accepts them, every entry given stays in the table, reset and in state
    Evicted, the other entries are untouched and nothing is notified. If the
    store refuses, the process stops. *)
Theorem EvictObjectsInternal_spill (l : list ObjectID) (es : list ObjectTableEntry) d x :
  external_store_ d = Some x ->
  l <> [] ->
  Forall2 (fun object_id e =>
             object_table_ d !! object_id = Some e
             /\ state e = PLASMA_SEALED /\ ref_count e = 0) l es ->
  (forall x', Put l (GetArrowBuffer <$> es) x = (StatusOK, x') ->
     exists d',
       EvictObjectsInternal l d = Done tt d'
       /\ (forall object_id e, object_id ∈ l -> object_table_ d !! object_id = Some e ->
             object_table_ d' !! object_id = Some (set_state PLASMA_EVICTED (Reset e)))
       /\ (forall object_id, object_id ∉ l ->
             object_table_ d' !! object_id = object_table_ d !! object_id)
       /\ external_store_ d' = Some x'
       /\ notified d' = notified d
       /\ deletion_cache_ d' = deletion_cache_ d
       /\ eviction_policy_ d' = eviction_policy_ d
       /\ clients d' = clients d)
  /\ (forall s x', Put l (GetArrowBuffer <$> es) x = (s, x') -> s <> StatusOK ->
        EvictObjectsInternal l d = CheckFailed).
Proof.
  intros Hx Hne Hall.
  pose proof (evict_each_with_store l es d x ([], [], []) Hx Hall) as Hrun.
  simpl in Hrun.
  assert (Hpresent : forall object_id, object_id ∈ l ->
                       is_Some (object_table_ d !! object_id)).
  { intros object_id Hin. apply list_elem_of_lookup in Hin as [i Hi].
    destruct (Forall2_lookup_l _ _ _ _ _ Hall Hi) as (e & _ & Ht & _). eauto. }
  destruct l as [|id0 rest]; [done|]. unfold EvictObjectsInternal.
  set (l := id0 :: rest) in *.
  split.
  - intros x' HPut.
    destruct (for_each_FreeObject_InTable l (upd_external_store (Some x') d))
      as (d' & Hfree & Hin' & Hout' & Hc & Hp & Hst & Hn & Hcl & _); [done|].
    exists d'. split; [|done].
    rewrite (bind_Done _ _ _ _ _ Hrun). rewrite bind_get_dir, Hx, HPut.
    unfold set_external_store. rewrite bind_modify. unfold RAY_CHECK, bind at 1.
    simpl. exact Hfree.
  - intros s x' HPut Hs. rewrite (bind_Done _ _ _ _ _ Hrun).
    rewrite bind_get_dir, Hx, HPut.
    unfold set_external_store. rewrite bind_modify. unfold RAY_CHECK, bind at 1.
    by destruct s.
Qed.

(** ** Disconnecting a client *)

(** One turn of the second loop of [DisconnectClient], without an external
    store: the reference of the client is withdrawn, whether or not the
    object is then evicted. *)
Lemma RemoveFromClientObjectIds_sealed d object_id client e :
  external_store_ d = None ->
  object_table_ d !! object_id = Some e ->
  state e = PLASMA_SEALED ->
  object_id ∈ object_ids client d ->
  exists d' e',
    RemoveFromClientObjectIds object_id (InTable object_id) client d
      = Done (1, InTable object_id) d'
    /\ object_table_ d' = <[object_id := e']> (object_table_ d)
    /\ ref_count e' = ref_count e - 1
    /\ clients d' = <[client := object_ids client d ∖ {[object_id]}]> (clients d)
    /\ external_store_ d' = None.
Proof.
  intros Hx Ht Hs Hin.
  destruct (decide (ref_count e - 1 = 0 /\ object_id ∈ deletion_cache_ d)) as [[Hz Hc]|Hno].
  - unfold RemoveFromClientObjectIds, EvictObjectsInternal, evict_each, FreeObject.
    rewrite bind_get_dir.
    destruct (decide (object_id ∈ object_ids client d)) as [_|]; [|contradiction].
    unfold_all. rewrite Ht. unfold_all. rewrite !lookup_insert_eq. unfold_all.
    rewrite Hz. unfold_all.
    destruct (decide (object_id ∈ deletion_cache_ d)) as [_|]; [|contradiction].
    assert (Hz' : (ref_count e - 1 =? 0) = true) by (by apply Z.eqb_eq).
    repeat first [ progress unfold_all | rewrite lookup_insert_eq | rewrite Hs
                 | rewrite Hz | rewrite Hz' | rewrite Hx ].
    destruct (device_num e =? 0);
      repeat first [ progress unfold_all | rewrite lookup_insert_eq | rewrite Hs
                   | rewrite Hz | rewrite Hz' | rewrite Hx ];
      (eexists; eexists; split; [reflexivity|]; simpl;
       split; [by rewrite insert_insert_eq|]; split; [simpl; lia|done]).
  - rewrite (RemoveFromClientObjectIds_held d object_id client e Ht Hin).
    + exists ((if ref_count e - 1 =? 0
               then upd_eviction_policy (EndObjectAccess object_id (ObjectSize e))
               else fun d0 => d0)
                (upd_object_table (<[object_id := set_ref_count (ref_count e - 1) e]>)
                   (upd_clients (<[client := object_ids client d ∖ {[object_id]}]>) d))),
             (set_ref_count (ref_count e - 1) e).
      split; [done|]. by destruct (ref_count e - 1 =? 0).
    + intros Hz Hc. apply Hno. done.
Qed.

Lemma disconnect_each_result (l : list ObjectID) : forall d sealed_objects,
  NoDup l ->
  exists d1 l1,
    disconnect_each l sealed_objects d
      = Done (sealed_objects ++ ((fun object_id => (object_id, InTable object_id)) <$> l1)) d1
    /\ NoDup l1
    /\ (forall object_id,
          object_id ∈ l1 <->
          object_id ∈ l /\ state <$> (object_table_ d !! object_id) = Some PLASMA_SEALED)
    /\ (forall object_id,
          object_table_ d1 !! object_id =
          if decide (object_id ∈ l
                     /\ state <$> (object_table_ d !! object_id) <> Some PLASMA_SEALED)
          then None else object_table_ d !! object_id)
    /\ deletion_cache_ d1 = deletion_cache_ d
    /\ external_store_ d1 = external_store_ d
    /\ clients d1 = clients d.
Proof.
  induction l as [|id0 rest IH]; intros d sealed_objects Hnd.
  - exists d, []. split; [simpl; by rewrite app_nil_r|]. split; [constructor|].
    split; [intros object_id; split; [intros Hin|intros [Hin _]]; by apply elem_of_nil in Hin|].
    split; [|done]. intros object_id.
    case_decide as Hd; [|done]. destruct Hd as [Hin _]. by apply elem_of_nil in Hin.
  - apply NoDup_cons in Hnd as [Hnotin Hnd]. simpl. rewrite bind_get_dir.
    destruct (object_table_ d !! id0) as [e0|] eqn:Ht0.
    + destruct (bool_decide_reflect (state e0 = PLASMA_SEALED)) as [Hs0|Hs0].
      * destruct (IH d (sealed_objects ++ [(id0, InTable id0)]) Hnd)
          as (d1 & l1 & Hrun & Hnd1 & Hl1 & Htab & Hrest).
        exists d1, (id0 :: l1). split; [rewrite Hrun; simpl; by rewrite <- app_assoc|].
        split; [constructor; [|done]; intros Hin; apply Hl1 in Hin as [? _]; done|].
        split.
        { intros object_id. rewrite !elem_of_cons, Hl1. split.
          - intros [->|[? ?]]; [|auto]. split; [by left|]. by rewrite Ht0; simpl; rewrite Hs0.
          - intros [[->|?] ?]; auto. }
        split; [|done]. intros object_id. rewrite Htab.
        repeat case_decide; try done.
        -- exfalso. destruct H as [Hin ?]. apply H0. split; [by right|done].
        -- exfalso. destruct H0 as [Hin Hn]. apply elem_of_cons in Hin as [->|Hin].
           ++ apply Hn. rewrite Ht0. simpl. by rewrite Hs0.
           ++ apply H. done.
      * unfold bind at 1. rewrite (EraseObject_present d id0 e0 Ht0).
        set (d0 := upd_object_table _ _).
        assert (Ht' : forall object_id, object_id <> id0 ->
                  object_table_ d0 !! object_id = object_table_ d !! object_id).
        { intros object_id Hne. subst d0. simpl. rewrite lookup_delete_ne by done.
          by destruct (device_num e0 =? 0). }
        assert (Ht0' : object_table_ d0 !! id0 = None).
        { subst d0. simpl. by rewrite lookup_delete_eq. }
        assert (Hd0 : deletion_cache_ d0 = deletion_cache_ d
                      /\ external_store_ d0 = external_store_ d
                      /\ clients d0 = clients d).
        { subst d0. simpl. by destruct (device_num e0 =? 0). }
        destruct Hd0 as (Hc0 & Hx0 & Hcl0).
        destruct (IH d0 sealed_objects Hnd) as (d1 & l1 & Hrun & Hnd1 & Hl1 & Htab & Hc & Hx & Hcl).
        exists d1, l1. split; [done|]. split; [done|]. split.
        { intros object_id. rewrite Hl1, elem_of_cons. split.
          - intros [Hin Hst]. rewrite Ht' in Hst by (intros ->; done). auto.
          - intros [[->|Hin] Hst].
            + rewrite Ht0 in Hst. simpl in Hst. by injection Hst.
            + rewrite Ht' by (intros ->; done). auto. }
        split; [|repeat split; congruence]. intros object_id. rewrite Htab.
        destruct (decide (object_id = id0)) as [->|Hne].
        { rewrite Ht0'.
          assert (HS : id0 ∈ id0 :: rest
                       /\ state <$> (object_table_ d !! id0) <> Some PLASMA_SEALED).
          { split; [by left|]. rewrite Ht0. simpl. intros [= ?]. done. }
          repeat case_decide; try done; contradiction. }
        rewrite Ht' by done.
        repeat case_decide; try done.
        -- exfalso. destruct H as [Hin ?]. apply H0. split; [by right|done].
        -- exfalso. destruct H0 as [Hin Hn]. apply elem_of_cons in Hin as [->|Hin]; [done|].
           apply H. done.
    + destruct (IH d sealed_objects Hnd) as (d1 & l1 & Hrun & Hnd1 & Hl1 & Htab & Hrest).
      exists d1, l1. split; [done|]. split; [done|]. split.
      { intros object_id. rewrite Hl1, elem_of_cons. split.
        - intros [? ?]. auto.
        - intros [[->|?] Hst]; [|auto]. by rewrite Ht0 in Hst. }
      split; [|done]. intros object_id. rewrite Htab.
      repeat case_decide; try done.
      -- exfalso. destruct H as [Hin ?]. apply H0. split; [by right|done].
      -- destruct H0 as [Hin Hn]. apply elem_of_cons in Hin as [->|Hin]; [done|].
         exfalso. apply H. done.
Qed.

Lemma release_each (l : list ObjectID) : forall d client,
  external_store_ d = None ->
  NoDup l ->
  (forall object_id, object_id ∈ l ->
     object_id ∈ object_ids client d
     /\ state <$> (object_table_ d !! object_id) = Some PLASMA_SEALED) ->
  exists d',
    for_each ((fun object_id => (object_id, InTable object_id)) <$> l)
      (fun entry => RemoveFromClientObjectIds (fst entry) (snd entry) client ;;; ret tt) d
    = Done tt d'
    /\ (forall object_id, object_id ∉ l ->
          object_table_ d' !! object_id = object_table_ d !! object_id)
    /\ (forall object_id e, object_id ∈ l -> object_table_ d !! object_id = Some e ->
          exists e', object_table_ d' !! object_id = Some e'
                     /\ ref_count e' = ref_count e - 1)
    /\ (forall object_id, object_id ∈ object_ids client d' <->
          object_id ∈ object_ids client d /\ object_id ∉ l)
    /\ (forall c, c <> client -> object_ids c d' = object_ids c d).
Proof.
  induction l as [|id0 rest IH]; intros d client Hx Hnd Hall.
  - exists d. simpl. split; [done|]. split; [done|].
    split; [intros object_id e Hin; by apply elem_of_nil in Hin|].
    split; [|done]. intros object_id. split; [intros ?; split; [done|]|by intros [? _]].
    by intros Hin%elem_of_nil.
  - apply NoDup_cons in Hnd as [Hnotin Hnd].
    destruct (Hall id0) as [Hin0 Hst0]; [by left|].
    destruct (object_table_ d !! id0) as [e0|] eqn:Ht0; [|done].
    simpl in Hst0. injection Hst0 as Hs0.
    destruct (RemoveFromClientObjectIds_sealed d id0 client e0 Hx Ht0 Hs0 Hin0)
      as (d1 & e1 & Hrun1 & Htab1 & Hr1 & Hcl1 & Hx1).
    destruct (IH d1 client Hx1 Hnd) as (d' & Hrun & Hout & Hin & Hset & Hother).
    { intros object_id Hmem. destruct (Hall object_id) as [Hi Hs]; [by right|].
      assert (object_id <> id0) by (intros ->; done).
      split.
      - unfold object_ids. rewrite Hcl1, lookup_insert_eq. simpl. set_solver.
      - rewrite Htab1, lookup_insert_ne by done. done. }
    exists d'. split.
    { simpl. unfold bind at 1 2. simpl. rewrite Hrun1. simpl. exact Hrun. }
    split; [|split; [|split]].
    + intros object_id Hnin. apply not_elem_of_cons in Hnin as [Hne Hnin].
      rewrite Hout by done. rewrite Htab1. by rewrite lookup_insert_ne.
    + intros object_id e Hmem Ht. apply elem_of_cons in Hmem as [->|Hmem].
      * rewrite Ht0 in Ht. injection Ht as <-. exists e1. split; [|done].
        rewrite Hout by done. rewrite Htab1. by rewrite lookup_insert_eq.
      * assert (object_id <> id0) by (intros ->; done).
        apply (Hin object_id e Hmem). rewrite Htab1. by rewrite lookup_insert_ne.
    + intros object_id. rewrite Hset. unfold object_ids at 1.
      rewrite Hcl1, lookup_insert_eq. simpl. rewrite not_elem_of_cons. set_solver.
    + intros c Hne. rewrite Hother by done. unfold object_ids.
      rewrite Hcl1. by rewrite lookup_insert_ne.
Qed.

(** Without an external store, [DisconnectClient] always returns. Of the
    ids the client holds: an entry that is not sealed is erased from the
    table, whoever else references it; a sealed entry loses exactly one
    reference; an id with no entry is skipped. The entries of the other ids
    and the sets of the other clients are untouched. The ids of the sealed
    entries leave the client's set; the others stay in it. *)
Theorem DisconnectClient_without_store d client :
  external_store_ d = None ->
  exists d',
    DisconnectClient client d = Done tt d'
    /\ (forall object_id, object_id ∉ object_ids client d ->
          object_table_ d' !! object_id = object_table_ d !! object_id)
    /\ (forall object_id e, object_id ∈ object_ids client d ->
          object_table_ d !! object_id = Some e -> state e <> PLASMA_SEALED ->
          object_table_ d' !! object_id = None)
    /\ (forall object_id e, object_id ∈ object_ids client d ->
          object_table_ d !! object_id = Some e -> state e = PLASMA_SEALED ->
          exists e', object_table_ d' !! object_id = Some e'
                     /\ ref_count e' = ref_count e - 1)
    /\ (forall object_id, object_id ∈ object_ids client d' <->
          object_id ∈ object_ids client d
          /\ state <$> (object_table_ d !! object_id) <> Some PLASMA_SEALED)
    /\ (forall c, c <> client -> object_ids c d' = object_ids c d).
Proof.
  intros Hx. unfold DisconnectClient. unfold with_eviction_policy.
  rewrite bind_modify, bind_get_dir.
  set (d0 := upd_eviction_policy (ClientDisconnected client) d).
  change (object_ids client d0) with (object_ids client d).
  destruct (disconnect_each_result (elements (object_ids client d)) d0 [])
    as (d1 & l1 & Hrun1 & Hnd1 & Hl1 & Htab1 & Hc1 & Hx1 & Hcl1); [apply NoDup_elements|].
  simpl in Hrun1. rewrite (bind_Done _ _ _ _ _ Hrun1).
  change (object_table_ d0) with (object_table_ d) in *.
  destruct (release_each l1 d1 client) as (d' & Hrun & Hout & Hin & Hset & Hother).
  { by rewrite Hx1. }
  { done. }
  { intros object_id Hmem. apply Hl1 in Hmem as [Hmem Hst]. apply elem_of_elements in Hmem.
    split; [unfold object_ids; by rewrite Hcl1|].
    rewrite Htab1. rewrite decide_False; [done|]. intros [_ Hn]. done. }
  exists d'. split; [done|]. split; [|split; [|split; [|split]]].
  - intros object_id Hnin. rewrite Hout.
    + rewrite Htab1. rewrite decide_False; [done|]. intros [Hmem _].
      by apply elem_of_elements in Hmem.
    + intros Hmem. apply Hl1 in Hmem as [Hmem _]. by apply elem_of_elements in Hmem.
  - intros object_id e Hmem Ht Hs. rewrite Hout.
    + rewrite Htab1. rewrite decide_True; [done|]. split; [by apply elem_of_elements|].
      rewrite Ht. simpl. intros [= ?]. done.
    + intros Hm. apply Hl1 in Hm as [_ Hst]. rewrite Ht in Hst. simpl in Hst.
      injection Hst as ?. done.
  - intros object_id e Hmem Ht Hs. apply (Hin object_id e).
    + apply Hl1. split; [by apply elem_of_elements|]. rewrite Ht. simpl. by rewrite Hs.
    + rewrite Htab1. rewrite decide_False; [done|]. intros [_ Hn]. apply Hn.
      rewrite Ht. simpl. by rewrite Hs.
  - intros object_id. rewrite Hset. unfold object_ids at 1. rewrite Hcl1.
    fold (object_ids client d0). change (object_ids client d0) with (object_ids client d).
    rewrite Hl1, elem_of_elements. split.
    + intros [Hmem Hn]. split; [done|]. intros Hst. apply Hn. done.
    + intros [Hmem Hn]. split; [done|]. intros [_ Hst]. done.
  - intros c Hne. rewrite Hother by done. unfold object_ids. by rewrite Hcl1.
Qed.

(** ** The sealed objects *)

Lemma sealed_object_info_ids (l : list (ObjectID * ObjectTableEntry)) :
  NoDup l.*1 ->
  NoDup (info_object_id <$> omap sealed_object_info l)
  /\ (forall object_id,
        object_id ∈ info_object_id <$> omap (@sealed_object_info) l -> object_id ∈ l.*1).
Proof.
  induction l as [|[id0 e0] rest IH]; intros Hnd.
  - simpl. split; [constructor|done].
  - simpl in Hnd. apply NoDup_cons in Hnd as [Hnotin Hnd].
    destruct (IH Hnd) as [Hnd' Hsub]. simpl.
    destruct (sealed_object_info (id0, e0)) as [i0|] eqn:Hi0; simpl.
    + assert (info_object_id i0 = id0) as ->.
      { unfold sealed_object_info in Hi0. simpl in Hi0.
        destruct (bool_decide (state e0 = PLASMA_SEALED)); [|done]. by injection Hi0 as <-. }
      split.
      * constructor; [|done]. intros Hin. by apply Hsub in Hin.
      * intros object_id Hin. apply elem_of_cons in Hin as [->|Hin]; [by left|].
        right. by apply Hsub.
    + split; [done|]. intros object_id Hin. right. by apply Hsub.
Qed.

(** [GetSealedObjectsInfo] changes nothing in the directory and appends to
    the vector exactly the sealed objects: one record per entry in state
    Sealed, with its id and sizes and [is_deletion = false]; no id comes
    twice, and entries in state Created or Evicted are left out. *)
Theorem GetSealedObjectsInfo_sealed (infos : list ObjectInfoT) (d : Directory A P X) :
  exists new,
    GetSealedObjectsInfo infos d = Done (infos ++ new) d
    /\ (forall info, info ∈ new <->
          exists object_id e,
            object_table_ d !! object_id = Some e
            /\ state e = PLASMA_SEALED
            /\ info = mkInfo object_id (data_size e) (metadata_size e) false)
    /\ NoDup (info_object_id <$> new).
Proof.
  exists (omap sealed_object_info (map_to_list (object_table_ d))).
  split; [done|]. split.
  - intros info. rewrite list_elem_of_omap. split.
    + intros ([object_id e] & Hin & Hinfo). apply elem_of_map_to_list in Hin.
      unfold sealed_object_info in Hinfo. simpl in Hinfo.
      destruct (bool_decide_reflect (state e = PLASMA_SEALED)) as [Hs|]; [|done].
      injection Hinfo as <-. by exists object_id, e.
    + intros (object_id & e & Ht & Hs & ->). exists (object_id, e).
      split; [by apply elem_of_map_to_list|].
      unfold sealed_object_info. simpl. by rewrite bool_decide_eq_true_2.
  - apply sealed_object_info_ids, NoDup_fst_map_to_list.
Qed.


(** ** Creating an object once room was made *)

(** [CreateObject] with [evict_if_full], for sizes that are [int64_t] and
    whose sum on 64 bits is positive, on a new id that the client does not
    hold, when the quota is granted (with [l1] to evict), the allocator has
    no block at first, [RequireSpace] answers true (with [l2] to evict) and
    the allocator then has a block: the objects of [l1] and [l2] are evicted
    and the object is created on the second turn of the loop, as it would
    have been on the first. *)
Theorem CreateObject_after_eviction fuel d object_id data_size metadata_size client
    l1 p1 d1 a1 l2 p2 d2 address a2 f ms off :
  object_table_ d !! object_id = None ->
  is_int64 data_size ->
  is_int64 metadata_size ->
  0 < int64_wrap (data_size + metadata_size) ->
  object_id ∉ object_ids client d ->
  EnforcePerClientQuota client (int64_wrap (data_size + metadata_size)) true
                        (eviction_policy_ d) = (true, l1, p1) ->
  EvictObjectsInternal l1 (upd_eviction_policy (fun _ => p1) d) = Done tt d1 ->
  Memalign kBlockSize (int64_wrap (data_size + metadata_size)) (allocator d1)
    = (None, a1) ->
  RequireSpace (int64_wrap (data_size + metadata_size)) (eviction_policy_ d1)
    = (true, l2, p2) ->
  EvictObjectsInternal l2 (upd_eviction_policy (fun _ => p2) (upd_allocator (fun _ => a1) d1))
    = Done tt d2 ->
  Memalign kBlockSize (int64_wrap (data_size + metadata_size)) (allocator d2)
    = (Some address, a2) ->
  GetMallocMapinfo (Some address) a2 = (f, ms, off) ->
  f <> -1 ->
  exists d',
    CreateObject kBlockSize wall_clock (S (S fuel)) object_id true data_size metadata_size
                 0 client d
    = Done (StatusOK,
            Some (mkPlasmaObject f off (int64_wrap (off + data_size)) data_size
                                 metadata_size 0 ms true))
           d'
    /\ object_table_ d' =
         <[object_id := mkEntry PLASMA_CREATED data_size metadata_size (Some address) 0
                                f ms off 1 (wall_clock (clock d)) (-1)]> (object_table_ d2)
    /\ object_table_ d2 !! object_id = None
    /\ (forall other, other ∉ l1 -> other ∉ l2 ->
          object_table_ d2 !! other = object_table_ d !! other)
    /\ object_ids client d' = object_ids client d ∪ {[object_id]}
    /\ allocator d' = a2.
Proof.
  intros Hnew _ _ Hsize Hnin Hquota Hev1 Hmem1 Hreq Hev2 Hmem2 Hmap Hfd.
  pose proof (EvictObjectsInternal_only_evicts _ _ _ Hev1) as (Ha1 & Hb1 & _ & _ & Hcl1 & Hck1 & _).
  pose proof (EvictObjectsInternal_only_evicts _ _ _ Hev2) as (Ha2 & Hb2 & _ & _ & Hcl2 & Hck2 & _).
  simpl in Ha1, Hb1, Ha2, Hb2, Hcl1, Hcl2, Hck1, Hck2.
  assert (Hnew2 : object_table_ d2 !! object_id = None) by auto.
  assert (Hcl : clients d2 = clients d) by congruence.
  assert (Hck : clock d2 = clock d) by congruence.
  unfold CreateObject, CreateObjectInternal. unfold bind at 1. rewrite bind_get_dir.
  destruct (decide (is_Some (object_table_ d !! object_id))) as [Hsome|_].
  { rewrite Hnew in Hsome. by destruct Hsome. }
  unfold AllocateMemory, call_EnforcePerClientQuota, allocate_loop,
    ObjectTableEntry_AllocateMemory, call_Memalign, call_RequireSpace, AddToClientObjectIds.
  unfold_all. destruct (Z.ltb_spec 0 (int64_wrap (data_size + metadata_size))); [|lia].
  unfold_all. rewrite Hquota. unfold_all.
  unfold upd_eviction_policy in Hev1. rewrite Hev1. unfold_all.
  rewrite Hmem1. unfold_all. rewrite Hreq. unfold_all.
  unfold upd_eviction_policy, upd_allocator in Hev2. simpl in Hev2. rewrite Hev2. unfold_all.
  rewrite Hmem2. unfold_all. rewrite Hmap. unfold_all.
  destruct (Z.eqb_spec f (-1)); [contradiction|]. unfold_all.
  unfold object_ids in *. unfold_all. rewrite Hcl.
  destruct (decide (object_id ∈ default ∅ (clients d !! client))) as [|_]; [contradiction|].
  unfold_all. rewrite Hnew2. unfold_all. rewrite Hck.
  rewrite lookup_insert_eq. unfold_all.
  eexists. split; [reflexivity|]. simpl.
  split; [done|]. split; [done|].
  split; [intros other Hn1 Hn2; by rewrite Ha2, Ha1|].
  split; [by rewrite lookup_insert_eq|done].
Qed.

(** ** GetObjects and the ids the table does not know *)

Lemma ObjectTableEntry_AllocateMemory_InTable id0 device_id size d s p d' :
  ObjectTableEntry_AllocateMemory kBlockSize wall_clock (InTable id0) device_id size d
    = Done (s, p) d' ->
  p = InTable id0
  /\ forall other, other <> id0 ->
       object_table_ d' !! other = object_table_ d !! other.
Proof.
  unfold ObjectTableEntry_AllocateMemory, call_Memalign. unfold_all.
  destruct (object_table_ d !! id0) as [e0|]; [|done].
  destruct (device_id =? 0); [|by intros [= <- <- <-]].
  destruct (Memalign kBlockSize size (allocator d)) as [[address|] a]; unfold_all.
  - destruct (GetMallocMapinfo (Some address) a) as [[f ms] off]. unfold_all.
    destruct (negb (f =? -1)); [|done]. unfold_all.
    intros [= <- <- <-]. split; [done|]. intros other Hne. simpl.
    by rewrite lookup_insert_ne.
  - intros [= <- <- <-]. split; [done|]. intros other Hne. simpl.
    by rewrite lookup_insert_ne.
Qed.

Lemma AddToClientObjectIds_InTable object_id id0 client d p d' :
  AddToClientObjectIds object_id (InTable id0) client d = Done p d' ->
  p = InTable id0
  /\ forall other, other <> id0 ->
       object_table_ d' !! other = object_table_ d !! other.
Proof.
  unfold AddToClientObjectIds. rewrite bind_get_dir.
  destruct (decide (object_id ∈ object_ids client d)); [by intros [= <- <-]|].
  unfold_all. destruct (object_table_ d !! id0) as [e0|]; [|done].
  destruct (ref_count e0 =? 0); unfold_all; intros [= <- <-]; (split; [done|]);
    intros other Hne; simpl; by rewrite lookup_insert_ne.
Qed.

Lemma allocate_loop_InTable_absent fuel : forall object_id id0 size evict_if_full client
    is_create d s p d' other,
  other <> id0 ->
  object_table_ d !! other = None ->
  allocate_loop kBlockSize wall_clock fuel object_id (InTable id0) size evict_if_full
                client is_create 0 d = Done (s, p) d' ->
  object_table_ d' !! other = None.
Proof.
  induction fuel as [|fuel IH]; intros object_id id0 size evict_if_full client is_create
    d s p d' other Hne Hnone Hrun; [done|].
  simpl in Hrun. apply bind_inv in Hrun as ([s1 entry1] & d1 & Halloc & Hrun).
  apply ObjectTableEntry_AllocateMemory_InTable in Halloc as [-> Hsame1].
  assert (Hnone1 : object_table_ d1 !! other = None) by (by rewrite Hsame1).
  destruct (ok s1).
  - unfold with_eviction_policy in Hrun. rewrite bind_modify in Hrun.
    apply bind_inv in Hrun as (entry2 & d2 & Hadd & Hret). injection Hret as <- <- <-.
    apply AddToClientObjectIds_InTable in Hadd as [_ Hsame2]. by rewrite Hsame2.
  - destruct evict_if_full; simpl in Hrun; [|by injection Hrun as <- <- <-].
    apply bind_inv in Hrun as ([success l] & d2 & Hreq & Hrun).
    unfold call_RequireSpace in Hreq.
    destruct (RequireSpace size (eviction_policy_ d1)) as [[success' l'] p2].
    injection Hreq as <- <- <-.
    apply bind_inv in Hrun as ([] & d3 & Hev & Hrun).
    apply EvictObjectsInternal_only_evicts in Hev as (_ & Hnone3 & _).
    simpl in Hnone3. specialize (Hnone3 other Hnone1).
    destruct success'; simpl in Hrun.
    + exact (IH _ _ _ _ _ _ _ _ _ _ _ Hne Hnone3 Hrun).
    + by injection Hrun as <- <- <-.
Qed.

Lemma AllocateMemory_InTable_absent fuel object_id id0 size evict_if_full client
    is_create device_num d s p d' other :
  object_table_ d !! other = None ->
  AllocateMemory kBlockSize wall_clock fuel object_id (InTable id0) size evict_if_full
                 client is_create device_num d = Done (s, p) d' ->
  object_table_ d' !! other = None.
Proof.
  intros Hnone Hrun. unfold AllocateMemory in Hrun.
  apply bind_inv in Hrun as (e0 & d0 & Hder & Hrun).
  unfold deref in Hder. destruct (object_table_ d !! id0) as [e0'|] eqn:Ht0; [|done].
  injection Hder as <- <-.
  assert (Hne : other <> id0) by (intros ->; congruence).
  apply bind_inv in Hrun as ([] & d1 & Hc & Hrun).
  unfold RAY_CHECK in Hc. destruct (bool_decide _); [|done]. injection Hc as <-.
  destruct (negb (device_num =? 0)) eqn:Hdev.
  - apply ObjectTableEntry_AllocateMemory_InTable in Hrun as [_ Hsame]. by rewrite Hsame.
  - assert (device_num = 0) as -> by (apply Z.eqb_eq; by destruct (device_num =? 0)).
    apply bind_inv in Hrun as (quota & d1 & Hq & Hrun).
    assert (Hnone1 : object_table_ d1 !! other = None).
    { destruct evict_if_full; [|by injection Hq as <- <-].
      apply bind_inv in Hq as ([quota_ok0 l0] & d2 & Hcall & Hq).
      unfold call_EnforcePerClientQuota in Hcall.
      destruct (EnforcePerClientQuota _ _ _ _) as [[quota_ok l] p1].
      injection Hcall as <- <- <-.
      destruct quota_ok; simpl in Hq; [|by injection Hq as <- <-].
      apply bind_inv in Hq as ([] & d3 & Hev & Hq). injection Hq as <- <-.
      apply EvictObjectsInternal_only_evicts in Hev as (_ & Hn & _). by apply Hn. }
    destruct quota; simpl in Hrun; [|by injection Hrun as <- <- <-].
    exact (allocate_loop_InTable_absent _ _ _ _ _ _ _ _ _ _ _ _ Hne Hnone1 Hrun).
Qed.

Lemma get_each_absent fuel client (l : list ObjectID) : forall d acc res d',
  get_each kBlockSize wall_clock fuel client l acc d = Done res d' ->
  (forall other, object_table_ d !! other = None -> object_table_ d' !! other = None)
  /\ exists l1 l2 l3,
       res = (acc.1.1 ++ l1, acc.1.2 ++ l2, acc.2 ++ l3)
       /\ (forall object_id, object_id ∈ l1 ++ l2 -> is_Some (object_table_ d !! object_id))
       /\ (forall object_id, object_id ∈ l -> object_table_ d !! object_id = None ->
             object_id ∈ l3).
Proof.
  induction l as [|id0 rest IH]; intros d [[sealed ev] nonex] res d' Hrun.
  - simpl in Hrun. injection Hrun as <- <-. split; [done|].
    exists [], [], []. simpl. rewrite !app_nil_r. split; [done|].
    split; intros object_id Hin; by apply elem_of_nil in Hin.
  - simpl in Hrun. rewrite bind_get_dir in Hrun.
    destruct (object_table_ d !! id0) as [e0|] eqn:Ht0.
    + destruct (state e0) eqn:Hs0.
      * apply IH in Hrun as (Hnone & l1 & l2 & l3 & -> & Hpres & Habs). split; [done|].
        exists l1, l2, (id0 :: l3). simpl. rewrite <- !app_assoc. split; [done|].
        split; [done|]. intros object_id Hin Hn.
        apply elem_of_cons in Hin as [->|Hin]; [congruence|]. right. auto.
      * apply IH in Hrun as (Hnone & l1 & l2 & l3 & -> & Hpres & Habs). split; [done|].
        exists (id0 :: l1), l2, l3. simpl. rewrite <- !app_assoc. split; [done|].
        split.
        -- intros object_id Hin. apply elem_of_cons in Hin as [->|Hin]; [by rewrite Ht0|auto].
        -- intros object_id Hin Hn.
           apply elem_of_cons in Hin as [->|Hin]; [congruence|]. auto.
      * apply bind_inv in Hrun as ([status p] & d1 & Halloc & Hrun).
        assert (Hnone1 : forall other, object_table_ d !! other = None ->
                                       object_table_ d1 !! other = None).
        { intros other Hn. exact (AllocateMemory_InTable_absent _ _ _ _ _ _ _ _ _ _ _ _ _ Hn Halloc). }
        destruct (ok status).
        -- apply IH in Hrun as (Hnone & l1 & l2 & l3 & -> & Hpres & Habs). split; [auto|].
           exists l1, (id0 :: l2), l3. simpl. rewrite <- !app_assoc. split; [done|].
           split.
           ++ intros object_id Hin. apply elem_of_app in Hin as [Hin|Hin].
              ** destruct (object_table_ d !! object_id) eqn:Ht; [done|].
                 destruct (Hpres object_id) as [? Hsome]; [apply elem_of_app; by left|].
                 by rewrite (Hnone1 _ Ht) in Hsome.
              ** apply elem_of_cons in Hin as [->|Hin]; [by rewrite Ht0|].
                 destruct (object_table_ d !! object_id) eqn:Ht; [done|].
                 destruct (Hpres object_id) as [? Hsome]; [apply elem_of_app; by right|].
                 by rewrite (Hnone1 _ Ht) in Hsome.
           ++ intros object_id Hin Hn.
              apply elem_of_cons in Hin as [->|Hin]; [congruence|]. auto.
        -- apply bind_inv in Hrun as ([] & d2 & Hset & Hrun).
           assert (Hnone2 : forall other, object_table_ d !! other = None ->
                                          object_table_ d2 !! other = None).
           { intros other Hn. specialize (Hnone1 other Hn).
             unfold set_entry_state in Hset. revert Hset. unfold_all.
             destruct (object_table_ d1 !! id0) eqn:Ht1; [|done].
             intros [= <-]. simpl. rewrite lookup_insert_ne; [done|]. congruence. }
           apply IH in Hrun as (Hnone & l1 & l2 & l3 & -> & Hpres & Habs). split; [auto|].
           exists l1, l2, l3. split; [done|]. split.
           ++ intros object_id Hin.
              destruct (object_table_ d !! object_id) eqn:Ht; [done|].
              destruct (Hpres object_id Hin) as [? Hsome].
              by rewrite (Hnone2 _ Ht) in Hsome.
           ++ intros object_id Hin Hn.
              apply elem_of_cons in Hin as [->|Hin]; [congruence|]. auto.
    + apply IH in Hrun as (Hnone & l1 & l2 & l3 & -> & Hpres & Habs). split; [done|].
      exists l1, l2, (id0 :: l3). simpl. rewrite <- !app_assoc. split; [done|].
      split; [done|]. intros object_id Hin Hn.
      apply elem_of_cons in Hin as [->|Hin]; [by left|]. right. auto.
Qed.

(** Whatever [GetObjects] evicts and reconstructs on its way, an id the
    table does not know is still unknown afterwards, and if it was asked for
    it is reported as nonexistent, and neither as sealed nor as
    reconstructed. *)
Theorem GetObjects_unknown fuel (l : list ObjectID) client d sealed reconstructed
    nonexistent d' :
  GetObjects kBlockSize wall_clock fuel l client [] [] [] d
    = Done (sealed, reconstructed, nonexistent) d' ->
  forall object_id,
    object_table_ d !! object_id = None ->
    object_table_ d' !! object_id = None
    /\ (object_id ∈ l ->
        object_id ∈ nonexistent /\ (object_id ∉ sealed)
        /\ (object_id ∉ reconstructed)).
Proof.
  intros Hrun object_id Hnone.
  destruct (get_each kBlockSize wall_clock fuel client l ([], [], []) d)
    as [acc d1| |] eqn:Hloop.
  - destruct (GetObjects_after_first_loop kBlockSize wall_clock fuel l client [] [] [] d
                acc d1 _ d' Hloop Hrun) as (Htab & Hs & Hn & Hr).
    apply get_each_absent in Hloop as (Hnone1 & l1 & l2 & l3 & -> & Hpres & Habs).
    simpl in *. subst sealed nonexistent.
    split; [rewrite Htab; auto|]. intros Hin. split; [auto|].
    assert (Hno : forall x, x ∈ l1 ++ l2 -> x <> object_id).
    { intros x Hx ->. destruct (Hpres _ Hx) as [? Hsome]. congruence. }
    split.
    + intros Hm. apply (Hno object_id); [apply elem_of_app; by left|done].
    + destruct Hr as [->| ->]; [by apply not_elem_of_nil|].
      intros Hm. apply (Hno object_id); [apply elem_of_app; by right|done].
  - unfold GetObjects in Hrun. by rewrite (bind_CheckFailed _ _ _ Hloop) in Hrun.
  - unfold GetObjects, bind in Hrun. by rewrite Hloop in Hrun.
Qed.

End MoreProperties.

(** * Properties of the store calls *)

Section StoreCallProperties.

Context {C : Type} `{!PlasmaClient C}.

Implicit Types this : ObjectStoreCallIPC C.
Implicit Types pinned : gmap ObjectID RayObject.

Lemma pin_each_pins (object_ids : list ObjectID) : forall plasma_results pinned,
  (length object_ids <= length plasma_results)%nat ->
  NoDup (objects_to_pin object_ids plasma_results).*1 ->
  (forall object_id, object_id ∈ (objects_to_pin object_ids plasma_results).*1 ->
     pinned !! object_id = None) ->
  pin_each object_ids plasma_results pinned
  = Returned tt (list_to_map (objects_to_pin object_ids plasma_results) ∪ pinned).
Proof.
  induction object_ids as [|id0 rest IH]; intros results pinned Hlen Hnd Hfree.
  - simpl. unfold objects_to_pin. simpl. by rewrite (left_id_L ∅ (∪)).
  - destruct results as [|r results]; [simpl in Hlen; lia|].
    simpl in Hlen. simpl. unfold objects_to_pin in *. simpl in *.
    destruct (ob_data r) as [data|] eqn:Hdata; simpl in *.
    + apply NoDup_cons in Hnd as [Hnotin Hnd].
      rewrite Hfree by (by left).
      rewrite IH.
      * f_equal. rewrite <- insert_union_r; [by rewrite insert_union_l|].
        by apply not_elem_of_list_to_map_1.
      * lia.
      * done.
      * intros object_id Hin. rewrite lookup_insert_ne by (intros <-; done).
        apply Hfree. by right.
    + apply IH; [lia|done|done].
Qed.

(** [PinObjects] asks the store for the objects without waiting. If the
    store answers an error, the error is returned and nothing is pinned. If
    it answers one result per id, the ids whose result carries data being
    distinct and not pinned yet, [PinObjects] returns OK and pins exactly
    these ids, each with the data and the metadata of its result; the ids
    without data are skipped and what was pinned before stays. *)
Theorem PinObjects_pins (object_ids : list ObjectID) this status plasma_results client' :
  PlasmaClient_Get object_ids 0 (store_client_ this) = (status, plasma_results, client') ->
  (status <> StatusOK ->
     PinObjects object_ids this
     = Returned status (mkObjectStoreCallIPC client' (pinned_objects_ this)))
  /\ (status = StatusOK ->
      length plasma_results = length object_ids ->
      NoDup (objects_to_pin object_ids plasma_results).*1 ->
      (forall object_id, object_id ∈ (objects_to_pin object_ids plasma_results).*1 ->
         pinned_objects_ this !! object_id = None) ->
      PinObjects object_ids this
      = Returned StatusOK
          (mkObjectStoreCallIPC client'
             (list_to_map (objects_to_pin object_ids plasma_results)
                ∪ pinned_objects_ this))).
Proof.
  intros HGet. unfold PinObjects. rewrite HGet. split.
  - intros Hs. by destruct status.
  - intros -> Hlen Hnd Hfree. simpl. rewrite pin_each_pins; [done|lia|done|done].
Qed.

Lemma pin_each_pinned (object_ids : list ObjectID) : forall plasma_results pinned i object_id r,
  object_ids !! i = Some object_id ->
  plasma_results !! i = Some r ->
  is_Some (ob_data r) ->
  is_Some (pinned !! object_id) ->
  pin_each object_ids plasma_results pinned = Stopped.
Proof.
  induction object_ids as [|id0 rest IH]; intros results pinned i object_id r Hi Hr Hdata Hpin;
    [done|].
  destruct results as [|r0 results]; [done|]. simpl.
  destruct i as [|i]; simpl in Hi, Hr.
  - injection Hi as ->. injection Hr as ->. destruct Hdata as [data ->].
    by destruct Hpin as [o ->].
  - destruct (ob_data r0); [|by eapply IH].
    destruct (pinned !! id0) eqn:Hp0; [done|].
    eapply IH; [done|done|done|].
    destruct (decide (id0 = object_id)) as [->|Hne].
    + by rewrite lookup_insert_eq.
    + by rewrite lookup_insert_ne.
Qed.

Lemma pin_each_twice (object_ids : list ObjectID) : forall plasma_results pinned i j object_id ri rj,
  (i < j)%nat ->
  object_ids !! i = Some object_id ->
  object_ids !! j = Some object_id ->
  plasma_results !! i = Some ri ->
  plasma_results !! j = Some rj ->
  is_Some (ob_data ri) ->
  is_Some (ob_data rj) ->
  pin_each object_ids plasma_results pinned = Stopped.
Proof.
  induction object_ids as [|id0 rest IH];
    intros results pinned i j object_id ri rj Hij Hi Hj Hri Hrj Hdi Hdj; [done|].
  destruct results as [|r0 results]; [done|]. simpl.
  destruct j as [|j]; [lia|]. simpl in Hj, Hrj.
  destruct i as [|i]; simpl in Hi, Hri.
  - injection Hi as ->. injection Hri as ->. destruct Hdi as [data ->].
    destruct (pinned !! object_id); [done|].
    eapply pin_each_pinned; [done|done|done|]. by rewrite lookup_insert_eq.
  - destruct (ob_data r0); [|eapply (IH _ _ i j); try done; lia].
    destruct (pinned !! id0); [done|].
    eapply (IH _ _ i j); try done; lia.
Qed.

(** [PinObjects] stops the process when the store answers data for an id
    that is pinned already, or for an id that is asked for twice. *)
Theorem PinObjects_pinned_already (object_ids : list ObjectID) this plasma_results client' :
  PlasmaClient_Get object_ids 0 (store_client_ this) = (StatusOK, plasma_results, client') ->
  (forall i object_id r,
     object_ids !! i = Some object_id ->
     plasma_results !! i = Some r ->
     is_Some (ob_data r) ->
     is_Some (pinned_objects_ this !! object_id) ->
     PinObjects object_ids this = Stopped)
  /\ (forall i j object_id ri rj,
        (i < j)%nat ->
        object_ids !! i = Some object_id ->
        object_ids !! j = Some object_id ->
        plasma_results !! i = Some ri ->
        plasma_results !! j = Some rj ->
        is_Some (ob_data ri) ->
        is_Some (ob_data rj) ->
        PinObjects object_ids this = Stopped).
Proof.
  intros HGet. split.
  - intros i object_id r Hi Hr Hdata Hpin. unfold PinObjects. rewrite HGet. simpl.
    by rewrite (pin_each_pinned object_ids plasma_results _ i object_id r).
  - intros i j object_id ri rj Hij Hi Hj Hri Hrj Hdi Hdj. unfold PinObjects.
    rewrite HGet. simpl.
    by rewrite (pin_each_twice object_ids plasma_results _ i j object_id ri rj).
Qed.

(** Pinning one object that was not pinned and unpinning it again gives
    back the pinned objects as they were; [UnPinObject] answers OK. *)
Theorem PinObjects_then_UnPinObject object_id this this' :
  pinned_objects_ this !! object_id = None ->
  PinObjects [object_id] this = Returned StatusOK this' ->
  UnPinObject object_id this'
  = (StatusOK, mkObjectStoreCallIPC (store_client_ this') (pinned_objects_ this)).
Proof.
  intros Hfree. unfold PinObjects, UnPinObject.
  destruct (PlasmaClient_Get [object_id] 0 (store_client_ this))
    as [[status results] client'].
  destruct (ok status) eqn:Hok; simpl.
  - destruct results as [|r results]; [done|]. simpl.
    destruct (ob_data r).
    + rewrite Hfree. intros [= <-]. simpl.
      by rewrite delete_insert_eq, delete_id.
    + intros [= <-]. simpl. by rewrite delete_id.
  - intros [= -> <-]. simpl. by rewrite delete_id.
Qed.

(** [MarkObjectAsFailed] never answers ObjectExists: an object that is
    marked already counts as marked, and the answer is OK exactly when the
    store answered OK or ObjectExists; any other answer of the store is passed
    on as it is. The pinned objects are not touched. *)
Theorem MarkObjectAsFailed_answers object_id (error_type : Z) this :
  let answer := (PlasmaClient_CreateAndSeal object_id EmptyString (pretty error_type)
                   (store_client_ this)).1 in
  let r := MarkObjectAsFailed object_id error_type this in
  r.1 <> StatusObjectExists
  /\ (r.1 = StatusOK <-> answer = StatusOK \/ answer = StatusObjectExists)
  /\ (r.1 = answer \/ answer = StatusObjectExists)
  /\ pinned_objects_ r.2 = pinned_objects_ this.
Proof.
  unfold MarkObjectAsFailed.
  destruct (PlasmaClient_CreateAndSeal object_id EmptyString (pretty error_type)
              (store_client_ this)) as [status client'].
  simpl. destruct status; simpl; repeat split; try done; try tauto; try (by intros [|]).
Qed.

End StoreCallProperties.

(** * The further properties on examples *)

(** ** GetObjects *)

Lemma GetObjects_without_evicted_witness :
  GetObjects 64 example_clock 8 [1%N; 2%N; 3%N; 9%N] client_C [] [] [] four_cases
  = Done ([2%N; 3%N], [], [1%N; 9%N]) four_cases.
Proof.
  rewrite (GetObjects_without_evicted 64 example_clock 8 [1%N; 2%N; 3%N; 9%N] client_C
             [] [] [] four_cases).
  - vm_compute; reflexivity.
  - intros object_id e Hin Hl Hs.
    assert (Hst : state <$> (object_table_ four_cases !! object_id) = Some PLASMA_EVICTED)
      by (rewrite Hl; simpl; congruence).
    repeat (apply elem_of_cons in Hin as [->|Hin]);
      [vm_compute in Hst; discriminate ..|by apply elem_of_nil in Hin].
Defined.

Lemma GetObjects_unknown_witness :
  let d' := exec (GetObjects 64 example_clock 8 [4%N; 9%N] client_B [] [] [])
                 spilled_object in
  object_table_ d' !! 9%N = None
  /\ (9%N ∈ [4%N; 9%N] -> 9%N ∈ [9%N] /\ (9%N ∉ @nil ObjectID) /\ (9%N ∉ @nil ObjectID)).
Proof.
  apply (GetObjects_unknown 64 example_clock 8 [4%N; 9%N] client_B spilled_object
           [] [] [9%N]).
  - vm_compute; reflexivity.
  - vm_compute; reflexivity.
Defined.

(** ** References *)

Lemma Register_then_Remove_witness :
  exists d',
    (RegisterSealedObjectToClient 3 client_B ;;;
     RemoveFromClientObjectIds 3 (InTable 3%N) client_B) one_idle_object
      = Done (1, InTable 3%N) d'
    /\ object_table_ d' = object_table_ one_idle_object
    /\ (forall c, object_ids c d' = object_ids c one_idle_object)
    /\ eviction_policy_ d' = mkPolicy [(3%N, 128)].
Proof.
  destruct (Register_then_Remove one_idle_object 3%N client_B
              (mkEntry PLASMA_SEALED 128 0 (Some 0) 0 3 256 0 0 1000 1))
    as (d' & Hrun & Htab & Hids & Hpol & _).
  - vm_compute; reflexivity.
  - evaluate.
  - intros _. evaluate.
  - exists d'. split; [exact Hrun|]. split; [exact Htab|]. split; [exact Hids|].
    rewrite Hpol. vm_compute; reflexivity.
Defined.

(** ** CreateObject *)

Lemma CreateObject_new_witness :
  exists d',
    CreateObject 64 example_clock 8 1 false 100 20 0 client_A (new_directory 1024 None)
    = Done (StatusOK, Some (mkPlasmaObject 3 0 100 100 20 0 1024 true)) d'
    /\ object_table_ d'
       = {[1%N := mkEntry PLASMA_CREATED 100 20 (Some 0) 0 3 1024 0 1 1000 (-1)]}
    /\ object_ids client_A d' = {[1%N]}
    /\ notified d' = [].
Proof.
  destruct (CreateObject_new 64 example_clock 7 (new_directory 1024 None) 1%N 100 20
              client_A 0 (mkAllocator 1024 120 120) 3 1024 0)
    as (d' & Hrun & Htab & Hids & _ & _ & _ & Hnot & _).
  - vm_compute; reflexivity.
  - unfold is_int64; lia.
  - unfold is_int64; lia.
  - vm_compute; reflexivity.
  - evaluate.
  - vm_compute; reflexivity.
  - vm_compute; reflexivity.
  - lia.
  - exists d'. split; [exact Hrun|]. split; [rewrite Htab; vm_compute; reflexivity|].
    split; [rewrite Hids; vm_compute; reflexivity|]. rewrite Hnot. reflexivity.
Defined.

(** The three refusals; the second on sizes whose sum overflows: on 64 bits
    [2 ^ 63 - 1 + 1] is negative. *)
Lemma CreateObject_refused_witness :
  CreateObject 64 example_clock 8 2 true 10 0 0 client_A four_cases
    = Done (StatusObjectExists, None) four_cases
  /\ CreateObject 64 example_clock 8 9 true 0 0 0 client_A four_cases = CheckFailed
  /\ CreateObject 64 example_clock 8 9 true (2 ^ 63 - 1) 1 0 client_A four_cases
     = CheckFailed
  /\ CreateObject 64 example_clock 8 9 true 10 0 1 client_A four_cases
     = Done (StatusOutOfMemory, None) four_cases.
Proof.
  assert (H10 : is_int64 10) by (unfold is_int64; lia).
  assert (H0 : is_int64 0) by (unfold is_int64; lia).
  assert (H1 : is_int64 1) by (unfold is_int64; lia).
  assert (Hmax : is_int64 (2 ^ 63 - 1)) by (unfold is_int64; lia).
  split; [|split; [|split]].
  - apply (proj1 (CreateObject_refused 64 example_clock 8 four_cases 2%N true 10 0 0
                    client_A H10 H0)).
    evaluate.
  - apply (proj1 (proj2 (CreateObject_refused 64 example_clock 8 four_cases 9%N true 0 0 0
                           client_A H0 H0))).
    + vm_compute; reflexivity.
    + vm_compute. discriminate.
  - apply (proj1 (proj2 (CreateObject_refused 64 example_clock 8 four_cases 9%N true
                           (2 ^ 63 - 1) 1 0 client_A Hmax H1))).
    + vm_compute; reflexivity.
    + vm_compute. discriminate.
  - apply (proj2 (proj2 (CreateObject_refused 64 example_clock 8 four_cases 9%N true 10 0 1
                           client_A H10 H0))).
    + vm_compute; reflexivity.
    + vm_compute; reflexivity.
    + lia.
Defined.

(** The second case: on 64 bits, [- 2 ^ 63 + (-1)] is [2 ^ 63 - 1], which is
    positive: the check passes and the allocator is asked for that much. *)
Lemma CreateObject_full_without_eviction_witness :
  CreateObject 64 example_clock 8 5 false 250 0 0 client_A nearly_full
    = Done (StatusOutOfMemory, None) nearly_full
  /\ CreateObject 64 example_clock 8 5 false (- 2 ^ 63) (-1) 0 client_A nearly_full
     = Done (StatusOutOfMemory, None) nearly_full.
Proof.
  split.
  - rewrite (CreateObject_full_without_eviction 64 example_clock 7 nearly_full 5%N 250 0
               client_A (allocator nearly_full)).
    + vm_compute; reflexivity.
    + vm_compute; reflexivity.
    + unfold is_int64; lia.
    + unfold is_int64; lia.
    + vm_compute; reflexivity.
    + vm_compute; reflexivity.
  - rewrite (CreateObject_full_without_eviction 64 example_clock 7 nearly_full 5%N
               (- 2 ^ 63) (-1) client_A (allocator nearly_full)).
    + vm_compute; reflexivity.
    + vm_compute; reflexivity.
    + unfold is_int64; lia.
    + unfold is_int64; lia.
    + vm_compute; reflexivity.
    + vm_compute; reflexivity.
Defined.

Lemma CreateObject_after_eviction_witness :
  exists d',
    CreateObject 64 example_clock 8 5 true 150 0 0 client_A two_idle_objects
    = Done (StatusOK, Some (mkPlasmaObject 3 200 350 150 0 0 256 true)) d'
    /\ object_table_ d'
       = <[5%N := mkEntry PLASMA_CREATED 150 0 (Some 200) 0 3 256 200 1 1004 (-1)]>
           (object_table_ two_idle_objects_evicted)
    /\ object_ids client_A d' = {[5%N]}.
Proof.
  destruct (CreateObject_after_eviction 64 example_clock 6 two_idle_objects 5%N 150 0
              client_A
              [] (eviction_policy_ two_idle_objects)
              (upd_eviction_policy (fun _ => eviction_policy_ two_idle_objects)
                 two_idle_objects)
              (allocator two_idle_objects)
              [3%N; 4%N] (mkPolicy []) two_idle_objects_evicted
              200 (mkAllocator 256 150 350) 3 256 200)
    as (d' & Hrun & Htab & _ & _ & Hids & _).
  - vm_compute; reflexivity.
  - unfold is_int64; lia.
  - unfold is_int64; lia.
  - vm_compute; reflexivity.
  - evaluate.
  - vm_compute; reflexivity.
  - vm_compute; reflexivity.
  - vm_compute; reflexivity.
  - vm_compute; reflexivity.
  - vm_compute; reflexivity.
  - vm_compute; reflexivity.
  - vm_compute; reflexivity.
  - lia.
  - exists d'. split; [exact Hrun|]. split; [rewrite Htab; vm_compute; reflexivity|].
    rewrite Hids. vm_compute; reflexivity.
Defined.

(** ** CreateAndSealObject *)

Lemma CreateAndSealObject_new_witness :
  exists d',
    CreateAndSealObject 64 example_clock 8 1 false (bytes 100) (bytes 20) 0 client_A
                        (new_directory 1024 None)
    = Done (StatusOK, Some (mkPlasmaObject 3 0 100 100 20 0 1024 true)) d'
    /\ object_table_ d'
       = {[1%N := mkEntry PLASMA_SEALED 100 20 (Some 0) 0 3 1024 0 0 1000 1]}
    /\ (forall c, object_ids c d' = object_ids c (new_directory 1024 None))
    /\ notified d' = [[mkInfo 1 100 20 false]].
Proof.
  destruct (CreateAndSealObject_new 64 example_clock 7 (new_directory 1024 None) 1%N
              (bytes 100) (bytes 20) client_A 0 (mkAllocator 1024 120 120) 3 1024 0)
    as (d' & Hrun & Htab & Hids & Hnot & _).
  - vm_compute; reflexivity.
  - vm_compute. split; reflexivity.
  - evaluate.
  - evaluate.
  - vm_compute; reflexivity.
  - vm_compute; reflexivity.
  - lia.
  - exists d'. split; [exact Hrun|]. split; [rewrite Htab; vm_compute; reflexivity|].
    split; [exact Hids|]. rewrite Hnot. vm_compute; reflexivity.
Defined.

Lemma CreateAndSealObject_refused_witness :
  CreateAndSealObject 64 example_clock 8 9 true (bytes 10) [] 1 client_A four_cases
    = CheckFailed
  /\ CreateAndSealObject 64 example_clock 8 2 true (bytes 10) [] 0 client_A four_cases
     = Done (StatusObjectExists, None) four_cases
  /\ CreateAndSealObject 64 example_clock 8 9 true [] [] 0 client_A four_cases
     = CheckFailed.
Proof.
  split; [|split].
  - apply (proj1 (CreateAndSealObject_refused 64 example_clock 8 four_cases 9%N true
                    (bytes 10) [] 1 client_A)).
    lia.
  - apply (proj1 (proj2 (CreateAndSealObject_refused 64 example_clock 8 four_cases 2%N true
                           (bytes 10) [] 0 client_A))).
    evaluate.
  - apply (proj2 (proj2 (CreateAndSealObject_refused 64 example_clock 8 four_cases 9%N true
                           [] [] 0 client_A))).
    vm_compute; reflexivity.
Defined.

(** ** EvictObjectsInternal *)

Lemma EvictObjectsInternal_unfit_witness :
  EvictObjectsInternal [3%N; 2%N] four_cases = CheckFailed
  /\ EvictObjectsInternal [3%N; 9%N] four_cases = CheckFailed
  /\ EvictObjectsInternal [3%N; 1%N] four_cases = CheckFailed
  /\ EvictObjectsInternal [3%N; 3%N] four_cases = CheckFailed.
Proof.
  split; [|split; [|split]].
  - apply (proj1 (EvictObjectsInternal_unfit [3%N; 2%N] four_cases) 2%N); [evaluate|].
    intros e He. vm_compute in He. injection He as <-. by right.
  - apply (proj1 (EvictObjectsInternal_unfit [3%N; 9%N] four_cases) 9%N); [evaluate|].
    intros e He. vm_compute in He. discriminate.
  - apply (proj1 (EvictObjectsInternal_unfit [3%N; 1%N] four_cases) 1%N); [evaluate|].
    intros e He. vm_compute in He. injection He as <-. by left.
  - apply (proj2 (EvictObjectsInternal_unfit [3%N; 3%N] four_cases)).
    + vm_compute; reflexivity.
    + evaluate.
Defined.

Lemma EvictObjectsInternal_spill_witness :
  (exists d',
     EvictObjectsInternal [4%N] idle_with_store = Done tt d'
     /\ object_table_ d' !! 4%N
        = Some (mkEntry PLASMA_EVICTED 128 0 None 0 (-1) 0 0 0 1000 1)
     /\ external_store_ d' = Some (mkStore {[4%N]} true)
     /\ notified d' = notified idle_with_store)
  /\ EvictObjectsInternal [4%N] idle_with_store_offline = CheckFailed.
Proof.
  pose (e4 := mkEntry PLASMA_SEALED 128 0 (Some 0) 0 3 256 0 0 1000 1).
  assert (Hstore1 : external_store_ idle_with_store = Some (mkStore ∅ true))
    by (vm_compute; reflexivity).
  assert (Hstore2 : external_store_ idle_with_store_offline = Some (mkStore ∅ false))
    by (vm_compute; reflexivity).
  assert (Hl : [4%N] <> []) by discriminate.
  assert (H4 : Forall2 (fun object_id e =>
                          object_table_ idle_with_store !! object_id = Some e
                          /\ state e = PLASMA_SEALED /\ ref_count e = 0) [4%N] [e4]).
  { constructor; [|constructor]. split; [vm_compute; reflexivity|]. split; reflexivity. }
  assert (H4' : Forall2 (fun object_id e =>
                           object_table_ idle_with_store_offline !! object_id = Some e
                           /\ state e = PLASMA_SEALED /\ ref_count e = 0) [4%N] [e4]).
  { constructor; [|constructor]. split; [vm_compute; reflexivity|]. split; reflexivity. }
  split.
  - destruct (proj1 (EvictObjectsInternal_spill [4%N] [e4] idle_with_store (mkStore ∅ true)
                       Hstore1 Hl H4)
                    (mkStore {[4%N]} true))
      as (d' & Hrun & Hin & _ & Hstore & Hnot & _).
    + vm_compute; reflexivity.
    + exists d'. split; [exact Hrun|]. split.
      * rewrite (Hin 4%N e4); [vm_compute; reflexivity|evaluate|vm_compute; reflexivity].
      * split; [exact Hstore|exact Hnot].
  - apply (proj2 (EvictObjectsInternal_spill [4%N] [e4] idle_with_store_offline
                    (mkStore ∅ false) Hstore2 Hl H4')
                 StatusIOError (mkStore ∅ false)).
    + vm_compute; reflexivity.
    + discriminate.
Defined.

(** ** DisconnectClient *)

Lemma DisconnectClient_without_store_witness :
  (exists d',
     DisconnectClient client_A four_cases = Done tt d'
     /\ object_table_ d' !! 1%N = None
     /\ object_table_ d' !! 2%N = object_table_ four_cases !! 2%N
     /\ 1%N ∈ object_ids client_A d')
  /\ (exists d',
        DisconnectClient client_B four_cases = Done tt d'
        /\ (ref_count <$> (object_table_ d' !! 2%N)) = Some 0
        /\ object_table_ d' !! 1%N = object_table_ four_cases !! 1%N
        /\ (2%N ∉ object_ids client_B d')).
Proof.
  assert (Hstore : external_store_ four_cases = None) by (vm_compute; reflexivity).
  split.
  - destruct (DisconnectClient_without_store four_cases client_A Hstore)
      as (d' & Hrun & Hout & Hunsealed & _ & Hset & _).
    exists d'. split; [exact Hrun|]. split.
    { apply (Hunsealed 1%N (mkEntry PLASMA_CREATED 100 20 (Some 0) 0 3 1024 0 1 1000 (-1)));
        [evaluate|vm_compute; reflexivity|discriminate]. }
    split; [apply Hout; evaluate|].
    apply Hset. split; [evaluate|]. vm_compute. discriminate.
  - destruct (DisconnectClient_without_store four_cases client_B Hstore)
      as (d' & Hrun & Hout & _ & Hsealed & Hset & _).
    exists d'. split; [exact Hrun|]. split.
    { destruct (Hsealed 2%N (mkEntry PLASMA_SEALED 30 0 (Some 120) 0 3 1024 120 1 1001 1))
        as (e' & -> & Href); [evaluate|vm_compute; reflexivity|reflexivity|].
      simpl. rewrite Href. reflexivity. }
    split; [apply Hout; evaluate|].
    intros Hin. apply Hset in Hin as [_ Hne]. apply Hne. vm_compute; reflexivity.
Defined.

(** ** The store calls *)

Lemma PinObjects_pins_witness :
  PinObjects [1%N; 5%N; 2%N] raylet_example
  = Returned StatusOK
      (mkObjectStoreCallIPC (store_client_ raylet_example)
         {[1%N := mkRayObject (Some "a") (Some "m");
           2%N := mkRayObject (Some "bb") (Some EmptyString)]}).
Proof.
  assert (Hget : PlasmaClient_Get [1%N; 5%N; 2%N] 0 (store_client_ raylet_example)
                 = (StatusOK,
                    [mkObjectBuffer (Some "a") (Some "m");
                     mkObjectBuffer None None;
                     mkObjectBuffer (Some "bb") (Some EmptyString)],
                    store_client_ raylet_example))
    by (vm_compute; reflexivity).
  rewrite (proj2 (PinObjects_pins _ _ _ _ _ Hget) eq_refl eq_refl).
  - vm_compute; reflexivity.
  - evaluate.
  - intros object_id _. apply lookup_empty.
Defined.

Lemma PinObjects_pinned_already_witness :
  PinObjects [1%N] raylet_pinned = Stopped
  /\ PinObjects [2%N; 2%N] raylet_example = Stopped.
Proof.
  assert (Hget1 : PlasmaClient_Get [1%N] 0 (store_client_ raylet_pinned)
                  = (StatusOK, [mkObjectBuffer (Some "a") (Some "m")],
                     store_client_ raylet_pinned))
    by (vm_compute; reflexivity).
  assert (Hget2 : PlasmaClient_Get [2%N; 2%N] 0 (store_client_ raylet_example)
                  = (StatusOK,
                     [mkObjectBuffer (Some "bb") (Some EmptyString);
                      mkObjectBuffer (Some "bb") (Some EmptyString)],
                     store_client_ raylet_example))
    by (vm_compute; reflexivity).
  split.
  - apply (proj1 (PinObjects_pinned_already _ _ _ _ Hget1)
                 0%nat 1%N (mkObjectBuffer (Some "a") (Some "m")));
      [reflexivity|reflexivity|evaluate|evaluate].
  - apply (proj2 (PinObjects_pinned_already _ _ _ _ Hget2)
                 0%nat 1%nat 2%N (mkObjectBuffer (Some "bb") (Some EmptyString))
                 (mkObjectBuffer (Some "bb") (Some EmptyString)));
      [lia|reflexivity|reflexivity|reflexivity|reflexivity|evaluate|evaluate].
Defined.

Lemma PinObjects_then_UnPinObject_witness :
  UnPinObject 1%N raylet_pinned
  = (StatusOK,
     mkObjectStoreCallIPC (store_client_ raylet_pinned) (pinned_objects_ raylet_example)).
Proof.
  apply (PinObjects_then_UnPinObject 1%N raylet_example raylet_pinned).
  - vm_compute; reflexivity.
  - vm_compute; reflexivity.
Defined.
